(** * blzlib: a shallow embedding of [blzlib.c] and its checked properties

    [blzlib.c] is a synchronous facade over the asynchronous sd-bus API of
    BlueZ.  Everything it does is an interaction with collaborators that are
    not part of the repository (the bus, the allocator, the clock), so the
    embedding is a state-and-trace monad over

    - a heap of the library's own objects (contexts, device handles,
      characteristic handles, UUID lists), addressed by pointers, because
      the bus callbacks and the blocking calls share those objects;
    - a [World]: a test double that answers every external call;
    - the trace of all external calls, in program order.

    Undefined behaviour of the C program that the source can reach (a
    dereference of a dangling pointer, a second [free]) is a [Fault]
    outcome.  The only loop of the file, in [blz_loop_timeout], takes fuel. *)

From Stdlib Require Import ZArith String List Lia Strings.Byte.
From stdpp Require Import base gmap strings list.

Open Scope string_scope.
Open Scope list_scope.
Open Scope Z_scope.

(** ** Machine integers *)

(** Conversion to [uint32_t]. *)
Definition to_uint32 (z : Z) : Z := z mod 2 ^ 32.

(** Conversion to [int] (32 bits, two's complement). *)
Definition to_int (z : Z) : Z := (z + 2 ^ 31) mod 2 ^ 32 - 2 ^ 31.

(** The initial value [(size_t)-1] of [rlen] in [blz_char_read]. *)
Definition SIZE_MAX : Z := 2 ^ 64 - 1.

(** [EINTR] of <errno.h> on Linux. *)
Definition EINTR : Z := 4.

(** ** Declarations of the headers that are not part of the sources *)

(** The address type of [blzlib.h]. *)
Inductive blz_addr_type := BLZ_ADDR_UNKNOWN | BLZ_ADDR_PUBLIC | BLZ_ADDR_RANDOM.

Definition is_public (a : blz_addr_type) : bool :=
  match a with BLZ_ADDR_PUBLIC => true | _ => false end.

Definition is_unknown (a : blz_addr_type) : bool :=
  match a with BLZ_ADDR_UNKNOWN => true | _ => false end.

(** Constants, and the one helper [blz_connect] formats its path with, of
    [blzlib.h], [blzlib_internal.h] and [blzlib_util.h]: parameters of the
    development. *)
Class Headers := {
  DBUS_PATH_MAX_LEN : Z;
  CONNECT_NEW_TIMEOUT : Z;
  BLZ_CHAR_READ : Z;
  BLZ_CHAR_WRITE_WITHOUT_RESPONSE : Z;
  BLZ_CHAR_WRITE : Z;
  BLZ_CHAR_NOTIFY : Z;
  BLZ_CHAR_INDICATE : Z;
  blz_string_to_mac : string -> list Z
}.

(** ** The library's objects *)

Definition NULL : N := 0%N.

(** [struct blz_context] *)
Record blz_context := {
  ctx_bus : N;
  ctx_path : string;
  scan_slot : N;
  scan_cb : N
}.

(** [struct blz_dev] *)
Record blz_dev := {
  dev_ctx : N;
  dev_path : string;
  connected : bool;
  services_resolved : bool;
  connect_slot : N;
  disconnect_cb : N;
  service_uuids : N;
  char_uuids : N;
  connect_new_done : bool;
  connect_new_result : Z
}.

(** [struct blz_char] *)
Record blz_char := {
  ch_ctx : N;
  ch_dev : N;
  ch_path : string;
  ch_uuid : string;
  ch_flags : Z;
  notify_slot : N;
  notify_cb : N;
  notifying : bool
}.

(** What [calloc(1, sizeof(struct blz_dev))] returns. *)
Definition zeroed_dev : blz_dev :=
  {| dev_ctx := NULL; dev_path := ""; connected := false;
     services_resolved := false; connect_slot := NULL; disconnect_cb := NULL;
     service_uuids := NULL; char_uuids := NULL; connect_new_done := false;
     connect_new_result := 0 |}.

Definition set_dev_ctx (v : N) (d : blz_dev) : blz_dev :=
  {| dev_ctx := v; dev_path := dev_path d; connected := connected d;
     services_resolved := services_resolved d; connect_slot := connect_slot d;
     disconnect_cb := disconnect_cb d; service_uuids := service_uuids d;
     char_uuids := char_uuids d; connect_new_done := connect_new_done d;
     connect_new_result := connect_new_result d |}.

Definition set_dev_path (v : string) (d : blz_dev) : blz_dev :=
  {| dev_ctx := dev_ctx d; dev_path := v; connected := connected d;
     services_resolved := services_resolved d; connect_slot := connect_slot d;
     disconnect_cb := disconnect_cb d; service_uuids := service_uuids d;
     char_uuids := char_uuids d; connect_new_done := connect_new_done d;
     connect_new_result := connect_new_result d |}.

Definition set_connected (v : bool) (d : blz_dev) : blz_dev :=
  {| dev_ctx := dev_ctx d; dev_path := dev_path d; connected := v;
     services_resolved := services_resolved d; connect_slot := connect_slot d;
     disconnect_cb := disconnect_cb d; service_uuids := service_uuids d;
     char_uuids := char_uuids d; connect_new_done := connect_new_done d;
     connect_new_result := connect_new_result d |}.

Definition set_services_resolved (v : bool) (d : blz_dev) : blz_dev :=
  {| dev_ctx := dev_ctx d; dev_path := dev_path d; connected := connected d;
     services_resolved := v; connect_slot := connect_slot d;
     disconnect_cb := disconnect_cb d; service_uuids := service_uuids d;
     char_uuids := char_uuids d; connect_new_done := connect_new_done d;
     connect_new_result := connect_new_result d |}.

Definition set_connect_slot (v : N) (d : blz_dev) : blz_dev :=
  {| dev_ctx := dev_ctx d; dev_path := dev_path d; connected := connected d;
     services_resolved := services_resolved d; connect_slot := v;
     disconnect_cb := disconnect_cb d; service_uuids := service_uuids d;
     char_uuids := char_uuids d; connect_new_done := connect_new_done d;
     connect_new_result := connect_new_result d |}.

Definition set_disconnect_cb (v : N) (d : blz_dev) : blz_dev :=
  {| dev_ctx := dev_ctx d; dev_path := dev_path d; connected := connected d;
     services_resolved := services_resolved d; connect_slot := connect_slot d;
     disconnect_cb := v; service_uuids := service_uuids d;
     char_uuids := char_uuids d; connect_new_done := connect_new_done d;
     connect_new_result := connect_new_result d |}.

Definition set_connect_new_done (v : bool) (d : blz_dev) : blz_dev :=
  {| dev_ctx := dev_ctx d; dev_path := dev_path d; connected := connected d;
     services_resolved := services_resolved d; connect_slot := connect_slot d;
     disconnect_cb := disconnect_cb d; service_uuids := service_uuids d;
     char_uuids := char_uuids d; connect_new_done := v;
     connect_new_result := connect_new_result d |}.

Definition set_connect_new_result (v : Z) (d : blz_dev) : blz_dev :=
  {| dev_ctx := dev_ctx d; dev_path := dev_path d; connected := connected d;
     services_resolved := services_resolved d; connect_slot := connect_slot d;
     disconnect_cb := disconnect_cb d; service_uuids := service_uuids d;
     char_uuids := char_uuids d; connect_new_done := connect_new_done d;
     connect_new_result := v |}.

Definition set_notify_slot (v : N) (c : blz_char) : blz_char :=
  {| ch_ctx := ch_ctx c; ch_dev := ch_dev c; ch_path := ch_path c;
     ch_uuid := ch_uuid c; ch_flags := ch_flags c; notify_slot := v;
     notify_cb := notify_cb c; notifying := notifying c |}.

Definition set_notify_cb (v : N) (c : blz_char) : blz_char :=
  {| ch_ctx := ch_ctx c; ch_dev := ch_dev c; ch_path := ch_path c;
     ch_uuid := ch_uuid c; ch_flags := ch_flags c; notify_slot := notify_slot c;
     notify_cb := v; notifying := notifying c |}.

Definition set_notifying (v : bool) (c : blz_char) : blz_char :=
  {| ch_ctx := ch_ctx c; ch_dev := ch_dev c; ch_path := ch_path c;
     ch_uuid := ch_uuid c; ch_flags := ch_flags c; notify_slot := notify_slot c;
     notify_cb := notify_cb c; notifying := v |}.

(** What a pointer of the library can point to.  A [char**] list of UUIDs is
    an array of string pointers ([O_strv], the terminating [NULL] left
    implicit) whose strings are objects of their own. *)
Inductive object :=
| O_ctx (c : blz_context)
| O_dev (d : blz_dev)
| O_char (c : blz_char)
| O_strv (elems : list N)
| O_str (s : string).

(** ** The external calls *)

(** The handlers the file registers with the bus. *)
Inductive callback :=
  blz_intf_cb_fn | blz_connect_cb_fn | connect_new_cb_fn | blz_notify_cb_fn.

#[export] Instance callback_eq_dec : EqDecision callback.
Proof. solve_decision. Defined.

(** [sd_bus_error]: [SD_BUS_ERROR_NULL] is the empty one. *)
Record sd_bus_error := { err_name : string; err_message : string }.

Definition SD_BUS_ERROR_NULL : sd_bus_error :=
  {| err_name := ""; err_message := "" |}.

Definition SD_BUS_ERROR_UNKNOWN_OBJECT : string :=
  "org.freedesktop.DBus.Error.UnknownObject".

Definition sd_bus_error_has_name (e : sd_bus_error) (n : string) : bool :=
  bool_decide (err_name e = n).

(** A method call under construction: where it goes and the dictionary
    entries appended so far. *)
Record method_call := {
  mc_path : string;
  mc_interface : string;
  mc_member : string;
  mc_properties : list (string * string)
}.

(** The calls into sd-bus and libc whose answer the library waits for, with
    the arguments the source passes. *)
Inductive request :=
| sd_bus_get_property_trivial (destination path interface member : string)
| sd_bus_call_method (destination path interface member signature : string)
| sd_bus_match_signal (sender path interface member : string)
    (cb : callback) (userdata : N)
| sd_bus_message_new_method_call (destination path interface member : string)
| sd_bus_message_open_container (type contents : string)
| sd_bus_message_close_container
| sd_bus_message_append_array (data : list byte)
| msg_append_property (name value : string)
| sd_bus_call_async (m : method_call) (cb : callback) (userdata : N) (usec : Z)
| sd_bus_call (m : method_call) (data : list byte)
| sd_bus_message_read_array
| sd_bus_message_read_fd
| sd_bus_wait (timeout_usec : Z)
| dup (fd : Z).

(** The answer to a request: the [int] returned and the values written
    through the out-parameters (those the request does not have are
    ignored). *)
Record response := {
  ret : Z;
  out_error : sd_bus_error;
  out_bool : bool;
  out_slot : N;
  out_array : list byte;
  out_fd : Z
}.

(** An incoming message as the handlers read it. *)
Record sd_bus_message := {
  msg_error : option sd_bus_error;
  msg_errno : Z;
  msg_read_ret : Z;
  msg_read_path : string;
  msg_bools : list (string * bool);
  msg_value : option (list byte)
}.

(** One handler invocation made by [sd_bus_process]. *)
Record dispatch := {
  d_cb : callback;
  d_userdata : N;
  d_msg : sd_bus_message
}.

Record timespec := { tv_sec : Z; tv_nsec : Z }.

Inductive log_level := LOG_ERR | LOG_NOTI | LOG_INF.

(** Everything observable, in program order. *)
Inductive event :=
| Ev_log (lvl : log_level) (fmt : string) (args : list string)
| Ev_call (rq : request) (rs : response)
| Ev_process (r : Z) (ds : list dispatch)
| Ev_clock_gettime (ts : timespec)
| Ev_calloc (p : N)
| Ev_free (p : N)
| Ev_slot_unref (slot : N)
| Ev_bus_unref (bus : N)
| Ev_user_callback (fn : N).

(** The test double: it decides whether an allocation succeeds, what the
    monotonic clock shows, what each call answers, and what one step of
    [sd_bus_process] returns and dispatches. *)
Class World (W : Type) := {
  w_calloc : W -> bool * W;
  w_clock_gettime : W -> timespec * W;
  w_respond : W -> request -> response * W;
  w_process : W -> Z * list dispatch * W
}.

(** ** The monad *)

Inductive fault :=
| Bad_pointer (p : N)
| Bad_free (p : N).

Inductive outcome (A : Type) :=
| Done (a : A)
| Fault (f : fault)
| Out_of_fuel.
Arguments Done {A} a.
Arguments Fault {A} f.
Arguments Out_of_fuel {A}.

(** A step of the program: it ends with a result, faults or runs out of
    fuel, and in every case leaves a state behind. *)
Definition M (S A : Type) : Type := S -> outcome A * S.

Definition pure {S A} (a : A) : M S A := fun s => (Done a, s).

Definition bind {S A B} (m : M S A) (k : A -> M S B) : M S B := fun s =>
  match m s with
  | (Done a, s1) => k a s1
  | (Fault f, s1) => (Fault f, s1)
  | (Out_of_fuel, s1) => (Out_of_fuel, s1)
  end.

Definition out_of_fuel {S A} : M S A := fun s => (Out_of_fuel, s).

Notation "x <- m ;; k" := (bind m (fun x => k))
  (at level 100, m at next level, right associativity).
Notation "m ;; k" := (bind m (fun _ => k))
  (at level 100, right associativity).

Section Model.
Context {W : Type} `{World W} `{Headers}.

Record state := {
  st_world : W;
  st_heap : gmap N object;
  st_trace : list event
}.

Local Abbreviation prog := (M state).

(** *** Primitive steps *)

Definition emit (e : event) : prog unit := fun s =>
  (Done tt, {| st_world := st_world s; st_heap := st_heap s;
               st_trace := st_trace s ++ [e] |}).

Definition LOG (lvl : log_level) (fmt : string) (args : list string) : prog unit :=
  emit (Ev_log lvl fmt args).

(** An external call: the world answers, the trace records both. *)
Definition call (rq : request) : prog response := fun s =>
  let '(rs, w) := w_respond (st_world s) rq in
  (Done rs, {| st_world := w; st_heap := st_heap s;
               st_trace := st_trace s ++ [Ev_call rq rs] |}).

Definition clock_gettime : prog timespec := fun s =>
  let '(ts, w) := w_clock_gettime (st_world s) in
  (Done ts, {| st_world := w; st_heap := st_heap s;
               st_trace := st_trace s ++ [Ev_clock_gettime ts] |}).

(** The allocator hands out an address that is not in use and not NULL: the
    one after the highest address in use. *)
Definition fresh_pointer (h : gmap N object) : N :=
  N.succ (map_fold (fun p _ m => N.max p m) 0%N h).

Definition calloc (o : object) : prog N := fun s =>
  let '(ok, w) := w_calloc (st_world s) in
  if ok then
    let p := fresh_pointer (st_heap s) in
    (Done p, {| st_world := w; st_heap := <[p := o]> (st_heap s);
                st_trace := st_trace s ++ [Ev_calloc p] |})
  else
    (Done NULL, {| st_world := w; st_heap := st_heap s;
                   st_trace := st_trace s ++ [Ev_calloc NULL] |}).

(** [free(NULL)] does nothing; [free] of what is not allocated (any more) is
    undefined. *)
Definition free (p : N) : prog unit := fun s =>
  let s1 := {| st_world := st_world s; st_heap := st_heap s;
               st_trace := st_trace s ++ [Ev_free p] |} in
  if (p =? NULL)%N then (Done tt, s1)
  else match st_heap s !! p with
       | Some _ => (Done tt, {| st_world := st_world s;
                                st_heap := delete p (st_heap s);
                                st_trace := st_trace s1 |})
       | None => (Fault (Bad_free p), s1)
       end.

Definition load_ctx (p : N) : prog blz_context := fun s =>
  match st_heap s !! p with
  | Some (O_ctx c) => (Done c, s)
  | _ => (Fault (Bad_pointer p), s)
  end.

Definition load_dev (p : N) : prog blz_dev := fun s =>
  match st_heap s !! p with
  | Some (O_dev d) => (Done d, s)
  | _ => (Fault (Bad_pointer p), s)
  end.

Definition load_char (p : N) : prog blz_char := fun s =>
  match st_heap s !! p with
  | Some (O_char c) => (Done c, s)
  | _ => (Fault (Bad_pointer p), s)
  end.

Definition load_strv (p : N) : prog (list N) := fun s =>
  match st_heap s !! p with
  | Some (O_strv l) => (Done l, s)
  | _ => (Fault (Bad_pointer p), s)
  end.

Definition store (p : N) (o : object) : prog unit := fun s =>
  (Done tt, {| st_world := st_world s; st_heap := <[p := o]> (st_heap s);
               st_trace := st_trace s |}).

(** [dev->field = v] *)
Definition update_dev (p : N) (f : blz_dev -> blz_dev) : prog unit :=
  d <- load_dev p ;; store p (O_dev (f d)).

(** [ch->field = v] *)
Definition update_char (p : N) (f : blz_char -> blz_char) : prog unit :=
  c <- load_char p ;; store p (O_char (f c)).

(** [sd_bus_slot_unref] returns [NULL]. *)
Definition sd_bus_slot_unref (slot : N) : prog N :=
  emit (Ev_slot_unref slot) ;; pure NULL.

(** The [bool*] that [blz_loop_timeout] polls: a field of a handle. *)
Inductive flag_ref :=
| Services_resolved_of (dev : N)
| Connect_new_done_of (dev : N)
| Notifying_of (ch : N).

(** [*check] *)
Definition read_flag (check : flag_ref) : prog bool :=
  match check with
  | Services_resolved_of p => d <- load_dev p ;; pure (services_resolved d)
  | Connect_new_done_of p => d <- load_dev p ;; pure (connect_new_done d)
  | Notifying_of p => c <- load_char p ;; pure (notifying c)
  end.

(** *** The handlers (lines 107-118, 175-187, 208-239, 680-699) *)

(** Modelled from the spec: [msg_parse_interface] for [MSG_DEVICE], of
    [blzlib_util.c], which is not part of the sources.  It "updates a
    specific handle's boolean flags (connected, services-resolved) by name";
    unknown properties are ignored. *)
Definition msg_parse_interface_device (m : sd_bus_message) (d : blz_dev) : blz_dev :=
  fold_left (fun d '(name, b) =>
    if bool_decide (name = "Connected") then set_connected b d
    else if bool_decide (name = "ServicesResolved") then set_services_resolved b d
    else d) (msg_bools m) d.

(** Modelled from the spec: the flag update of [msg_parse_notify], of
    [blzlib_util.c], which is not part of the sources: the "notifying" flag
    follows the property of that name. *)
Definition msg_parse_notify_flags (m : sd_bus_message) (c : blz_char) : blz_char :=
  fold_left (fun c '(name, b) =>
    if bool_decide (name = "Notifying") then set_notifying b c else c)
    (msg_bools m) c.

Definition blz_intf_cb (m : sd_bus_message) (user : N) : prog Z :=
  if (user =? NULL)%N then
    LOG LOG_ERR "BLZ scan no callback" [] ;; pure (-1)
  else
    c <- load_ctx user ;;
    if (scan_cb c =? NULL)%N then
      LOG LOG_ERR "BLZ scan no callback" [] ;; pure (-1)
    else
      (* msg_parse_object hands the device found to the scan callback *)
      emit (Ev_user_callback (scan_cb c)) ;; pure (msg_read_ret m).

Definition blz_connect_cb (m : sd_bus_message) (user : N) : prog Z :=
  if (user =? NULL)%N then
    LOG LOG_ERR "BLZ conn no dev" [] ;; pure (-1)
  else
    update_dev user (msg_parse_interface_device m) ;;
    pure 0.

Definition connect_new_cb (reply : sd_bus_message) (userdata : N) : prog Z :=
  let dev := userdata in
  r <- match msg_error reply with
       | Some err =>
           let r := - msg_errno reply in
           LOG LOG_INF "BLZ connect new error: %s %s (%d)"
             [err_name err; err_message err] ;;
           pure r
       | None =>
           let r := msg_read_ret reply in
           if r <? 0 then
             LOG LOG_ERR "BLZ connect new failed to read result: %s" [] ;;
             pure r
           else
             d <- load_dev dev ;;
             if negb (bool_decide (msg_read_path reply = dev_path d)) then
               LOG LOG_ERR "BLZ connect new device paths don't match (%s %s)"
                 [msg_read_path reply; dev_path d] ;;
               pure (-1)
             else pure r
       end ;;
  (* exit: *)
  update_dev dev (set_connect_new_result r) ;;
  update_dev dev (set_connect_new_done true) ;;
  pure r.

Definition blz_notify_cb (m : sd_bus_message) (user : N) : prog Z :=
  if (user =? NULL)%N then
    LOG LOG_ERR "BLZ signal no callback" [] ;; pure (-1)
  else
    c <- load_char user ;;
    if (notify_cb c =? NULL)%N then
      LOG LOG_ERR "BLZ signal no callback" [] ;; pure (-1)
    else
      update_char user (msg_parse_notify_flags m) ;;
      let r := msg_read_ret m in
      match msg_value m with
      | Some _ =>
          if 0 <? r then emit (Ev_user_callback (notify_cb c)) ;; pure 0
          else pure 0
      | None => pure 0
      end.

(** *** The bus pump (lines 812-846) *)

Definition run_dispatch (d : dispatch) : prog Z :=
  match d_cb d with
  | blz_intf_cb_fn => blz_intf_cb (d_msg d) (d_userdata d)
  | blz_connect_cb_fn => blz_connect_cb (d_msg d) (d_userdata d)
  | connect_new_cb_fn => connect_new_cb (d_msg d) (d_userdata d)
  | blz_notify_cb_fn => blz_notify_cb (d_msg d) (d_userdata d)
  end.

Fixpoint run_dispatches (ds : list dispatch) : prog unit :=
  match ds with
  | [] => pure tt
  | d :: ds' => run_dispatch d ;; run_dispatches ds'
  end.

(** [sd_bus_process(bus, NULL)]: the world says what it returns and which
    handlers it runs before it returns. *)
Definition sd_bus_process : prog Z := fun s =>
  let '(r, ds, w) := w_process (st_world s) in
  (run_dispatches ds ;; pure r)
    {| st_world := w; st_heap := st_heap s;
       st_trace := st_trace s ++ [Ev_process r ds] |}.

Definition blz_loop (ctx : N) (timeout_us : Z) : prog unit :=
  c <- load_ctx ctx ;;
  r <- sd_bus_process ;;
  if r <? 0 then
    LOG LOG_ERR "BLZ loop process error: %s" []
  else if 0 <? r then
    pure tt
  else
    rs <- call (sd_bus_wait timeout_us) ;;
    let r := ret rs in
    if (r <? 0) && negb (- r =? EINTR) then
      LOG LOG_ERR "BLZ loop wait error: %s" []
    else pure tt.

(** [ts.tv_sec * 1000 + ts.tv_nsec / 1000000], stored in a [uint32_t]. *)
Definition ms_of_timespec (ts : timespec) : Z :=
  to_uint32 (tv_sec ts * 1000 + Z.quot (tv_nsec ts) 1000000).

(** The [while] of [blz_loop_timeout]; the argument of [blz_loop] is
    computed in [uint32_t]. *)
Fixpoint blz_loop_timeout_while (fuel : nat) (ctx : N) (check : flag_ref)
    (current_ms end_ms : Z) : prog Z :=
  b <- read_flag check ;;
  if negb b && (current_ms <? end_ms) then
    match fuel with
    | O => out_of_fuel
    | S fuel' =>
        blz_loop ctx (to_uint32 (to_uint32 (end_ms - current_ms) * 1000)) ;;
        ts <- clock_gettime ;;
        blz_loop_timeout_while fuel' ctx check (ms_of_timespec ts) end_ms
    end
  else
    b <- read_flag check ;;
    pure (if b then 0 else -1).

Definition blz_loop_timeout (fuel : nat) (ctx : N) (check : flag_ref)
    (timeout_ms : Z) : prog Z :=
  ts <- clock_gettime ;;
  let current_ms := ms_of_timespec ts in
  let end_ms := to_uint32 (current_ms + to_uint32 timeout_ms) in
  blz_loop_timeout_while fuel ctx check current_ms end_ms.

(** *** Session teardown (lines 70-77) *)

Definition blz_fini (ctx : N) : prog unit :=
  if (ctx =? NULL)%N then pure tt
  else
    c <- load_ctx ctx ;;
    emit (Ev_bus_unref (ctx_bus c)) ;;
    free ctx.

(** *** Connecting (lines 189-431) *)

Definition blz_connect_known (dev : N) (macstr : string) : prog Z :=
  d <- load_dev dev ;;
  _ <- load_ctx (dev_ctx d) ;;
  rs <- call (sd_bus_call_method "org.bluez" (dev_path d)
                "org.bluez.Device1" "Connect" "") ;;
  let r := ret rs in
  (if r <? 0 then
     LOG LOG_ERR "BLZ connect failed: %s" [err_message (out_error rs)]
   else pure tt) ;;
  pure r.

Definition SD_BUS_ERROR_UNKNOWN_METHOD : string :=
  "org.freedesktop.DBus.Error.UnknownMethod".

Definition addr_type_name (addr_public : bool) : string :=
  if addr_public then "public" else "random".

Definition append_property (name value : string) (m : method_call) : method_call :=
  {| mc_path := mc_path m; mc_interface := mc_interface m;
     mc_member := mc_member m;
     mc_properties := mc_properties m ++ [(name, value)] |}.

Definition blz_connect_new (fuel : nat) (dev : N) (macstr : string)
    (addr_public : bool) : prog Z :=
  let error := SD_BUS_ERROR_NULL in
  LOG LOG_INF "Connect new to %s (%s)" [macstr; addr_type_name addr_public] ;;
  d <- load_dev dev ;;
  c <- load_ctx (dev_ctx d) ;;
  rs <- call (sd_bus_message_new_method_call "org.bluez" (ctx_path c)
                "org.bluez.Adapter1" "ConnectDevice") ;;
  let m := {| mc_path := ctx_path c; mc_interface := "org.bluez.Adapter1";
              mc_member := "ConnectDevice"; mc_properties := [] |} in
  if ret rs <? 0 then
    LOG LOG_ERR "BLZ connect new failed to create message" [] ;; pure (ret rs)
  else
  (* open array *)
  rs <- call (sd_bus_message_open_container "a" "{sv}") ;;
  if ret rs <? 0 then
    LOG LOG_ERR "BLZ connect new failed to create message" [] ;; pure (ret rs)
  else
  rs <- call (msg_append_property "Address" macstr) ;;
  if ret rs <? 0 then pure (ret rs)
  else
  let m := append_property "Address" macstr m in
  rs <- call (msg_append_property "AddressType" (addr_type_name addr_public)) ;;
  if ret rs <? 0 then pure (ret rs)
  else
  let m := append_property "AddressType" (addr_type_name addr_public) m in
  (* close array *)
  rs <- call sd_bus_message_close_container ;;
  if ret rs <? 0 then
    LOG LOG_ERR "BLZ connect new failed to create message" [] ;; pure (ret rs)
  else
  update_dev dev (set_connect_new_done false) ;;
  rs <- call (sd_bus_call_async m connect_new_cb_fn dev
                (CONNECT_NEW_TIMEOUT * 1000000)) ;;
  if ret rs <? 0 then
    (if sd_bus_error_has_name error SD_BUS_ERROR_UNKNOWN_METHOD then
       LOG LOG_NOTI "BLZ connect new failed: Bluez < 5.49 (with -E flag) doesn't support ConnectDevice" []
     else
       LOG LOG_ERR "BLZ connect new failed: %s" [err_message error]) ;;
    pure (ret rs)
  else
  (* wait for callback *)
  r <- blz_loop_timeout fuel (dev_ctx d) (Connect_new_done_of dev)
         (CONNECT_NEW_TIMEOUT * 1000) ;;
  if r <? 0 then
    LOG LOG_ERR "BLZ connect new timeout" [] ;; pure r
  else
    d <- load_dev dev ;;
    pure (connect_new_result d).

(** [for (i = 0; l != NULL && l[i] != NULL; i++) free(l[i]); free(l);] *)
Definition free_strv (l : N) : prog unit :=
  (if (l =? NULL)%N then pure tt
   else
     elems <- load_strv l ;;
     fold_right (fun e k => free e ;; k) (pure tt) elems) ;;
  free l.

Definition blz_disconnect (dev : N) : prog unit :=
  if (dev =? NULL)%N then pure tt
  else
    d <- load_dev dev ;;
    (if negb (connect_slot d =? NULL)%N then
       slot <- sd_bus_slot_unref (connect_slot d) ;;
       update_dev dev (set_connect_slot slot)
     else pure tt) ;;
    _ <- load_ctx (dev_ctx d) ;;
    rs <- call (sd_bus_call_method "org.bluez" (dev_path d)
                  "org.bluez.Device1" "Disconnect" "") ;;
    (if ret rs <? 0 then
       LOG LOG_ERR "BLZ failed to disconnect: %s" [err_message (out_error rs)]
     else pure tt) ;;
    (* free *)
    free_strv (service_uuids d) ;;
    free_strv (char_uuids d) ;;
    free dev.

(** [%02X] of one octet. *)
Definition hex_digit (n : Z) : string :=
  nth (Z.to_nat n)
    ["0"; "1"; "2"; "3"; "4"; "5"; "6"; "7"; "8"; "9";
     "A"; "B"; "C"; "D"; "E"; "F"] "0".

Definition hex02 (octet : Z) : string :=
  let b := octet mod 256 in
  hex_digit (b / 16) +:+ hex_digit (b mod 16).

(** ["%s/dev_%02X_%02X_%02X_%02X_%02X_%02X"] *)
Definition format_dev_path (adapter : string) (mac : list Z) : string :=
  adapter +:+ "/dev_" +:+ hex02 (nth 0 mac 0) +:+ "_" +:+ hex02 (nth 1 mac 0)
    +:+ "_" +:+ hex02 (nth 2 mac 0) +:+ "_" +:+ hex02 (nth 3 mac 0)
    +:+ "_" +:+ hex02 (nth 4 mac 0) +:+ "_" +:+ hex02 (nth 5 mac 0).

(** The code at the label [exit] of [blz_connect] (lines 424-430). *)
Definition blz_connect_exit (r : Z) (dev : N) : prog N :=
  if r <? 0 then free dev ;; pure NULL
  else pure dev.

(** [blz_connect] from the wait for the services on (lines 412-430). *)
Definition blz_connect_resolved (fuel : nat) (ctx dev : N) (cb : N) : prog N :=
  (* wait until ServicesResolved property changed to true for this device *)
  r <- blz_loop_timeout fuel ctx (Services_resolved_of dev) 30000 ;;
  (if r <? 0 then
     LOG LOG_ERR "BLZ timeout waiting for ServicesResolved" [] ;;
     blz_disconnect dev
   else
     update_dev dev (set_connected true) ;;
     update_dev dev (set_disconnect_cb cb)) ;;
  blz_connect_exit r dev.

(** The branch [conn_status == -1] of [blz_connect] (lines 401-405): the
    device is not known to BlueZ, connect by address. *)
Definition blz_connect_by_address (fuel : nat) (dev : N) (macstr : string)
    (atype : blz_addr_type) : prog Z :=
  r <- blz_connect_new fuel dev macstr
         (if is_public atype then true else false) ;;
  (* when addr type is unknown and connect failed, try the other type *)
  if (r <? 0) && is_unknown atype then
    blz_connect_new fuel dev macstr
      (if is_public atype then false else true)
  else pure r.

(** [blz_connect] from the subscription on (lines 383-430): both branches
    of the query of "Connected" that go on join here, with the
    [conn_status] they have ([r] is assigned anew by the first call). *)
Definition blz_connect_subscribed (fuel : nat) (ctx dev : N) (macstr : string)
    (atype : blz_addr_type) (cb : N) (conn_status : Z) : prog N :=
  d <- load_dev dev ;;
  _ <- load_ctx ctx ;;
  (* connect signal for device properties changed *)
  rs <- call (sd_bus_match_signal "org.bluez" (dev_path d)
                "org.freedesktop.DBus.Properties" "PropertiesChanged"
                blz_connect_cb_fn dev) ;;
  let r := ret rs in
  if r <? 0 then
    LOG LOG_ERR "BLZ Failed to add connect signal" [] ;;
    blz_connect_exit r dev
  else
  update_dev dev (set_connect_slot (out_slot rs)) ;;
  r <- (if conn_status =? 0 then
          blz_connect_known dev macstr
        else if conn_status =? -1 then
          blz_connect_by_address fuel dev macstr atype
        else pure r) ;;
  if r <? 0 then blz_connect_exit r dev
  else blz_connect_resolved fuel ctx dev cb.

(** [blz_connect] (lines 316-431).  [snprintf] returns the length of the
    formatted path; when that does not fit, the truncated copy it has left
    in the handle goes with the handle, which is released at once.
    [sd_bus_get_property_trivial] stores 0 or 1 for a property of type 'b',
    hence [Z.b2z]; [conn_status] keeps -2 when nothing was stored. *)
Definition blz_connect (fuel : nat) (ctx : N) (macstr : string)
    (atype : blz_addr_type) (cb : N) : prog N :=
  let conn_status := -2 in
  dev <- calloc (O_dev zeroed_dev) ;;
  if (dev =? NULL)%N then
    LOG LOG_ERR "blz_dev: alloc failed" [] ;; pure NULL
  else
  update_dev dev (set_dev_ctx ctx) ;;
  update_dev dev (set_connected false) ;;
  update_dev dev (set_services_resolved false) ;;
  (* create device path based on MAC address *)
  let mac := blz_string_to_mac macstr in
  c <- load_ctx ctx ;;
  let path := format_dev_path (ctx_path c) mac in
  let r := Z.of_nat (String.length path) in
  if (r <? 0) || (DBUS_PATH_MAX_LEN <=? r) then
    LOG LOG_ERR "BLZ connect failed to construct device path" [] ;;
    free dev ;; pure NULL
  else
  update_dev dev (set_dev_path path) ;;
  (* check if it already is connected *)
  rs <- call (sd_bus_get_property_trivial "org.bluez" path
                "org.bluez.Device1" "Connected") ;;
  let r := ret rs in
  let conn_status := if r <? 0 then conn_status else Z.b2z (out_bool rs) in
  if (r <? 0)
     && negb (sd_bus_error_has_name (out_error rs) SD_BUS_ERROR_UNKNOWN_OBJECT)
  then
    LOG LOG_ERR "BLZ failed to get connected: %s" [err_message (out_error rs)] ;;
    blz_connect_exit r dev
  else
  (* device is unknown, mark for ConnectDevice API below *)
  let conn_status := if r <? 0 then -1 else conn_status in
  if conn_status =? 1 then
    LOG LOG_NOTI "Device %s already was connected" [macstr] ;;
    (* get ServicesResolved status *)
    rs <- call (sd_bus_get_property_trivial "org.bluez" path
                  "org.bluez.Device1" "ServicesResolved") ;;
    let r := ret rs in
    if r <? 0 then
      LOG LOG_ERR "BLZ failed to get ServicesResolved: %s"
        [err_message (out_error rs)] ;;
      blz_connect_exit r dev
    else
      update_dev dev (set_services_resolved (out_bool rs)) ;;
      blz_connect_subscribed fuel ctx dev macstr atype cb conn_status
  else if negb (conn_status =? 0) && negb (conn_status =? -1) then
    blz_connect_exit r dev
  else
    blz_connect_subscribed fuel ctx dev macstr atype cb conn_status.

(** *** Characteristics (lines 587-810) *)

Definition blz_char_write (ch : N) (data : list byte) (len : Z) : prog bool :=
  c <- load_char ch ;;
  if Z.land (ch_flags c) (Z.lor BLZ_CHAR_WRITE BLZ_CHAR_WRITE_WITHOUT_RESPONSE) =? 0
  then
    LOG LOG_ERR "BLZ characteristic does not support write" [] ;; pure false
  else
  _ <- load_ctx (ch_ctx c) ;;
  rs <- call (sd_bus_message_new_method_call "org.bluez" (ch_path c)
                "org.bluez.GattCharacteristic1" "WriteValue") ;;
  let m := {| mc_path := ch_path c;
              mc_interface := "org.bluez.GattCharacteristic1";
              mc_member := "WriteValue"; mc_properties := [] |} in
  if ret rs <? 0 then
    LOG LOG_ERR "BLZ write failed to create message" [] ;; pure (0 <=? ret rs)
  else
  rs <- call (sd_bus_message_append_array (firstn (Z.to_nat len) data)) ;;
  if ret rs <? 0 then
    LOG LOG_ERR "BLZ write failed to create message" [] ;; pure (0 <=? ret rs)
  else
  rs <- call (sd_bus_message_open_container "a" "{sv}") ;;
  if ret rs <? 0 then
    LOG LOG_ERR "BLZ write failed to create message" [] ;; pure (0 <=? ret rs)
  else
  rs <- call sd_bus_message_close_container ;;
  if ret rs <? 0 then
    LOG LOG_ERR "BLZ write failed to create message" [] ;; pure (0 <=? ret rs)
  else
  rs <- call (sd_bus_call m (firstn (Z.to_nat len) data)) ;;
  (if ret rs <? 0 then
     LOG LOG_ERR "BLZ failed to write: %s" [err_message (out_error rs)]
   else pure tt) ;;
  pure (0 <=? ret rs).

(** [memcpy(data, ptr, n)] *)
Definition memcpy (data ptr : list byte) (n : Z) : list byte :=
  firstn (Z.to_nat n) ptr ++ skipn (Z.to_nat n) data.

(** [blz_char_read] returns its [int] together with the caller's buffer
    [data] as the call leaves it. *)
Definition blz_char_read (ch : N) (data : list byte) (len : Z)
    : prog (Z * list byte) :=
  let rlen := SIZE_MAX in
  c <- load_char ch ;;
  if Z.land (ch_flags c) BLZ_CHAR_READ =? 0 then
    LOG LOG_ERR "BLZ characteristic does not support read" [] ;;
    pure (Z.b2z false, data)
  else
  _ <- load_ctx (ch_ctx c) ;;
  rs <- call (sd_bus_call_method "org.bluez" (ch_path c)
                "org.bluez.GattCharacteristic1" "ReadValue" "a{sv}") ;;
  if ret rs <? 0 then
    LOG LOG_ERR "BLZ failed to read: %s" [err_message (out_error rs)] ;;
    pure (to_int rlen, data)
  else
  rs <- call sd_bus_message_read_array ;;
  if ret rs <? 0 then
    LOG LOG_ERR "BLZ failed to read result: %s" [] ;;
    pure (to_int rlen, data)
  else
  let ptr := out_array rs in
  let rlen := Z.of_nat (length ptr) in
  let data := if 0 <? rlen
              then memcpy data ptr (if rlen <? len then rlen else len)
              else data in
  pure (to_int rlen, data).

Definition blz_char_notify_start (fuel : nat) (ch : N) (cb : N) : prog bool :=
  c <- load_char ch ;;
  if Z.land (ch_flags c) (Z.lor BLZ_CHAR_NOTIFY BLZ_CHAR_INDICATE) =? 0 then
    LOG LOG_ERR "BLZ characteristic does not support notify" [] ;; pure false
  else
  update_char ch (set_notify_cb cb) ;;
  _ <- load_ctx (ch_ctx c) ;;
  rs <- call (sd_bus_match_signal "org.bluez" (ch_path c)
                "org.freedesktop.DBus.Properties" "PropertiesChanged"
                blz_notify_cb_fn ch) ;;
  if ret rs <? 0 then
    LOG LOG_ERR "BLZ Failed to notify" [] ;; pure (0 <=? ret rs)
  else
  update_char ch (set_notify_slot (out_slot rs)) ;;
  rs <- call (sd_bus_call_method "org.bluez" (ch_path c)
                "org.bluez.GattCharacteristic1" "StartNotify" "") ;;
  (if ret rs <? 0 then
     LOG LOG_ERR "BLZ Failed to start notify: %s" [err_message (out_error rs)]
   else pure tt) ;;
  (* wait until Notifying property changed to true *)
  r <- blz_loop_timeout fuel (ch_ctx c) (Notifying_of ch) 5000 ;;
  (if r <? 0 then LOG LOG_ERR "BLZ timeout waiting for Notifying" []
   else pure tt) ;;
  pure (0 <=? r).

Definition blz_char_notify_stop (ch : N) : prog bool :=
  if (ch =? NULL)%N then pure false
  else
  c <- load_char ch ;;
  if (notify_slot c =? NULL)%N then pure false
  else
  _ <- load_ctx (ch_ctx c) ;;
  rs <- call (sd_bus_call_method "org.bluez" (ch_path c)
                "org.bluez.GattCharacteristic1" "StopNotify" "") ;;
  (if ret rs <? 0 then
     LOG LOG_ERR "BLZ Failed to stop notify: %s" [err_message (out_error rs)]
   else pure tt) ;;
  slot <- sd_bus_slot_unref (notify_slot c) ;;
  update_char ch (set_notify_slot slot) ;;
  update_char ch (set_notify_cb NULL) ;;
  pure (0 <=? ret rs).

Definition blz_char_write_fd_acquire (ch : N) : prog Z :=
  c <- load_char ch ;;
  if Z.land (ch_flags c) BLZ_CHAR_WRITE_WITHOUT_RESPONSE =? 0 then
    LOG LOG_ERR "BLZ characteristic does not support write-without-response" [] ;;
    pure (-1)
  else
  _ <- load_ctx (ch_ctx c) ;;
  rs <- call (sd_bus_call_method "org.bluez" (ch_path c)
                "org.bluez.GattCharacteristic1" "AcquireWrite" "a{sv}") ;;
  if ret rs <? 0 then
    LOG LOG_ERR "BLZ Failed acquire write: %s" [err_message (out_error rs)] ;;
    pure (ret rs)
  else
  rs <- call sd_bus_message_read_fd ;;
  if ret rs <? 0 then
    LOG LOG_ERR "BLZ Failed to get write fd" [] ;; pure (ret rs)
  else
    rs' <- call (dup (out_fd rs)) ;;
    pure (ret rs').

End Model.

Arguments state W : clear implicits.

(** ** Vocabulary of the properties *)

Section Vocabulary.
Context {W : Type} `{World W} `{Headers}.

(** [emits m P]: however [m] ends (result, fault, no fuel left), it has only
    added events to the trace, and the events added satisfy [P]. *)
Definition emits {A} (m : M (state W) A) (P : list event -> Prop) : Prop :=
  forall s o s', m s = (o, s') ->
    exists t, st_trace s' = st_trace s ++ t /\ P t.

(** The trace entry that starts an address-based connect attempt: the
    [LOG_INF] at the head of [blz_connect_new], with the address type it
    names. *)
Definition attempt_of (e : event) : option string :=
  match e with
  | Ev_log LOG_INF fmt [_; type_name] =>
      if bool_decide (fmt = "Connect new to %s (%s)") then Some type_name
      else None
  | _ => None
  end.

(** The address types of the attempts of a trace, in order. *)
Definition attempts (t : list event) : list string := omap attempt_of t.

(** The requests that ask BlueZ to connect: [Connect] on the device and the
    asynchronous [ConnectDevice] on the adapter. *)
Definition is_connect_call (e : event) : bool :=
  match e with
  | Ev_call (sd_bus_call_method _ _ interface member _) _ =>
      bool_decide (interface = "org.bluez.Device1")
      && bool_decide (member = "Connect")
  | Ev_call (sd_bus_call_async _ _ _ _) _ => true
  | _ => false
  end.

(** The address type a [ConnectDevice] request carries. *)
Definition issued_type (e : event) : option string :=
  match e with
  | Ev_call (sd_bus_call_async m _ _ _) _ =>
      '(_, kv) ← list_find (fun kv => fst kv = "AddressType") (mc_properties m);
      Some (snd kv)
  | _ => None
  end.

(** A subscription to property changes with the handler of device
    handles, [blz_connect_cb], that the bus accepted. *)
Definition is_device_subscription (e : event) : bool :=
  match e with
  | Ev_call (sd_bus_match_signal _ _ interface member cb _) rs =>
      bool_decide (interface = "org.freedesktop.DBus.Properties")
      && bool_decide (member = "PropertiesChanged")
      && bool_decide (cb = blz_connect_cb_fn)
      && (0 <=? ret rs)
  | _ => false
  end.

Definition is_attempt (e : event) : bool :=
  match attempt_of e with Some _ => true | None => false end.

(** The address types [blz_connect] tries by address, in order. *)
Definition attempt_plan (atype : blz_addr_type) : list string :=
  match atype with
  | BLZ_ADDR_UNKNOWN => ["random"; "public"]
  | BLZ_ADDR_PUBLIC => ["public"]
  | BLZ_ADDR_RANDOM => ["random"]
  end.

(** The report that the wait for "ServicesResolved" has timed out. *)
Definition services_timeout : event :=
  Ev_log LOG_ERR "BLZ timeout waiting for ServicesResolved" [].

Definition is_services_timeout (e : event) : bool :=
  match e with
  | Ev_log LOG_ERR fmt [] =>
      bool_decide (fmt = "BLZ timeout waiting for ServicesResolved")
  | _ => false
  end.

(** Neither the start of an attempt, nor a connect request, nor the report
    of the services timeout. *)
Definition quiet (e : event) : bool :=
  negb (is_attempt e) && negb (is_connect_call e)
  && negb (is_services_timeout e).

(** The events a call has added to the trace of [s] when it leaves [s']. *)
Definition new_events (s s' : state W) : list event :=
  drop (length (st_trace s)) (st_trace s').

(** Any traffic on the bus: a call, a step of message processing. *)
Definition is_bus_traffic (e : event) : bool :=
  match e with
  | Ev_call _ _ | Ev_process _ _ | Ev_slot_unref _ | Ev_bus_unref _ => true
  | _ => false
  end.

(** The state after one log entry and nothing else: the world has not been
    asked anything, the heap is as it was. *)
Definition logged (s : state W) (lvl : log_level) (fmt : string)
    (args : list string) : state W :=
  {| st_world := st_world s; st_heap := st_heap s;
     st_trace := st_trace s ++ [Ev_log lvl fmt args] |}.

(** The result code [connect_new_cb] computes for a reply, given the path
    of the handle it was registered for. *)
Definition connect_new_result_of (reply : sd_bus_message) (path : string) : Z :=
  match msg_error reply with
  | Some _ => - msg_errno reply
  | None =>
      if msg_read_ret reply <? 0 then msg_read_ret reply
      else if bool_decide (msg_read_path reply = path) then msg_read_ret reply
      else -1
  end.

(** The handle [d] once the reply handler has stored the result code [r]:
    [connect_new_result] is [r], [connect_new_done] is set, the other
    fields are those of [d]. *)
Definition handle_after_reply (d : blz_dev) (r : Z) : blz_dev :=
  {| dev_ctx := dev_ctx d; dev_path := dev_path d; connected := connected d;
     services_resolved := services_resolved d; connect_slot := connect_slot d;
     disconnect_cb := disconnect_cb d; service_uuids := service_uuids d;
     char_uuids := char_uuids d; connect_new_done := true;
     connect_new_result := r |}.

(** The subscription of the device handle comes first: before it, the
    trace neither starts an attempt nor asks BlueZ to connect. *)
Definition subscribed_first (t : list event) : Prop :=
  exists t1 e t2,
    t = t1 ++ e :: t2
    /\ is_device_subscription e = true
    /\ Forall (fun e => quiet e = true) t1.

(** The trace entry at the head of [blz_connect_new]. *)
Definition attempt_entry (macstr : string) (addr_public : bool) : event :=
  Ev_log LOG_INF "Connect new to %s (%s)"
    [macstr; addr_type_name addr_public].

(** A UUID list field of a handle: either [NULL] (never populated) or an
    array of the strings [elems]. *)
Definition strv_at (h : gmap N object) (l : N) (elems : list N) : Prop :=
  if (l =? NULL)%N then elems = [] else h !! l = Some (O_strv elems).

(** The allocations behind a UUID list, in the order [blz_disconnect]
    releases them: the strings, then the array. *)
Definition strv_cells (l : N) (elems : list N) : list N :=
  if (l =? NULL)%N then [] else elems ++ [l].

(** The [free] calls for a UUID list. *)
Definition strv_frees (l : N) (elems : list N) : list event :=
  map Ev_free elems ++ [Ev_free l].

(** The request [blz_disconnect] sends for a handle. *)
Definition disconnect_request (d : blz_dev) : request :=
  sd_bus_call_method "org.bluez" (dev_path d) "org.bluez.Device1"
    "Disconnect" "".

(** The request [blz_char_read] sends for a characteristic. *)
Definition read_request (c : blz_char) : request :=
  sd_bus_call_method "org.bluez" (ch_path c) "org.bluez.GattCharacteristic1"
    "ReadValue" "a{sv}".

(** [ends m P]: like [emits], with the outcome of [m] related to the events
    it has added. *)
Definition ends {A} (m : M (state W) A) (P : outcome A -> list event -> Prop)
    : Prop :=
  forall s o s', m s = (o, s') ->
    exists t, st_trace s' = st_trace s ++ t /\ P o t.

(** [returns m Q]: whenever [m] ends with a result, [Q] holds of the result
    and the state. *)
Definition returns {A} (m : M (state W) A) (Q : A -> state W -> Prop) : Prop :=
  forall s a s', m s = (Done a, s') -> Q a s'.

(** [m] does not depend on fuel. *)
Definition fuel_free {A} (m : M (state W) A) : Prop :=
  forall s s', m s <> (Out_of_fuel, s').

(** If the services timeout was reported, the call has ended in a fault. *)
Definition faults_on_services_timeout {A} (o : outcome A) (t : list event)
    : Prop :=
  services_timeout ∈ t -> exists f, o = Fault f.

(** What [blz_connect] may return: NULL, or a handle that is connected and
    has its services resolved. *)
Definition usable_or_null (p : N) (s : state W) : Prop :=
  p = NULL
  \/ exists d, st_heap s !! p = Some (O_dev d)
               /\ services_resolved d = true /\ connected d = true.

(** What one round of [blz_loop] with the budget [us] adds to the trace:
    logs, a step of message processing with the handlers it runs, and waits
    for [us] microseconds. *)
Definition is_pump_event (us : Z) (e : event) : bool :=
  match e with
  | Ev_log _ _ _ | Ev_process _ _ | Ev_user_callback _ => true
  | Ev_call (sd_bus_wait u) _ => u =? us
  | _ => false
  end.

(** [current_ms] after the events [t], when it was [cur] before them. *)
Fixpoint final_ms (cur : Z) (t : list event) : Z :=
  match t with
  | [] => cur
  | Ev_clock_gettime ts :: t' => final_ms (ms_of_timespec ts) t'
  | _ :: t' => final_ms cur t'
  end.

(** Every wait of [t] is for at most the time left to [end_ms] at the latest
    reading of the clock before it, in microseconds. *)
Fixpoint within_budget (end_ms cur : Z) (t : list event) : Prop :=
  match t with
  | [] => True
  | Ev_clock_gettime ts :: t' => within_budget end_ms (ms_of_timespec ts) t'
  | Ev_call (sd_bus_wait us) _ :: t' =>
      0 <= us <= (end_ms - cur) * 1000 /\ within_budget end_ms cur t'
  | _ :: t' => within_budget end_ms cur t'
  end.

End Vocabulary.

(** ** A scripted test double

    The world as a script: the answers to give, in order, per kind of call.
    When a list runs out, the allocation succeeds, the clock shows zero,
    the call returns 0 and [sd_bus_process] has nothing to do. *)

Definition response_of (r : Z) : response :=
  {| ret := r; out_error := SD_BUS_ERROR_NULL; out_bool := false;
     out_slot := NULL; out_array := []; out_fd := 0 |}.

Record script := {
  sc_calloc : list bool;
  sc_clock : list timespec;
  sc_respond : list response;
  sc_process : list (Z * list dispatch)
}.

#[export] Instance script_world : World script := {
  w_calloc sc :=
    (hd true (sc_calloc sc),
     {| sc_calloc := tl (sc_calloc sc); sc_clock := sc_clock sc;
        sc_respond := sc_respond sc; sc_process := sc_process sc |});
  w_clock_gettime sc :=
    (hd {| tv_sec := 0; tv_nsec := 0 |} (sc_clock sc),
     {| sc_calloc := sc_calloc sc; sc_clock := tl (sc_clock sc);
        sc_respond := sc_respond sc; sc_process := sc_process sc |});
  w_respond sc _ :=
    (hd (response_of 0) (sc_respond sc),
     {| sc_calloc := sc_calloc sc; sc_clock := sc_clock sc;
        sc_respond := tl (sc_respond sc); sc_process := sc_process sc |});
  w_process sc :=
    (hd (0, []) (sc_process sc),
     {| sc_calloc := sc_calloc sc; sc_clock := sc_clock sc;
        sc_respond := sc_respond sc; sc_process := tl (sc_process sc) |})
}.

(** The header values of blzlib 0.1: the flag bits follow the Bluetooth
    characteristic properties, the connect timeout is the spec's 15 s. *)
#[export] Instance blzlib_headers : Headers := {
  DBUS_PATH_MAX_LEN := 255;
  CONNECT_NEW_TIMEOUT := 15;
  BLZ_CHAR_READ := 2;
  BLZ_CHAR_WRITE_WITHOUT_RESPONSE := 4;
  BLZ_CHAR_WRITE := 8;
  BLZ_CHAR_NOTIFY := 16;
  BLZ_CHAR_INDICATE := 32;
  blz_string_to_mac := fun _ => [170; 187; 204; 221; 238; 255]
}.

Definition hci0 : blz_context :=
  {| ctx_bus := 1%N; ctx_path := "/org/bluez/hci0"; scan_slot := NULL;
     scan_cb := NULL |}.

(** A session on [hci0] at address 1 and nothing else. *)
Definition session (sc : script) : state script :=
  {| st_world := sc; st_heap := {[ 1%N := O_ctx hci0 ]}; st_trace := [] |}.

(** ** Scenarios for the test double *)

Definition mac_str : string := "AA:BB:CC:DD:EE:FF".

Definition mac_path : string := "/org/bluez/hci0/dev_AA_BB_CC_DD_EE_FF".

Definition seconds (n : Z) : timespec := {| tv_sec := n; tv_nsec := 0 |}.

(** A device handle on [hci0] as [blz_connect] leaves it, with the
    subscription slot [slot]. *)
Definition handle (slot : N) : blz_dev :=
  {| dev_ctx := 1%N; dev_path := mac_path; connected := true;
     services_resolved := true; connect_slot := slot; disconnect_cb := 9%N;
     service_uuids := NULL; char_uuids := NULL; connect_new_done := false;
     connect_new_result := 0 |}.

(** The session with one more object at address 2. *)
Definition session_with (ob : object) (sc : script) : state script :=
  {| st_world := sc; st_heap := {[ 1%N := O_ctx hci0; 2%N := ob ]};
     st_trace := [] |}.

(** The monotonic clock shows 4294967.290 s (49.7 days after boot), 6 ms
    before its millisecond count passes 2^32. *)
Definition late_clock : script :=
  {| sc_calloc := [];
     sc_clock := [ {| tv_sec := 4294967; tv_nsec := 290000000 |} ];
     sc_respond := []; sc_process := [] |}.

(** BlueZ knows the device, connects it, and never reports its services
    resolved: at the second reading of the clock 30 s have passed. *)
Definition services_never_resolved : script :=
  {| sc_calloc := []; sc_clock := [seconds 0; seconds 30];
     sc_respond := []; sc_process := [] |}.

Definition unknown_object : response :=
  {| ret := -2;
     out_error := {| err_name := SD_BUS_ERROR_UNKNOWN_OBJECT;
                     err_message := "Unknown object" |};
     out_bool := false; out_slot := NULL; out_array := []; out_fd := 0 |}.

Definition slot_7 : response :=
  {| ret := 0; out_error := SD_BUS_ERROR_NULL; out_bool := false;
     out_slot := 7%N; out_array := []; out_fd := 0 |}.

(** The reply to [ConnectDevice] with the object path [path]. *)
Definition connected_at (path : string) : sd_bus_message :=
  {| msg_error := None; msg_errno := 0; msg_read_ret := 1;
     msg_read_path := path; msg_bools := []; msg_value := None |}.

Definition services_resolved_signal : sd_bus_message :=
  {| msg_error := None; msg_errno := 0; msg_read_ret := 0;
     msg_read_path := ""; msg_bools := [("ServicesResolved", true)];
     msg_value := None |}.

(** The scenario of the specification: BlueZ does not know the device, the
    first [ConnectDevice] is answered with another object path, the second
    with the path of the handle, then the services are resolved. *)
Definition second_type_accepted : script :=
  {| sc_calloc := [];
     sc_clock := [seconds 0; seconds 1; seconds 1; seconds 2; seconds 2;
                  seconds 3];
     sc_respond := [unknown_object; slot_7];
     sc_process :=
       [ (1, [ {| d_cb := connect_new_cb_fn; d_userdata := 2%N;
                  d_msg := connected_at "/org/bluez/hci0/dev_00_00_00_00_00_00" |} ]);
         (1, [ {| d_cb := connect_new_cb_fn; d_userdata := 2%N;
                  d_msg := connected_at mac_path |} ]);
         (1, [ {| d_cb := blz_connect_cb_fn; d_userdata := 2%N;
                  d_msg := services_resolved_signal |} ]) ] |}.

(** The remote [Disconnect] fails. *)
Definition disconnect_fails : script :=
  {| sc_calloc := []; sc_clock := [];
     sc_respond := [response_of (-5)]; sc_process := [] |}.

(** A handle whose subscription is already released and that has two
    service UUIDs cached (array at 3, strings at 4 and 5) and no
    characteristic UUIDs. *)
Definition released_handle : blz_dev :=
  {| dev_ctx := 1%N; dev_path := mac_path; connected := true;
     services_resolved := true; connect_slot := NULL; disconnect_cb := 9%N;
     service_uuids := 3%N; char_uuids := NULL; connect_new_done := false;
     connect_new_result := 0 |}.

Definition session_with_uuids (sc : script) : state script :=
  {| st_world := sc;
     st_heap := {[ 1%N := O_ctx hci0; 2%N := O_dev released_handle;
                   3%N := O_strv [4%N; 5%N];
                   4%N := O_str "00001800-0000-1000-8000-00805f9b34fb";
                   5%N := O_str "0000180f-0000-1000-8000-00805f9b34fb" ]};
     st_trace := [] |}.

(** A characteristic of the device with the capability [flags]. *)
Definition characteristic (flags : Z) : blz_char :=
  {| ch_ctx := 1%N; ch_dev := 2%N;
     ch_path := "/org/bluez/hci0/dev_AA_BB_CC_DD_EE_FF/service000a/char000b";
     ch_uuid := "00002a19-0000-1000-8000-00805f9b34fb"; ch_flags := flags;
     notify_slot := NULL; notify_cb := NULL; notifying := false |}.

(** The remote value has six bytes. *)
Definition six_bytes : response :=
  {| ret := 1; out_error := SD_BUS_ERROR_NULL; out_bool := false;
     out_slot := NULL; out_array := [x01; x02; x03; x04; x05; x06];
     out_fd := 0 |}.

Definition read_six_bytes : script :=
  {| sc_calloc := []; sc_clock := [];
     sc_respond := [response_of 1; six_bytes]; sc_process := [] |}.

Definition no_script : script :=
  {| sc_calloc := []; sc_clock := []; sc_respond := []; sc_process := [] |}.

(** The [free] calls of a trace. *)
Definition frees (t : list event) : list N :=
  omap (fun e => match e with Ev_free p => Some p | _ => None end) t.

(** The methods called synchronously in a trace. *)
Definition methods_called (t : list event) : list string :=
  omap (fun e => match e with
                 | Ev_call (sd_bus_call_method _ _ _ member _) _ => Some member
                 | _ => None
                 end) t.

(** ** Scanning (lines 120-173) *)

Definition set_scan_slot (v : N) (c : blz_context) : blz_context :=
  {| ctx_bus := ctx_bus c; ctx_path := ctx_path c; scan_slot := v;
     scan_cb := scan_cb c |}.

Definition set_scan_cb (v : N) (c : blz_context) : blz_context :=
  {| ctx_bus := ctx_bus c; ctx_path := ctx_path c; scan_slot := scan_slot c;
     scan_cb := v |}.

Section Scanning.
Context {W : Type} `{World W} `{Headers}.

(** [ctx->field = v] *)
Definition update_ctx (p : N) (f : blz_context -> blz_context)
    : M (state W) unit :=
  c <- load_ctx p ;; store p (O_ctx (f c)).

(** The subscription of [blz_scan_start]. *)
Definition scan_subscription (ctx : N) : request :=
  sd_bus_match_signal "org.bluez" "/" "org.freedesktop.DBus.ObjectManager"
    "InterfacesAdded" blz_intf_cb_fn ctx.

(** A method of [org.bluez.Adapter1] without arguments, on the adapter. *)
Definition adapter_call (c : blz_context) (member : string) : request :=
  sd_bus_call_method "org.bluez" (ctx_path c) "org.bluez.Adapter1" member "".

Definition blz_scan_start (ctx : N) (cb : N) : M (state W) bool :=
  update_ctx ctx (set_scan_cb cb) ;;
  c <- load_ctx ctx ;;
  rs <- call (scan_subscription ctx) ;;
  if ret rs <? 0 then
    LOG LOG_ERR "BLZ Failed to notify" [] ;; pure (0 <=? ret rs)
  else
  update_ctx ctx (set_scan_slot (out_slot rs)) ;;
  rs <- call (adapter_call c "StartDiscovery") ;;
  (if ret rs <? 0 then
     LOG LOG_ERR "BLZ failed to scan: %s" [err_message (out_error rs)]
   else pure tt) ;;
  pure (0 <=? ret rs).


End Scanning.

(** ** Vocabulary of the further properties *)

(** The context [c] with the scan slot [slot] and the scan callback [cb]. *)
Definition context_scanning (c : blz_context) (slot cb : N) : blz_context :=
  {| ctx_bus := ctx_bus c; ctx_path := ctx_path c; scan_slot := slot;
     scan_cb := cb |}.

(** The poll engine blocks only when there was nothing to process: every
    wait of [t] follows, with no other wait and no reading of the clock in
    between, a step of [sd_bus_process] that returned 0.  [last] is the
    result of the latest such step that no wait has used yet. *)
Fixpoint waits_after_idle (last : option Z) (t : list event) : Prop :=
  match t with
  | [] => True
  | Ev_process r _ :: t' => waits_after_idle (Some r) t'
  | Ev_call (sd_bus_wait _) _ :: t' =>
      last = Some 0 /\ waits_after_idle None t'
  | Ev_clock_gettime _ :: t' => waits_after_idle None t'
  | _ :: t' => waits_after_idle last t'
  end.

(** What the handlers add to the trace: logs and calls of user callbacks. *)
Definition is_handler_event (e : event) : bool :=
  match e with
  | Ev_log _ _ _ | Ev_user_callback _ => true
  | _ => false
  end.

(** The queries of [blz_connect] on the device at [path]. *)
Definition device_query (path property : string) : request :=
  sd_bus_get_property_trivial "org.bluez" path "org.bluez.Device1" property.

(** The subscription of [blz_connect] for the handle [dev] at [path]. *)
Definition device_subscription (path : string) (dev : N) : request :=
  sd_bus_match_signal "org.bluez" path "org.freedesktop.DBus.Properties"
    "PropertiesChanged" blz_connect_cb_fn dev.

(** The request of [blz_connect_known] for the device at [path]. *)
Definition connect_request (path : string) : request :=
  sd_bus_call_method "org.bluez" path "org.bluez.Device1" "Connect" "".

(** The handle [blz_connect] has filled in when it returns it. *)
Definition connected_handle (ctx : N) (path : string) (slot cb : N) : blz_dev :=
  {| dev_ctx := ctx; dev_path := path; connected := true;
     services_resolved := true; connect_slot := slot; disconnect_cb := cb;
     service_uuids := NULL; char_uuids := NULL; connect_new_done := false;
     connect_new_result := 0 |}.

(** ** Scenarios of the further properties *)

(** The handle cannot be allocated. *)
Definition alloc_fails : script :=
  {| sc_calloc := [false]; sc_clock := []; sc_respond := [];
     sc_process := [] |}.

(** An adapter whose object path has 251 characters. *)
Definition long_adapter : blz_context :=
  {| ctx_bus := 1%N;
     ctx_path := "/org/bluez/" +:+ String.concat "" (repeat "hci0" 60);
     scan_slot := NULL; scan_cb := NULL |}.

Definition long_session : state script :=
  {| st_world := no_script; st_heap := {[ 1%N := O_ctx long_adapter ]};
     st_trace := [] |}.

Definition access_denied : response :=
  {| ret := -13;
     out_error := {| err_name := "org.freedesktop.DBus.Error.AccessDenied";
                     err_message := "Access denied" |};
     out_bool := false; out_slot := NULL; out_array := []; out_fd := 0 |}.

(** The answer to a query of a boolean property. *)
Definition property_is (b : bool) : response :=
  {| ret := 0; out_error := SD_BUS_ERROR_NULL; out_bool := b;
     out_slot := NULL; out_array := []; out_fd := 0 |}.

Definition answers (rs : list response) : script :=
  {| sc_calloc := []; sc_clock := []; sc_respond := rs; sc_process := [] |}.

(** BlueZ has the device connected with its services resolved. *)
Definition already_resolved : script :=
  {| sc_calloc := []; sc_clock := [seconds 0];
     sc_respond := [property_is true; property_is true; slot_7];
     sc_process := [] |}.

(** The subscription of [blz_char_notify_start] for the characteristic [c]
    at [ch]. *)
Definition notify_subscription (c : blz_char) (ch : N) : request :=
  sd_bus_match_signal "org.bluez" (ch_path c)
    "org.freedesktop.DBus.Properties" "PropertiesChanged" blz_notify_cb_fn ch.

(** A method of [org.bluez.GattCharacteristic1] on the characteristic [c]. *)
Definition char_call (c : blz_char) (member signature : string) : request :=
  sd_bus_call_method "org.bluez" (ch_path c) "org.bluez.GattCharacteristic1"
    member signature.

(** The message [blz_char_write] builds for the characteristic [c]. *)
Definition write_value (c : blz_char) : method_call :=
  {| mc_path := ch_path c; mc_interface := "org.bluez.GattCharacteristic1";
     mc_member := "WriteValue"; mc_properties := [] |}.

(** The message [blz_connect_new] sends: [ConnectDevice] on the adapter
    with the dictionary entries "Address" and "AddressType". *)
Definition connect_device (c : blz_context) (macstr : string)
    (addr_public : bool) : method_call :=
  {| mc_path := ctx_path c; mc_interface := "org.bluez.Adapter1";
     mc_member := "ConnectDevice";
     mc_properties := [("Address", macstr);
                       ("AddressType", addr_type_name addr_public)] |}.

(** The notice of [blz_connect_new] about a BlueZ without
    [ConnectDevice] (line 294). *)
Definition is_old_bluez_notice (e : event) : bool :=
  match e with
  | Ev_log LOG_NOTI fmt _ =>
      bool_decide (fmt = "BLZ connect new failed: Bluez < 5.49 (with -E flag) doesn't support ConnectDevice")
  | _ => false
  end.



(** The signal that the characteristic is notifying. *)
Definition notifying_signal : sd_bus_message :=
  {| msg_error := None; msg_errno := 0; msg_read_ret := 0;
     msg_read_path := ""; msg_bools := [("Notifying", true)];
     msg_value := None |}.

(** BlueZ accepts the subscription and [StartNotify]; the signal arrives
    in the first round of the wait. *)
Definition notify_accepted : script :=
  {| sc_calloc := []; sc_clock := [seconds 0; seconds 1];
     sc_respond := [slot_7; response_of 0];
     sc_process := [ (1, [ {| d_cb := blz_notify_cb_fn; d_userdata := 2%N;
                              d_msg := notifying_signal |} ]) ] |}.

(** BlueZ accepts the subscription and refuses [StartNotify]. *)
Definition start_refused : script :=
  {| sc_calloc := []; sc_clock := [seconds 0];
     sc_respond := [slot_7; access_denied]; sc_process := [] |}.

(** A characteristic with a running subscription: slot 7, callback 9. *)
Definition subscribed : blz_char :=
  set_notify_slot 7%N (set_notify_cb 9%N (characteristic 16)).

(** The reply to [AcquireWrite] carries the descriptor 5; [dup] gives 6. *)
Definition descriptor_5 : response :=
  {| ret := 0; out_error := SD_BUS_ERROR_NULL; out_bool := false;
     out_slot := NULL; out_array := []; out_fd := 5 |}.

Definition acquire_accepted : script :=
  answers [response_of 0; descriptor_5; response_of 6].

(** [ConnectDevice] is answered with the path of the handle in the first
    round of the wait. *)
Definition connect_device_accepted : script :=
  {| sc_calloc := []; sc_clock := [seconds 0; seconds 1];
     sc_respond := [];
     sc_process := [ (1, [ {| d_cb := connect_new_cb_fn; d_userdata := 2%N;
                              d_msg := connected_at mac_path |} ]) ] |}.

(** The handle at [dev] is gone if the result [p] is NULL. *)
Definition released {W : Type} (dev p : N) (s' : state W) : Prop :=
  p = NULL -> st_heap s' !! dev = None.

(** The subscription for the handle [dev] of the device at [path] comes
    first and is accepted: before it, the trace neither starts an attempt
    nor asks BlueZ to connect. *)
Definition subscribed_first_at (path : string) (dev : N) (t : list event)
    : Prop :=
  exists t1 rs t2,
    t = t1 ++ Ev_call (device_subscription path dev) rs :: t2
    /\ 0 <= ret rs
    /\ Forall (fun e => quiet e = true) t1.

(** ** Vocabulary of the address-type fallback *)

(** What a trace shows of a connect by address: the announcement at the
    head of [blz_connect_new], with the type it names, and the
    [ConnectDevice] request put on the bus, with the "AddressType" it
    carries. *)
Inductive connect_step :=
| Announced (type_name : string)
| Issued (address_type : option string).

Definition connect_step_of (e : event) : option connect_step :=
  match attempt_of e with
  | Some ty => Some (Announced ty)
  | None =>
      match e with
      | Ev_call (sd_bus_call_async _ _ _ _) _ => Some (Issued (issued_type e))
      | _ => None
      end
  end.

Definition connect_steps (t : list event) : list connect_step :=
  omap connect_step_of t.

(** The steps follow the plan: the types of the plan are announced in
    order, each at most once, and a request, if one is sent, comes right
    after its announcement and carries the type announced. *)
Fixpoint follows_plan (plan : list string) (steps : list connect_step)
    {struct plan} : bool :=
  match steps with
  | [] => true
  | Announced ty :: rest =>
      match plan with
      | p :: plan' =>
          bool_decide (ty = p)
          && match rest with
             | Issued ty' :: rest' =>
                 bool_decide (ty' = Some p) && follows_plan plan' rest'
             | _ => follows_plan plan' rest
             end
      | [] => false
      end
  | Issued _ :: _ => false
  end.

(** The handle of a device BlueZ does not know, once the subscription is
    stored: context, path and slot are set, everything else is as [calloc]
    left it. *)
Definition unknown_device_handle (ctx : N) (path : string) (slot : N)
    : blz_dev :=
  {| dev_ctx := ctx; dev_path := path; connected := false;
     services_resolved := false; connect_slot := slot; disconnect_cb := NULL;
     service_uuids := NULL; char_uuids := NULL; connect_new_done := false;
     connect_new_result := 0 |}.

(** * Properties *)

Section Properties.
Context {W : Type} `{World W} `{Headers}.
Implicit Types (s : state W) (t : list event).

Local Abbreviation emits := (emits (W := W)).

(** ** NULL handles *)

(** C10: passing NULL to a teardown operation does nothing.  [blz_fini] and
    [blz_disconnect] return with the state (world, heap, trace) untouched,
    and [blz_char_notify_stop] returns [false] with the state untouched. *)
Theorem null_handle_teardown_is_noop s :
  blz_fini NULL s = (Done tt, s)
  /\ blz_disconnect NULL s = (Done tt, s)
  /\ blz_char_notify_stop NULL s = (Done false, s).
Proof. repeat split. Qed.

(** ** The deadline of [blz_loop_timeout] *)

Lemma read_flag_heap check s b :
  read_flag check s = (Done b, s) ->
  forall s2, st_heap s2 = st_heap s -> read_flag check s2 = (Done b, s2).
Proof.
  intros Hr s2 Hh.
  destruct check; cbn in *; unfold bind, load_dev, load_char, pure in *;
    rewrite Hh;
    destruct (st_heap s !! _) as [[]|]; cbn in *; congruence.
Qed.

(** Reading a flag leaves the state alone. *)
Lemma read_flag_state check s o s' :
  read_flag check s = (o, s') -> s' = s.
Proof.
  destruct check; cbn; unfold bind, load_dev, load_char, pure;
    destruct (st_heap s !! _) as [[]|]; cbn; congruence.
Qed.

Lemma to_uint32_small z : 0 <= z < 2 ^ 32 -> to_uint32 z = z.
Proof. intros. unfold to_uint32. apply Z.mod_small. lia. Qed.

Lemma to_uint32_range z : 0 <= to_uint32 z < 2 ^ 32.
Proof. unfold to_uint32. apply Z.mod_pos_bound. lia. Qed.

Lemma ms_of_timespec_range ts : 0 <= ms_of_timespec ts < 2 ^ 32.
Proof. apply to_uint32_range. Qed.

(** C9: the deadline arithmetic is [uint32_t] arithmetic.  The entry time is
    the clock reading in milliseconds modulo 2^32 and the deadline is entry
    time plus timeout modulo 2^32; when that sum wraps, [current_ms < end_ms]
    is false at entry, no iteration runs (the trace gains the one clock
    reading and nothing else, whatever the fuel) and the result is -1,
    unless the flag is already set, which gives 0. *)
Theorem blz_loop_timeout_wrapped_deadline fuel ctx check timeout_ms s ts w b :
  w_clock_gettime (st_world s) = (ts, w) ->
  read_flag check s = (Done b, s) ->
  0 <= timeout_ms < 2 ^ 32 ->
  2 ^ 32 <= ms_of_timespec ts + timeout_ms ->
  ms_of_timespec ts = (tv_sec ts * 1000 + Z.quot (tv_nsec ts) 1000000) mod 2 ^ 32
  /\ (ms_of_timespec ts <? (ms_of_timespec ts + timeout_ms) mod 2 ^ 32) = false
  /\ blz_loop_timeout fuel ctx check timeout_ms s =
       (Done (if b then 0 else -1),
        {| st_world := w; st_heap := st_heap s;
           st_trace := st_trace s ++ [Ev_clock_gettime ts] |}).
Proof.
  intros Hclock Hflag Ht Hwrap.
  pose proof (ms_of_timespec_range ts) as Hms.
  assert (Hend : (ms_of_timespec ts + timeout_ms) mod 2 ^ 32
                 = ms_of_timespec ts + timeout_ms - 2 ^ 32).
  { symmetry. apply Z.mod_unique with (q := 1); lia. }
  assert (Hcmp : (ms_of_timespec ts <? (ms_of_timespec ts + timeout_ms) mod 2 ^ 32)
                 = false).
  { apply Z.ltb_ge. lia. }
  split; [reflexivity|]. split; [exact Hcmp|].
  unfold blz_loop_timeout, bind, clock_gettime. rewrite Hclock.
  set (s1 := {| st_world := w; st_heap := st_heap s;
                st_trace := st_trace s ++ [Ev_clock_gettime ts] |}).
  pose proof (read_flag_heap _ _ _ Hflag s1 eq_refl) as Hflag1.
  rewrite (to_uint32_small timeout_ms Ht). unfold to_uint32 at 1.
  destruct fuel; cbn [blz_loop_timeout_while]; unfold bind;
    rewrite Hflag1, Hcmp, andb_false_r, Hflag1; reflexivity.
Qed.

(** ** Capability checks *)

Lemma land_lor_0 a b c :
  Z.land a b = 0 -> Z.land a c = 0 -> Z.land a (Z.lor b c) = 0.
Proof.
  intros Hb Hc. rewrite Z.land_lor_distr_r, Hb, Hc. reflexivity.
Qed.

(** The capability checks as the code has them: an operation on a
    characteristic that lacks the capability it needs ends before any
    traffic with the bus.  [blz_char_read] without the read flag returns
    [false], which is 0 in its [int], and leaves the buffer alone,
    [blz_char_write]
    without write and write-without-response returns [false],
    [blz_char_notify_start] without notify and indicate returns [false],
    [blz_char_write_fd_acquire] without write-without-response returns -1;
    in each case the state differs from the initial one by one error log
    only: the world was not asked anything. *)
Lemma capability_check_precedes_remote_call s ch c :
  st_heap s !! ch = Some (O_char c) ->
  (Z.land (ch_flags c) BLZ_CHAR_READ = 0 ->
   forall data len,
     blz_char_read ch data len s =
       (Done (0, data),
        logged s LOG_ERR "BLZ characteristic does not support read" []))
  /\ (Z.land (ch_flags c) BLZ_CHAR_WRITE = 0 ->
      Z.land (ch_flags c) BLZ_CHAR_WRITE_WITHOUT_RESPONSE = 0 ->
      forall data len,
        blz_char_write ch data len s =
          (Done false,
           logged s LOG_ERR "BLZ characteristic does not support write" []))
  /\ (Z.land (ch_flags c) BLZ_CHAR_NOTIFY = 0 ->
      Z.land (ch_flags c) BLZ_CHAR_INDICATE = 0 ->
      forall fuel cb,
        blz_char_notify_start fuel ch cb s =
          (Done false,
           logged s LOG_ERR "BLZ characteristic does not support notify" []))
  /\ (Z.land (ch_flags c) BLZ_CHAR_WRITE_WITHOUT_RESPONSE = 0 ->
      blz_char_write_fd_acquire ch s =
        (Done (-1),
         logged s LOG_ERR
           "BLZ characteristic does not support write-without-response" [])).
Proof.
  intros Hch. repeat split.
  - intros Hf data len.
    unfold blz_char_read, bind, load_char. rewrite Hch, Hf. reflexivity.
  - intros Hw Hwwr data len.
    unfold blz_char_write, bind, load_char.
    rewrite Hch, (land_lor_0 _ _ _ Hw Hwwr). reflexivity.
  - intros Hn Hi fuel cb.
    unfold blz_char_notify_start, bind, load_char.
    rewrite Hch, (land_lor_0 _ _ _ Hn Hi). reflexivity.
  - intros Hf.
    unfold blz_char_write_fd_acquire, bind, load_char. rewrite Hch, Hf.
    reflexivity.
Qed.

(** ** The reply handler of the asynchronous connect *)

Lemma update_dev_live s p d f :
  st_heap s !! p = Some (O_dev d) ->
  update_dev p f s =
    (Done tt, {| st_world := st_world s;
                 st_heap := <[p := O_dev (f d)]> (st_heap s);
                 st_trace := st_trace s |}).
Proof.
  intros Hp. unfold update_dev, bind, load_dev. rewrite Hp. reflexivity.
Qed.

(** The two stores at the label [exit] of [connect_new_cb]. *)
Lemma connect_new_cb_exit s p d r :
  st_heap s !! p = Some (O_dev d) ->
  (update_dev p (set_connect_new_result r) ;;
   update_dev p (set_connect_new_done true) ;; pure r) s =
    (Done r, {| st_world := st_world s;
                st_heap := <[p := O_dev (set_connect_new_done true
                                          (set_connect_new_result r d))]>
                             (st_heap s);
                st_trace := st_trace s |}).
Proof.
  intros Hp. unfold bind at 1. rewrite (update_dev_live _ _ _ _ Hp).
  unfold bind at 1. erewrite update_dev_live by apply lookup_insert_eq.
  cbn. rewrite insert_insert_eq. reflexivity.
Qed.

(** C5: whatever reply reaches [connect_new_cb], the handler ends by storing
    a result code in [connect_new_result] and setting [connect_new_done];
    nothing else of the handle changes and the bus is not used.  (1) The
    call returns the code [r] and leaves the handle as
    [handle_after_reply d r]; (2) read back from the final heap, the handle
    has [connect_new_done] set and [connect_new_result] equal to [r].
    (3)-(6) The code is the negated errno of an error reply, the negative
    result of a failed read, -1 when the reply is not an error but its
    object path differs from the path of the handle, and the result of the
    read otherwise. *)
Theorem connect_new_cb_stores_result reply dev d s :
  st_heap s !! dev = Some (O_dev d) ->
  let r := connect_new_result_of reply (dev_path d) in
  (exists t,
     connect_new_cb reply dev s =
       (Done r,
        {| st_world := st_world s;
           st_heap := <[dev := O_dev (handle_after_reply d r)]> (st_heap s);
           st_trace := st_trace s ++ t |})
     /\ Forall (fun e => is_bus_traffic e = false) t)
  /\ (exists d',
        st_heap (snd (connect_new_cb reply dev s)) !! dev = Some (O_dev d')
        /\ connect_new_done d' = true
        /\ connect_new_result d' = r
        /\ fst (connect_new_cb reply dev s) = Done (connect_new_result d'))
  /\ (forall err, msg_error reply = Some err -> r = - msg_errno reply)
  /\ (msg_error reply = None -> msg_read_ret reply < 0 ->
      r = msg_read_ret reply)
  /\ (msg_error reply = None -> 0 <= msg_read_ret reply ->
      msg_read_path reply <> dev_path d -> r = -1)
  /\ (msg_error reply = None -> 0 <= msg_read_ret reply ->
      msg_read_path reply = dev_path d -> r = msg_read_ret reply).
Proof.
  intros Hdev r.
  assert (Hrun : exists t,
     connect_new_cb reply dev s =
       (Done r,
        {| st_world := st_world s;
           st_heap := <[dev := O_dev (handle_after_reply d r)]> (st_heap s);
           st_trace := st_trace s ++ t |})
     /\ Forall (fun e => is_bus_traffic e = false) t).
  { subst r. unfold connect_new_result_of.
    change (handle_after_reply d ?x)
      with (set_connect_new_done true (set_connect_new_result x d)).
    unfold connect_new_cb. destruct (msg_error reply) as [err|].
    + eexists. split.
      * unfold bind at 1. unfold bind at 1. unfold LOG, emit. cbn [pure].
        unfold pure at 1.
        rewrite (connect_new_cb_exit _ dev d) by exact Hdev. reflexivity.
      * repeat constructor.
    + destruct (msg_read_ret reply <? 0) eqn:Hneg.
      * eexists. split.
        -- unfold bind at 1. unfold bind at 1. unfold LOG, emit.
           unfold pure at 1.
           rewrite (connect_new_cb_exit _ dev d) by exact Hdev. reflexivity.
        -- repeat constructor.
      * unfold bind at 1. unfold bind at 1. unfold load_dev at 1.
        rewrite Hdev.
        destruct (bool_decide (msg_read_path reply = dev_path d)) eqn:Hpath;
          cbn [negb].
        -- exists []. split; [|constructor].
           unfold pure at 1.
           rewrite (connect_new_cb_exit _ dev d) by exact Hdev.
           rewrite app_nil_r. destruct s; reflexivity.
        -- eexists. split.
           ++ unfold bind at 1. unfold LOG, emit. unfold pure at 1.
              rewrite (connect_new_cb_exit _ dev d) by exact Hdev. reflexivity.
           ++ repeat constructor. }
  split; [exact Hrun|]. split.
  { destruct Hrun as (t & -> & _). cbn [fst snd st_heap].
    exists (handle_after_reply d r).
    split; [apply lookup_insert_eq|]. repeat split. }
  subst r. unfold connect_new_result_of. repeat split.
  - intros err ->. reflexivity.
  - intros -> Hr. apply Z.ltb_lt in Hr. rewrite Hr. reflexivity.
  - intros -> Hr Hp. apply Z.ltb_ge in Hr. rewrite Hr.
    rewrite bool_decide_eq_false_2 by exact Hp. reflexivity.
  - intros -> Hr Hp. apply Z.ltb_ge in Hr. rewrite Hr.
    rewrite bool_decide_eq_true_2 by exact Hp. reflexivity.
Qed.

(** ** What a call adds to the trace *)

Section Emits.
Context {A : Type}.
Implicit Types (m : M (state W) A) (P : list event -> Prop).

Lemma emits_weaken m P P' :
  emits m P -> (forall t, P t -> P' t) -> emits m P'.
Proof.
  intros Hm Himp s o s' Hrun.
  destruct (Hm s o s' Hrun) as (t & Ht & HP). eauto.
Qed.

Lemma emits_pure (a : A) P : P [] -> emits (pure a) P.
Proof.
  intros HP s o s' [= <- <-]. exists []. rewrite app_nil_r. auto.
Qed.

Lemma emits_out_of_fuel P : P [] -> emits (out_of_fuel (A := A)) P.
Proof.
  intros HP s o s' [= <- <-]. exists []. rewrite app_nil_r. auto.
Qed.

Lemma emits_bind {B} (n : M (state W) B) (k : B -> M (state W) A)
    (P1 P2 P : list event -> Prop) :
  emits n P1 -> (forall b, emits (k b) P2) ->
  (forall t1, P1 t1 -> P t1) ->
  (forall t1 t2, P1 t1 -> P2 t2 -> P (t1 ++ t2)) ->
  emits (bind n k) P.
Proof.
  intros Hn Hk Hstop Hgo s o s'. unfold bind.
  destruct (n s) as [[b|f|] s1] eqn:Hrun;
    destruct (Hn _ _ _ Hrun) as (t1 & Ht1 & HP1).
  - intros Hrun2. destruct (Hk b _ _ _ Hrun2) as (t2 & Ht2 & HP2).
    exists (t1 ++ t2). rewrite Ht2, Ht1, app_assoc. auto.
  - intros [= <- <-]. eauto.
  - intros [= <- <-]. eauto.
Qed.

Lemma emits_bind_all {B} (n : M (state W) B) (k : B -> M (state W) A)
    (Q : event -> Prop) :
  emits n (Forall Q) -> (forall b, emits (k b) (Forall Q)) ->
  emits (bind n k) (Forall Q).
Proof.
  intros Hn Hk. eapply emits_bind; eauto.
  intros t1 t2 H1 H2. apply Forall_app; auto.
Qed.

End Emits.

Lemma emits_emit e (P : list event -> Prop) : P [e] -> emits (emit e) P.
Proof. intros HP s o s' [= <- <-]. eauto. Qed.

Lemma emits_call rq (P : list event -> Prop) :
  (forall rs, P [Ev_call rq rs]) -> emits (call rq) P.
Proof.
  intros HP s o s'. unfold call.
  destruct (w_respond (st_world s) rq) as [rs w]. intros [= <- <-]. eauto.
Qed.

Lemma emits_clock_gettime (P : list event -> Prop) :
  (forall ts, P [Ev_clock_gettime ts]) -> emits clock_gettime P.
Proof.
  intros HP s o s'. unfold clock_gettime.
  destruct (w_clock_gettime (st_world s)) as [ts w]. intros [= <- <-]. eauto.
Qed.

Lemma emits_calloc ob (P : list event -> Prop) :
  (forall p, P [Ev_calloc p]) -> emits (calloc ob) P.
Proof.
  intros HP s o s'. unfold calloc.
  destruct (w_calloc (st_world s)) as [[] w]; intros [= <- <-]; eauto.
Qed.

Lemma emits_free p (P : list event -> Prop) : P [Ev_free p] -> emits (free p) P.
Proof.
  intros HP s o s'. unfold free.
  destruct (p =? NULL)%N; [intros [= <- <-]; eauto|].
  destruct (st_heap s !! p); intros [= <- <-]; eauto.
Qed.

Lemma emits_nothing {A} (m : M (state W) A) (P : list event -> Prop) :
  (forall s o s', m s = (o, s') -> st_trace s' = st_trace s) ->
  P [] -> emits m P.
Proof.
  intros Hm HP s o s' Hrun. exists []. rewrite app_nil_r. eauto.
Qed.

Lemma emits_load_ctx p (P : list event -> Prop) : P [] -> emits (load_ctx p) P.
Proof.
  apply emits_nothing. intros s o s'. unfold load_ctx.
  destruct (st_heap s !! p) as [[]|]; congruence.
Qed.

Lemma emits_load_dev p (P : list event -> Prop) : P [] -> emits (load_dev p) P.
Proof.
  apply emits_nothing. intros s o s'. unfold load_dev.
  destruct (st_heap s !! p) as [[]|]; congruence.
Qed.

Lemma emits_load_char p (P : list event -> Prop) : P [] -> emits (load_char p) P.
Proof.
  apply emits_nothing. intros s o s'. unfold load_char.
  destruct (st_heap s !! p) as [[]|]; congruence.
Qed.

Lemma emits_load_strv p (P : list event -> Prop) : P [] -> emits (load_strv p) P.
Proof.
  apply emits_nothing. intros s o s'. unfold load_strv.
  destruct (st_heap s !! p) as [[]|]; congruence.
Qed.

Lemma emits_store p ob (P : list event -> Prop) : P [] -> emits (store p ob) P.
Proof. apply emits_nothing. intros s o s' [= <- <-]. reflexivity. Qed.

Lemma emits_read_flag check (P : list event -> Prop) :
  P [] -> emits (read_flag check) P.
Proof.
  apply emits_nothing. intros s o s' Hr.
  apply read_flag_state in Hr. congruence.
Qed.

(** Goals [emits m (Forall Q)] for a boolean [Q] that computes on the
    events of [m]: follow the structure of [m]. *)
Ltac emits_all_step :=
  lazymatch goal with
  | |- emits (bind _ _) _ => apply emits_bind_all; [| intros ?]
  | |- emits (pure _) _ => apply emits_pure; constructor
  | |- emits out_of_fuel _ => apply emits_out_of_fuel; constructor
  | |- emits (emit _) _ => apply emits_emit; repeat constructor
  | |- emits (LOG _ _ _) _ => apply emits_emit; repeat constructor
  | |- emits (call _) _ => apply emits_call; intros ?; repeat constructor
  | |- emits clock_gettime _ =>
      apply emits_clock_gettime; intros ?; repeat constructor
  | |- emits (calloc _) _ => apply emits_calloc; intros ?; repeat constructor
  | |- emits (free _) _ => apply emits_free; repeat constructor
  | |- emits (load_ctx _) _ => apply emits_load_ctx; constructor
  | |- emits (load_dev _) _ => apply emits_load_dev; constructor
  | |- emits (load_char _) _ => apply emits_load_char; constructor
  | |- emits (load_strv _) _ => apply emits_load_strv; constructor
  | |- emits (store _ _) _ => apply emits_store; constructor
  | |- emits (read_flag _) _ => apply emits_read_flag; constructor
  | |- emits (update_dev _ _) _ => unfold update_dev
  | |- emits (update_char _ _) _ => unfold update_char
  | |- emits (sd_bus_slot_unref _) _ => unfold sd_bus_slot_unref
  | |- emits (if ?b then _ else _) _ => destruct b
  | |- emits (match ?x with _ => _ end) _ => destruct x
  | |- emits (let _ := _ in _) _ => cbv zeta
  end.

Ltac emits_all := repeat emits_all_step.

Lemma run_dispatches_quiet ds :
  emits (run_dispatches ds) (Forall (fun e => quiet e = true)).
Proof.
  induction ds as [|d ds IH]; cbn [run_dispatches]; [emits_all|].
  apply emits_bind_all; [|intros _; exact IH].
  unfold run_dispatch, blz_intf_cb, blz_connect_cb, connect_new_cb,
    blz_notify_cb.
  emits_all.
Qed.

Lemma sd_bus_process_quiet :
  emits sd_bus_process (Forall (fun e => quiet e = true)).
Proof.
  intros s o s'. unfold sd_bus_process.
  destruct (w_process (st_world s)) as [[r ds] w]. intros Hrun.
  assert (Hq : emits (run_dispatches ds ;; pure r)
                 (Forall (fun e => quiet e = true))).
  { apply emits_bind_all; [apply run_dispatches_quiet|]. intros. emits_all. }
  destruct (Hq _ _ _ Hrun) as (t & Ht & HQ). cbn in Ht.
  exists (Ev_process r ds :: t). split.
  - rewrite Ht, <- app_assoc. reflexivity.
  - constructor; [reflexivity | exact HQ].
Qed.

Lemma blz_loop_quiet ctx timeout_us :
  emits (blz_loop ctx timeout_us) (Forall (fun e => quiet e = true)).
Proof.
  unfold blz_loop.
  apply emits_bind_all; [emits_all|]. intros c.
  apply emits_bind_all; [apply sd_bus_process_quiet|]. intros r.
  emits_all.
Qed.

Lemma blz_loop_timeout_while_quiet fuel ctx check current_ms end_ms :
  emits (blz_loop_timeout_while fuel ctx check current_ms end_ms)
    (Forall (fun e => quiet e = true)).
Proof.
  revert current_ms.
  induction fuel as [|fuel IH]; intros current_ms;
    cbn [blz_loop_timeout_while].
  - emits_all.
  - apply emits_bind_all; [emits_all|]. intros b.
    destruct (negb b && (current_ms <? end_ms)); [|emits_all].
    apply emits_bind_all; [apply blz_loop_quiet|]. intros _.
    apply emits_bind_all; [emits_all|]. intros ts. apply IH.
Qed.

(** The wait only pumps the bus: it neither starts a connect attempt nor
    asks BlueZ to connect. *)
Lemma blz_loop_timeout_quiet fuel ctx check timeout_ms :
  emits (blz_loop_timeout fuel ctx check timeout_ms)
    (Forall (fun e => quiet e = true)).
Proof.
  unfold blz_loop_timeout.
  apply emits_bind_all; [emits_all|]. intros ts.
  apply blz_loop_timeout_while_quiet.
Qed.

(** *** Events of the connect functions *)

Lemma quiet_not_attempt e : quiet e = true -> is_attempt e = false.
Proof.
  unfold quiet. intros Hq. apply andb_prop in Hq as [Hq _].
  apply andb_prop in Hq as [Hq _]. apply negb_true_iff in Hq. exact Hq.
Qed.

Lemma quiet_not_connect_call e : quiet e = true -> is_connect_call e = false.
Proof.
  unfold quiet. intros Hq. apply andb_prop in Hq as [Hq _].
  apply andb_prop in Hq as [_ Hq]. apply negb_true_iff in Hq. exact Hq.
Qed.

Lemma quiet_not_services_timeout e :
  quiet e = true -> is_services_timeout e = false.
Proof.
  unfold quiet. intros Hq. apply andb_prop in Hq as [_ Hq].
  apply negb_true_iff in Hq. exact Hq.
Qed.

Lemma Forall_quiet_not_attempt t :
  Forall (fun e => quiet e = true) t -> Forall (fun e => is_attempt e = false) t.
Proof. intros Ht. eapply Forall_impl; [exact Ht | exact quiet_not_attempt]. Qed.

Lemma Forall_anything (Q : event -> Prop) t : Forall Q t -> Forall (fun _ => True) t.
Proof. intros Ht. eapply Forall_impl; [exact Ht | auto]. Qed.

Lemma attempts_app t1 t2 : attempts (t1 ++ t2) = attempts t1 ++ attempts t2.
Proof. apply omap_app. Qed.

Lemma attempts_none t :
  Forall (fun e => is_attempt e = false) t -> attempts t = [].
Proof.
  induction 1 as [|e t He _ IH]; [reflexivity|].
  unfold attempts in *. unfold is_attempt in He.
  change (omap attempt_of (e :: t))
    with (match attempt_of e with
          | Some y => y :: omap attempt_of t
          | None => omap attempt_of t
          end).
  destruct (attempt_of e); [discriminate | exact IH].
Qed.

Lemma free_all_emits (Q : event -> Prop) elems :
  (forall p, Q (Ev_free p)) ->
  emits (fold_right (fun e k => free e ;; k) (pure tt) elems) (Forall Q).
Proof.
  intros HQ. induction elems as [|e elems IH]; cbn [fold_right].
  - apply emits_pure. constructor.
  - apply emits_bind_all; [|intros _; exact IH].
    apply emits_free. repeat constructor. apply HQ.
Qed.

Lemma free_strv_emits (Q : event -> Prop) l :
  (forall p, Q (Ev_free p)) -> emits (free_strv l) (Forall Q).
Proof.
  intros HQ. unfold free_strv.
  apply emits_bind_all.
  - destruct (l =? NULL)%N; [apply emits_pure; constructor|].
    apply emits_bind_all; [apply emits_load_strv; constructor|].
    intros elems. apply free_all_emits, HQ.
  - intros _. apply emits_free. repeat constructor. apply HQ.
Qed.

Lemma blz_disconnect_quiet dev :
  emits (blz_disconnect dev) (Forall (fun e => quiet e = true)).
Proof.
  unfold blz_disconnect.
  destruct (dev =? NULL)%N; [emits_all|].
  apply emits_bind_all; [emits_all|]. intros d.
  apply emits_bind_all; [emits_all|]. intros _.
  apply emits_bind_all; [emits_all|]. intros _.
  apply emits_bind_all; [emits_all|]. intros rs.
  apply emits_bind_all; [emits_all|]. intros _.
  apply emits_bind_all; [apply free_strv_emits; reflexivity|]. intros _.
  apply emits_bind_all; [apply free_strv_emits; reflexivity|]. intros _.
  emits_all.
Qed.

Lemma blz_connect_known_no_attempt dev macstr :
  emits (blz_connect_known dev macstr)
    (Forall (fun e => is_attempt e = false)).
Proof. unfold blz_connect_known. emits_all. Qed.

(** [blz_connect_new] announces itself once, first thing. *)
Lemma blz_connect_new_one_attempt fuel dev macstr addr_public :
  emits (blz_connect_new fuel dev macstr addr_public)
    (fun t => attempts t = [addr_type_name addr_public]).
Proof.
  unfold blz_connect_new. cbv zeta.
  eapply emits_bind with
    (P1 := fun t => attempts t = [addr_type_name addr_public])
    (P2 := Forall (fun e => is_attempt e = false)).
  - apply emits_emit. reflexivity.
  - intros _.
    repeat first
      [ eapply emits_weaken;
          [apply blz_loop_timeout_quiet | apply Forall_quiet_not_attempt]
      | emits_all_step ].
  - auto.
  - intros t1 t2 H1 H2. rewrite attempts_app, H1, (attempts_none _ H2).
    reflexivity.
Qed.

Lemma blz_connect_by_address_attempts fuel dev macstr atype :
  emits (blz_connect_by_address fuel dev macstr atype)
    (fun t => attempts t `prefix_of` attempt_plan atype).
Proof.
  unfold blz_connect_by_address.
  eapply emits_bind with
    (P1 := fun t => attempts t = [addr_type_name (is_public atype)])
    (P2 := fun t => attempts t = [] \/
                    (atype = BLZ_ADDR_UNKNOWN /\ attempts t = ["public"])).
  - destruct atype; apply blz_connect_new_one_attempt.
  - intros r. destruct ((r <? 0) && is_unknown atype) eqn:Hretry.
    + apply andb_prop in Hretry as [_ Hu].
      destruct atype; try discriminate.
      eapply emits_weaken; [apply blz_connect_new_one_attempt|].
      cbn. auto.
    + apply emits_pure. auto.
  - intros t1 ->. destruct atype; cbn; [exists ["public"] | exists [] ..];
      reflexivity.
  - intros t1 t2 H1 [H2 | [-> H2]]; rewrite attempts_app, H1, H2.
    + destruct atype; cbn; [exists ["public"] | exists [] ..]; reflexivity.
    + cbn. exists []. reflexivity.
Qed.

Ltac silent :=
  repeat first
    [ eapply emits_weaken;
        [apply blz_loop_timeout_quiet | apply Forall_quiet_not_attempt]
    | eapply emits_weaken;
        [apply blz_disconnect_quiet | apply Forall_quiet_not_attempt]
    | apply blz_connect_known_no_attempt
    | emits_all_step ].

Lemma emits_silent_then {A B} (n : M (state W) B) (k : B -> M (state W) A)
    (plan : list string) :
  emits n (Forall (fun e => is_attempt e = false)) ->
  (forall b, emits (k b) (fun t => attempts t `prefix_of` plan)) ->
  emits (bind n k) (fun t => attempts t `prefix_of` plan).
Proof.
  intros Hn Hk. eapply emits_bind; [exact Hn | exact Hk | |].
  - intros t1 H1. rewrite (attempts_none _ H1). apply prefix_nil.
  - intros t1 t2 H1 H2. rewrite attempts_app, (attempts_none _ H1). exact H2.
Qed.

Lemma emits_then_silent {A B} (n : M (state W) B) (k : B -> M (state W) A)
    (plan : list string) :
  emits n (fun t => attempts t `prefix_of` plan) ->
  (forall b, emits (k b) (Forall (fun e => is_attempt e = false))) ->
  emits (bind n k) (fun t => attempts t `prefix_of` plan).
Proof.
  intros Hn Hk. eapply emits_bind; [exact Hn | exact Hk | |].
  - auto.
  - intros t1 t2 H1 H2.
    rewrite attempts_app, (attempts_none _ H2), app_nil_r. exact H1.
Qed.

Lemma emits_silent {A} (m : M (state W) A) (plan : list string) :
  emits m (Forall (fun e => is_attempt e = false)) ->
  emits m (fun t => attempts t `prefix_of` plan).
Proof.
  intros Hm. eapply emits_weaken; [exact Hm|].
  intros t Ht. rewrite (attempts_none _ Ht). apply prefix_nil.
Qed.

Lemma blz_connect_exit_silent r dev :
  emits (blz_connect_exit r dev)
    (Forall (fun e => is_attempt e = false)).
Proof. unfold blz_connect_exit. silent. Qed.

Lemma blz_connect_subscribed_attempts fuel ctx dev macstr atype cb conn_status :
  emits
    (blz_connect_subscribed fuel ctx dev macstr atype cb conn_status)
    (fun t => attempts t `prefix_of` attempt_plan atype).
Proof.
  unfold blz_connect_subscribed.
  apply emits_silent_then; [silent|]. intros d.
  apply emits_silent_then; [silent|]. intros _.
  apply emits_silent_then; [silent|]. intros rs.
  cbv zeta. destruct (ret rs <? 0).
  { apply emits_silent.
    apply emits_bind_all; [silent|]. intros _. apply blz_connect_exit_silent. }
  apply emits_silent_then; [silent|]. intros _.
  apply emits_then_silent.
  - destruct (conn_status =? 0).
    { apply emits_silent; silent. }
    destruct (conn_status =? -1).
    + apply blz_connect_by_address_attempts.
    + apply emits_silent; silent.
  - intros r. destruct (r <? 0); [apply blz_connect_exit_silent|].
    unfold blz_connect_resolved.
    apply emits_bind_all; [silent|]. intros r'.
    apply emits_bind_all; [silent|]. intros _.
    apply blz_connect_exit_silent.
Qed.

Lemma blz_connect_attempts fuel ctx macstr atype cb :
  emits (blz_connect fuel ctx macstr atype cb)
    (fun t => attempts t `prefix_of` attempt_plan atype).
Proof.
  unfold blz_connect. cbv zeta.
  apply emits_silent_then; [silent|]. intros dev.
  destruct (dev =? NULL)%N.
  { apply emits_silent; silent. }
  apply emits_silent_then; [silent|]. intros _.
  apply emits_silent_then; [silent|]. intros _.
  apply emits_silent_then; [silent|]. intros _.
  apply emits_silent_then; [silent|]. intros c.
  destruct (_ || _).
  { apply emits_silent; silent. }
  apply emits_silent_then; [silent|]. intros _.
  apply emits_silent_then; [silent|]. intros rs.
  destruct (_ && _).
  { apply emits_silent.
    apply emits_bind_all; [silent|]. intros _. apply blz_connect_exit_silent. }
  destruct (_ =? 1).
  { apply emits_silent_then; [silent|]. intros _.
    apply emits_silent_then; [silent|]. intros rs2.
    destruct (ret rs2 <? 0).
    - apply emits_silent.
      apply emits_bind_all; [silent|]. intros _. apply blz_connect_exit_silent.
    - apply emits_silent_then; [silent|]. intros _.
      apply blz_connect_subscribed_attempts. }
  destruct (_ && _).
  - apply emits_silent, blz_connect_exit_silent.
  - apply blz_connect_subscribed_attempts.
Qed.

(** *** Running a call step by step *)

Lemma bind_done {A B} (m : M (state W) A) (k : A -> M (state W) B) s a s1 :
  m s = (Done a, s1) -> bind m k s = k a s1.
Proof. intros Hm. unfold bind. rewrite Hm. reflexivity. Qed.

Lemma call_run rq s rs w :
  w_respond (st_world s) rq = (rs, w) ->
  call rq s =
    (Done rs, {| st_world := w; st_heap := st_heap s;
                 st_trace := st_trace s ++ [Ev_call rq rs] |}).
Proof. intros Hw. unfold call. rewrite Hw. reflexivity. Qed.

Lemma load_ctx_live s p c :
  st_heap s !! p = Some (O_ctx c) -> load_ctx p s = (Done c, s).
Proof. intros Hp. unfold load_ctx. rewrite Hp. reflexivity. Qed.

Lemma load_dev_live s p d :
  st_heap s !! p = Some (O_dev d) -> load_dev p s = (Done d, s).
Proof. intros Hp. unfold load_dev. rewrite Hp. reflexivity. Qed.

Lemma load_char_live s p c :
  st_heap s !! p = Some (O_char c) -> load_char p s = (Done c, s).
Proof. intros Hp. unfold load_char. rewrite Hp. reflexivity. Qed.

Lemma fresh_pointer_bound (h : gmap N object) p ob :
  h !! p = Some ob -> (p <= map_fold (fun p _ m => N.max p m) 0%N h)%N.
Proof.
  revert p ob.
  apply (map_fold_weak_ind
           (fun r (m : gmap N object) =>
              forall p ob, m !! p = Some ob -> (p <= r)%N)).
  - intros p ob Hp. rewrite lookup_empty in Hp. discriminate.
  - intros i x m r Hi IH p ob Hp.
    destruct (decide (p = i)) as [->|Hne]; [lia|].
    rewrite lookup_insert_ne in Hp by congruence.
    specialize (IH _ _ Hp). lia.
Qed.

(** The allocator returns an address that is not in use. *)
Lemma fresh_pointer_fresh (h : gmap N object) : h !! fresh_pointer h = None.
Proof.
  destruct (h !! fresh_pointer h) as [ob|] eqn:Hp; [|reflexivity].
  apply fresh_pointer_bound in Hp. unfold fresh_pointer in Hp. lia.
Qed.

Lemma fresh_pointer_not_null (h : gmap N object) : fresh_pointer h <> NULL.
Proof. unfold fresh_pointer, NULL. lia. Qed.

Lemma emits_new_events {A} (m : M (state W) A) (P : list event -> Prop) s :
  emits m P -> P (new_events s (snd (m s))).
Proof.
  intros Hm. destruct (m s) as [o s'] eqn:Hrun.
  destruct (Hm _ _ _ Hrun) as (t & Ht & HP).
  unfold new_events. cbn [snd]. rewrite Ht, drop_app_length. exact HP.
Qed.

Lemma calloc_ok ob s w :
  w_calloc (st_world s) = (true, w) ->
  calloc ob s =
    (Done (fresh_pointer (st_heap s)),
     {| st_world := w;
        st_heap := <[fresh_pointer (st_heap s) := ob]> (st_heap s);
        st_trace := st_trace s ++ [Ev_calloc (fresh_pointer (st_heap s))] |}).
Proof. intros Hw. unfold calloc. rewrite Hw. reflexivity. Qed.

(** [blz_connect] up to the subscription when BlueZ does not know the
    device: the handle is allocated and filled in, the query of "Connected"
    fails with [UnknownObject], [conn_status] is -1. *)
Lemma blz_connect_unknown_object fuel ctx macstr atype cb s w1 c rs1 w2 :
  let dev := fresh_pointer (st_heap s) in
  let path := format_dev_path (ctx_path c) (blz_string_to_mac macstr) in
  w_calloc (st_world s) = (true, w1) ->
  st_heap s !! ctx = Some (O_ctx c) ->
  Z.of_nat (String.length path) < DBUS_PATH_MAX_LEN ->
  w_respond w1 (sd_bus_get_property_trivial "org.bluez" path
                  "org.bluez.Device1" "Connected") = (rs1, w2) ->
  ret rs1 < 0 ->
  err_name (out_error rs1) = SD_BUS_ERROR_UNKNOWN_OBJECT ->
  blz_connect fuel ctx macstr atype cb s =
    blz_connect_subscribed fuel ctx dev macstr atype cb (-1)
      {| st_world := w2;
         st_heap := <[dev := O_dev (set_dev_path path
                                      (set_dev_ctx ctx zeroed_dev))]>
                      (st_heap s);
         st_trace := st_trace s
                     ++ [Ev_calloc dev;
                         Ev_call (sd_bus_get_property_trivial "org.bluez" path
                                    "org.bluez.Device1" "Connected") rs1] |}.
Proof.
  intros dev path Hcalloc Hctx Hlen Hq Hneg Hname.
  assert (Hne : ctx <> dev).
  { intros ->. subst dev. rewrite fresh_pointer_fresh in Hctx. discriminate. }
  unfold blz_connect. cbv zeta.
  rewrite (bind_done _ _ _ _ _ (calloc_ok _ _ _ Hcalloc)). fold dev.
  replace (dev =? NULL)%N with false
    by (symmetry; apply N.eqb_neq, fresh_pointer_not_null).
  erewrite bind_done
    by (apply update_dev_live; cbn [st_heap]; apply lookup_insert_eq).
  erewrite bind_done
    by (apply update_dev_live; cbn [st_heap]; apply lookup_insert_eq).
  erewrite bind_done
    by (apply update_dev_live; cbn [st_heap]; apply lookup_insert_eq).
  cbn [st_heap st_world st_trace]. rewrite !insert_insert_eq.
  erewrite bind_done
    by (apply load_ctx_live; cbn [st_heap];
        rewrite lookup_insert_ne by congruence; exact Hctx).
  fold path.
  replace ((Z.of_nat (String.length path) <? 0)
           || (DBUS_PATH_MAX_LEN <=? Z.of_nat (String.length path)))
    with false by (symmetry; apply orb_false_iff; split;
                   [apply Z.ltb_ge | apply Z.leb_gt]; lia).
  erewrite bind_done
    by (apply update_dev_live; cbn [st_heap]; apply lookup_insert_eq).
  cbn [st_heap st_world st_trace]. rewrite !insert_insert_eq.
  erewrite bind_done by (apply call_run; cbn [st_world]; exact Hq).
  cbn [st_heap st_world st_trace].
  assert (Hlt : (ret rs1 <? 0) = true) by (apply Z.ltb_lt; exact Hneg).
  rewrite Hlt. unfold sd_bus_error_has_name.
  rewrite bool_decide_eq_true_2 by exact Hname.
  cbn [negb andb]. change (-1 =? 1) with false. cbv iota.
  change (negb (-1 =? 0) && negb (-1 =? -1)) with false. cbv iota.
  rewrite <- app_assoc. reflexivity.
Qed.

(** *** The order of the events of [blz_connect] *)

Ltac anything :=
  repeat first
    [ eapply emits_weaken;
        [apply blz_loop_timeout_quiet | apply Forall_anything]
    | eapply emits_weaken;
        [apply blz_disconnect_quiet | apply Forall_anything]
    | eapply emits_weaken;
        [apply blz_connect_known_no_attempt | apply Forall_anything]
    | emits_all_step ].

Lemma emits_bind_call {A} rq (k : response -> M (state W) A)
    (P : list event -> Prop) :
  (forall rs, emits (k rs) (fun t => P (Ev_call rq rs :: t))) ->
  emits (bind (call rq) k) P.
Proof.
  intros Hk s o s'. unfold bind, call.
  destruct (w_respond (st_world s) rq) as [rs w]. intros Hrun.
  destruct (Hk rs _ _ _ Hrun) as (t & Ht & HP). cbn in Ht.
  exists (Ev_call rq rs :: t). split; [|exact HP].
  rewrite Ht, <- app_assoc. reflexivity.
Qed.

Lemma emits_after_nothing {A B} (n : M (state W) B) (k : B -> M (state W) A)
    (P : list event -> Prop) :
  emits n (fun t => t = []) -> (forall b, emits (k b) P) -> P [] ->
  emits (bind n k) P.
Proof.
  intros Hn Hk HP. eapply emits_bind; [exact Hn | exact Hk | |].
  - intros t1 ->. exact HP.
  - intros t1 t2 -> H2. exact H2.
Qed.

Lemma blz_connect_new_starts_with_entry fuel dev macstr addr_public :
  emits (blz_connect_new fuel dev macstr addr_public)
    (fun t => exists t', t = attempt_entry macstr addr_public :: t').
Proof.
  unfold blz_connect_new. cbv zeta.
  eapply emits_bind with
    (P1 := fun t => t = [attempt_entry macstr addr_public])
    (P2 := Forall (fun _ => True)).
  - apply emits_emit. reflexivity.
  - intros _. anything.
  - intros t1 ->. eauto.
  - intros t1 t2 -> _. cbn. eauto.
Qed.

Lemma blz_connect_new_anything fuel dev macstr addr_public :
  emits (blz_connect_new fuel dev macstr addr_public)
    (Forall (fun _ => True)).
Proof.
  eapply emits_weaken; [apply blz_connect_new_starts_with_entry|].
  intros t _. apply Forall_true. auto.
Qed.

Lemma blz_connect_by_address_starts_with_entry fuel dev macstr atype :
  emits (blz_connect_by_address fuel dev macstr atype)
    (fun t => exists t', t = attempt_entry macstr (is_public atype) :: t').
Proof.
  unfold blz_connect_by_address.
  eapply emits_bind with
    (P1 := fun t => exists t', t = attempt_entry macstr (is_public atype) :: t')
    (P2 := Forall (fun _ => True)).
  - destruct atype; apply blz_connect_new_starts_with_entry.
  - intros r. destruct (_ && _); [apply blz_connect_new_anything | anything].
  - auto.
  - intros t1 t2 [t' ->] _. cbn. eauto.
Qed.

(** What follows the connect step in [blz_connect]. *)
Lemma blz_connect_finish_anything fuel ctx dev cb (r : Z) :
  emits
    (if r <? 0 then blz_connect_exit r dev
     else blz_connect_resolved fuel ctx dev cb)
    (Forall (fun _ => True)).
Proof. unfold blz_connect_resolved, blz_connect_exit. anything. Qed.

Lemma blz_connect_subscribed_order fuel ctx dev macstr atype cb conn_status :
  emits
    (blz_connect_subscribed fuel ctx dev macstr atype cb conn_status)
    (fun t => Forall (fun e => quiet e = true) t \/ subscribed_first t).
Proof.
  unfold blz_connect_subscribed.
  apply emits_after_nothing;
    [apply emits_load_dev; reflexivity | | left; constructor]. intros d.
  apply emits_after_nothing;
    [apply emits_load_ctx; reflexivity | | left; constructor]. intros _.
  apply emits_bind_call. intros rs. cbv zeta.
  destruct (ret rs <? 0) eqn:Hret.
  - eapply emits_weaken with (P := Forall (fun e => quiet e = true)).
    + unfold blz_connect_exit. emits_all.
    + intros t Ht. left. constructor; [reflexivity | exact Ht].
  - eapply emits_weaken with (P := Forall (fun _ => True)).
    + apply emits_bind_all; [anything|]. intros _.
      apply emits_bind_all; [|intros r; apply blz_connect_finish_anything].
      destruct (conn_status =? 0); [anything|].
      destruct (conn_status =? -1); [|anything].
      eapply emits_weaken; [apply blz_connect_by_address_starts_with_entry|].
      intros t _. apply Forall_true. auto.
    + intros t _. right. exists []. do 2 eexists.
      split; [reflexivity|]. split; [|constructor].
      cbn. apply Z.ltb_ge in Hret. apply Z.leb_le. exact Hret.
Qed.

Lemma emits_quiet_then {A B} (n : M (state W) B) (k : B -> M (state W) A) :
  emits n (Forall (fun e => quiet e = true)) ->
  (forall b, emits (k b)
     (fun t => Forall (fun e => quiet e = true) t \/ subscribed_first t)) ->
  emits (bind n k)
    (fun t => Forall (fun e => quiet e = true) t \/ subscribed_first t).
Proof.
  intros Hn Hk. eapply emits_bind; [exact Hn | exact Hk | |].
  - auto.
  - intros t1 t2 H1 [H2 | (t3 & e & t4 & -> & He & H3)].
    + left. apply Forall_app. auto.
    + right. exists (t1 ++ t3), e, t4. rewrite <- app_assoc.
      split; [reflexivity|]. split; [exact He|]. apply Forall_app. auto.
Qed.

Lemma emits_quiet {A} (m : M (state W) A) :
  emits m (Forall (fun e => quiet e = true)) ->
  emits m (fun t => Forall (fun e => quiet e = true) t \/ subscribed_first t).
Proof. intros Hm. eapply emits_weaken; [exact Hm | auto]. Qed.

Lemma blz_connect_order fuel ctx macstr atype cb :
  emits (blz_connect fuel ctx macstr atype cb)
    (fun t => Forall (fun e => quiet e = true) t \/ subscribed_first t).
Proof.
  unfold blz_connect. cbv zeta.
  apply emits_quiet_then; [emits_all|]. intros dev.
  destruct (dev =? NULL)%N; [apply emits_quiet; emits_all|].
  apply emits_quiet_then; [emits_all|]. intros _.
  apply emits_quiet_then; [emits_all|]. intros _.
  apply emits_quiet_then; [emits_all|]. intros _.
  apply emits_quiet_then; [emits_all|]. intros c.
  destruct (_ || _); [apply emits_quiet; emits_all|].
  apply emits_quiet_then; [emits_all|]. intros _.
  apply emits_quiet_then; [emits_all|]. intros rs.
  destruct (_ && _).
  { apply emits_quiet. unfold blz_connect_exit. emits_all. }
  destruct (_ =? 1).
  { apply emits_quiet_then; [emits_all|]. intros _.
    apply emits_quiet_then; [emits_all|]. intros rs2.
    destruct (ret rs2 <? 0).
    - apply emits_quiet. unfold blz_connect_exit. emits_all.
    - apply emits_quiet_then; [emits_all|]. intros _.
      apply blz_connect_subscribed_order. }
  destruct (_ && _).
  - apply emits_quiet. unfold blz_connect_exit. emits_all.
  - apply blz_connect_subscribed_order.
Qed.

Lemma split_at_two_places {X} (t1 t2 pre post : list X) (x e : X) :
  t1 ++ x :: t2 = pre ++ e :: post -> x ∈ pre \/ e ∈ t1 \/ e = x.
Proof.
  revert pre. induction t1 as [|a t1 IH]; intros [|y pre]; cbn;
    intros [= Hhd Htl].
  - auto.
  - left. subst. apply list_elem_of_here.
  - right. left. subst. apply list_elem_of_here.
  - destruct (IH _ Htl) as [Hx | [He | He]].
    + left. apply list_elem_of_further. exact Hx.
    + right. left. apply list_elem_of_further. exact He.
    + auto.
Qed.

Lemma blz_connect_subscribed_first_attempt
    fuel ctx dev macstr atype cb s d c rs w :
  st_heap s !! dev = Some (O_dev d) ->
  st_heap s !! ctx = Some (O_ctx c) ->
  w_respond (st_world s)
    (sd_bus_match_signal "org.bluez" (dev_path d)
       "org.freedesktop.DBus.Properties" "PropertiesChanged"
       blz_connect_cb_fn dev) = (rs, w) ->
  0 <= ret rs ->
  exists t',
    st_trace (snd (blz_connect_subscribed fuel ctx dev macstr atype cb (-1) s))
    = st_trace s
      ++ Ev_call (sd_bus_match_signal "org.bluez" (dev_path d)
                    "org.freedesktop.DBus.Properties" "PropertiesChanged"
                    blz_connect_cb_fn dev) rs
         :: attempt_entry macstr (is_public atype) :: t'.
Proof.
  intros Hdev Hctx Hsub Hok.
  unfold blz_connect_subscribed.
  rewrite (bind_done _ _ _ _ _ (load_dev_live _ _ _ Hdev)).
  rewrite (bind_done _ _ _ _ _ (load_ctx_live _ _ _ Hctx)).
  rewrite (bind_done _ _ _ _ _ (call_run _ _ _ _ Hsub)). cbv zeta.
  replace (ret rs <? 0) with false by (symmetry; apply Z.ltb_ge; exact Hok).
  erewrite bind_done by (apply update_dev_live; exact Hdev).
  change (-1 =? 0) with false. change (-1 =? -1) with true. cbv iota.
  match goal with |- context [snd (bind ?m ?k ?s1)] =>
    destruct (bind m k s1) as [o s'] eqn:Hrun;
    assert (Hem : emits (bind m k)
              (fun t => exists t', t = attempt_entry macstr (is_public atype) :: t'))
  end.
  { eapply emits_bind with
      (P1 := fun t => exists t', t = attempt_entry macstr (is_public atype) :: t')
      (P2 := Forall (fun _ => True)).
    - apply blz_connect_by_address_starts_with_entry.
    - intros r. apply blz_connect_finish_anything.
    - auto.
    - intros t1 t2 [t' ->] _. cbn. eauto. }
  destruct (Hem _ _ _ Hrun) as (t & Ht & t' & ->).
  exists t'. cbn [snd]. rewrite Ht. cbn [st_trace].
  rewrite <- app_assoc. reflexivity.
Qed.

Lemma new_events_app s s' t :
  st_trace s' = st_trace s ++ t -> new_events s s' = t.
Proof. intros Ht. unfold new_events. rewrite Ht. apply drop_app_length. Qed.

(** ** Address-type fallback *)

(** The fallback itself: see [blz_connect_address_type_fallback] below,
    which needs the step-by-step run of [blz_connect]. *)

(** ** Subscribe, then connect *)

(** The subscription comes before the connect request: see
    [subscription_precedes_connect_call] below, which needs the step-by-step
    run of [blz_connect]. *)

(** ** Disconnect *)

Lemma free_null s :
  free NULL s =
    (Done tt, {| st_world := st_world s; st_heap := st_heap s;
                 st_trace := st_trace s ++ [Ev_free NULL] |}).
Proof. reflexivity. Qed.

Lemma free_live s p :
  p <> NULL -> is_Some (st_heap s !! p) ->
  free p s =
    (Done tt, {| st_world := st_world s; st_heap := delete p (st_heap s);
                 st_trace := st_trace s ++ [Ev_free p] |}).
Proof.
  intros Hp [ob Hob]. unfold free.
  replace (p =? NULL)%N with false by (symmetry; apply N.eqb_neq; exact Hp).
  rewrite Hob. reflexivity.
Qed.

Lemma lookup_delete_all (h : gmap N object) ps k :
  foldl (fun h p => delete p h) h ps !! k
  = if decide (k ∈ ps) then None else h !! k.
Proof.
  revert h. induction ps as [|p ps IH]; intros h; cbn [foldl].
  - destruct (decide (k ∈ [])) as [Hin|]; [|reflexivity].
    apply elem_of_nil in Hin. contradiction.
  - rewrite IH.
    destruct (decide (k ∈ ps)) as [Hin|Hnin].
    + rewrite decide_True by (apply list_elem_of_further; exact Hin).
      reflexivity.
    + destruct (decide (k = p)) as [->|Hne].
      * rewrite decide_True by apply list_elem_of_here.
        apply lookup_delete_eq.
      * rewrite decide_False.
        -- apply lookup_delete_ne. congruence.
        -- intros Hin. apply elem_of_cons in Hin as [?|?]; contradiction.
Qed.

Lemma free_all_run elems s :
  NoDup elems ->
  (forall p, p ∈ elems -> p <> NULL /\ is_Some (st_heap s !! p)) ->
  fold_right (fun e k => free e ;; k) (pure tt) elems s =
    (Done tt,
     {| st_world := st_world s;
        st_heap := foldl (fun h p => delete p h) (st_heap s) elems;
        st_trace := st_trace s ++ map Ev_free elems |}).
Proof.
  revert s. induction elems as [|e elems IH]; intros s Hnd Hlive.
  - cbn. rewrite app_nil_r. destruct s; reflexivity.
  - apply NoDup_cons in Hnd as [Hnin Hnd].
    cbn [fold_right foldl map].
    destruct (Hlive e (list_elem_of_here _ _)) as [Hnn Hsome].
    rewrite (bind_done _ _ _ _ _ (free_live _ _ Hnn Hsome)).
    rewrite IH; [cbn [st_world st_heap st_trace];
                 rewrite <- app_assoc; reflexivity | exact Hnd |].
    intros p Hp. cbn [st_heap].
    destruct (Hlive p (list_elem_of_further _ _ _ Hp)) as [Hpn Hps].
    split; [exact Hpn|]. rewrite lookup_delete_ne; [exact Hps|].
    intros ->. contradiction.
Qed.

Lemma free_strv_run l elems s :
  strv_at (st_heap s) l elems ->
  NoDup (strv_cells l elems) ->
  (forall p, p ∈ strv_cells l elems -> p <> NULL /\ is_Some (st_heap s !! p)) ->
  free_strv l s =
    (Done tt,
     {| st_world := st_world s;
        st_heap := foldl (fun h p => delete p h) (st_heap s) (strv_cells l elems);
        st_trace := st_trace s ++ strv_frees l elems |}).
Proof.
  unfold strv_at, strv_cells, strv_frees, free_strv.
  destruct (l =? NULL)%N eqn:Hl.
  - intros -> _ _. apply N.eqb_eq in Hl. subst l.
    rewrite (bind_done _ _ _ _ _ (eq_refl : pure tt s = (Done tt, s))).
    apply free_null.
  - intros Hat Hnd Hlive. apply N.eqb_neq in Hl.
    apply NoDup_app in Hnd as (Hnd & Hdisj & _).
    assert (Hnin : l ∉ elems).
    { intros Hin. apply (Hdisj l Hin). apply list_elem_of_here. }
    unfold bind at 1. unfold bind at 1. unfold load_strv. rewrite Hat.
    rewrite free_all_run;
      [| exact Hnd
       | intros p Hp; apply Hlive, elem_of_app; left; exact Hp].
    rewrite free_live; cbn [st_world st_heap st_trace].
    + rewrite foldl_app, <- app_assoc. reflexivity.
    + exact Hl.
    + rewrite lookup_delete_all, decide_False by exact Hnin.
      rewrite Hat. eauto.
Qed.

Lemma emit_run e s :
  emit e s =
    (Done tt, {| st_world := st_world s; st_heap := st_heap s;
                 st_trace := st_trace s ++ [e] |}).
Proof. reflexivity. Qed.

(** [blz_disconnect] after it has dealt with the subscription. *)
Lemma blz_disconnect_release s dev d c su cu rs w :
  let cells := strv_cells (service_uuids d) su
               ++ strv_cells (char_uuids d) cu ++ [dev] in
  st_heap s !! dev_ctx d = Some (O_ctx c) ->
  strv_at (st_heap s) (service_uuids d) su ->
  strv_at (st_heap s) (char_uuids d) cu ->
  NoDup cells ->
  (forall p, p ∈ cells -> p <> NULL /\ is_Some (st_heap s !! p)) ->
  w_respond (st_world s) (disconnect_request d) = (rs, w) ->
  (_ <- load_ctx (dev_ctx d) ;;
   rs <- call (disconnect_request d) ;;
   (if ret rs <? 0 then
      LOG LOG_ERR "BLZ failed to disconnect: %s" [err_message (out_error rs)]
    else pure tt) ;;
   free_strv (service_uuids d) ;;
   free_strv (char_uuids d) ;;
   free dev) s =
  (Done tt,
   {| st_world := w;
      st_heap := foldl (fun h p => delete p h) (st_heap s) cells;
      st_trace := st_trace s
        ++ [Ev_call (disconnect_request d) rs]
        ++ (if ret rs <? 0 then
              [Ev_log LOG_ERR "BLZ failed to disconnect: %s"
                 [err_message (out_error rs)]]
            else [])
        ++ strv_frees (service_uuids d) su
        ++ strv_frees (char_uuids d) cu
        ++ [Ev_free dev] |}).
Proof.
  intros cells Hctx Hsu Hcu Hnd Hlive Hw. subst cells.
  apply NoDup_app in Hnd as (Hnd1 & Hdisj1 & Hnd2).
  apply NoDup_app in Hnd2 as (Hnd2 & Hdisj2 & _).
  rewrite (bind_done _ _ _ _ _ (load_ctx_live _ _ _ Hctx)).
  rewrite (bind_done _ _ _ _ _ (call_run _ _ _ _ Hw)).
  match goal with
  | |- bind (if ?b then LOG ?l ?f ?a else pure tt) ?k ?s1 = _ =>
      assert (Hlog : (if b then LOG l f a else pure tt) s1 =
                (Done tt,
                 {| st_world := st_world s1; st_heap := st_heap s1;
                    st_trace := st_trace s1
                                ++ (if b then [Ev_log l f a] else []) |}))
  end.
  { destruct (ret rs <? 0); [apply emit_run|].
    cbn. rewrite app_nil_r. reflexivity. }
  rewrite (bind_done _ _ _ _ _ Hlog). clear Hlog.
  cbn [st_world st_heap st_trace].
  erewrite bind_done;
    [| apply (free_strv_run _ su); cbn [st_heap];
       [ exact Hsu | exact Hnd1
       | intros p Hp; apply Hlive, elem_of_app; left; exact Hp ]].
  cbn [st_world st_heap st_trace].
  erewrite bind_done;
    [| apply (free_strv_run _ cu); cbn [st_heap];
       [ | exact Hnd2 | ]].
  - cbn [st_world st_heap st_trace].
    rewrite free_live; cbn [st_world st_heap st_trace].
    + rewrite !foldl_app, <- !app_assoc. reflexivity.
    + apply (Hlive dev). rewrite !elem_of_app. right. right.
      apply list_elem_of_here.
    + rewrite <- foldl_app, lookup_delete_all, decide_False.
      * apply (Hlive dev). rewrite !elem_of_app. right. right.
        apply list_elem_of_here.
      * intros Hin. apply elem_of_app in Hin as [Hin | Hin].
        -- apply (Hdisj1 dev Hin). apply elem_of_app. right.
           apply list_elem_of_here.
        -- apply (Hdisj2 dev Hin). apply list_elem_of_here.
  - unfold strv_at in *. destruct (char_uuids d =? NULL)%N eqn:Hl;
      [exact Hcu|].
    rewrite lookup_delete_all, decide_False; [exact Hcu|].
    intros Hin. apply (Hdisj1 _ Hin). apply elem_of_app. left.
    unfold strv_cells. rewrite Hl. apply elem_of_app. right.
    apply list_elem_of_here.
  - intros p Hp.
    assert (Hp' : p ∈ strv_cells (service_uuids d) su
                      ++ strv_cells (char_uuids d) cu ++ [dev]).
    { rewrite !elem_of_app. right. left. exact Hp. }
    destruct (Hlive p Hp') as [Hpn Hps]. split; [exact Hpn|].
    rewrite lookup_delete_all, decide_False; [exact Hps|].
    intros Hin. apply (Hdisj1 _ Hin). apply elem_of_app. left. exact Hp.
Qed.

(** C8: on a valid device handle, [blz_disconnect] runs to its end whatever
    the bus answers.  It releases the subscription slot only if there is
    one, always sends [Disconnect] (a failure is logged and nothing more),
    then calls [free] once on every string of each UUID list and once on
    each list, also on a list that is [NULL], and once on the handle; all
    of these allocations are gone afterwards and nothing else is. *)
Theorem blz_disconnect_always_cleans_up s dev d c su cu rs w :
  let cells := strv_cells (service_uuids d) su
               ++ strv_cells (char_uuids d) cu ++ [dev] in
  st_heap s !! dev = Some (O_dev d) ->
  st_heap s !! dev_ctx d = Some (O_ctx c) ->
  strv_at (st_heap s) (service_uuids d) su ->
  strv_at (st_heap s) (char_uuids d) cu ->
  NoDup cells ->
  (forall p, p ∈ cells -> p <> NULL /\ is_Some (st_heap s !! p)) ->
  w_respond (st_world s) (disconnect_request d) = (rs, w) ->
  exists s',
    blz_disconnect dev s = (Done tt, s')
    /\ st_world s' = w
    /\ st_trace s' =
         st_trace s
         ++ (if (connect_slot d =? NULL)%N then []
             else [Ev_slot_unref (connect_slot d)])
         ++ [Ev_call (disconnect_request d) rs]
         ++ (if ret rs <? 0 then
               [Ev_log LOG_ERR "BLZ failed to disconnect: %s"
                  [err_message (out_error rs)]]
             else [])
         ++ strv_frees (service_uuids d) su
         ++ strv_frees (char_uuids d) cu
         ++ [Ev_free dev]
    /\ forall p,
         st_heap s' !! p = if decide (p ∈ cells) then None else st_heap s !! p.
Proof.
  intros cells Hdev Hctx Hsu Hcu Hnd Hlive Hw.
  assert (Hdevin : dev ∈ cells).
  { subst cells. rewrite !elem_of_app. right. right. apply list_elem_of_here. }
  destruct (Hlive dev Hdevin) as [Hnn _].
  assert (Hcd : dev_ctx d <> dev).
  { intros Heq. rewrite Heq, Hdev in Hctx. discriminate. }
  unfold blz_disconnect.
  replace (dev =? NULL)%N with false by (symmetry; apply N.eqb_neq; exact Hnn).
  rewrite (bind_done _ _ _ _ _ (load_dev_live _ _ _ Hdev)).
  destruct (connect_slot d =? NULL)%N eqn:Hslot; cbn [negb].
  - rewrite (bind_done _ _ _ _ _ (eq_refl : pure tt s = (Done tt, s))).
    eexists. split.
    { apply (blz_disconnect_release s dev d c su cu rs w); assumption. }
    cbn [st_world st_trace st_heap]. split; [reflexivity|].
    split; [reflexivity|]. intros p. apply lookup_delete_all.
  - set (s1 := {| st_world := st_world s;
                  st_heap := <[dev := O_dev (set_connect_slot NULL d)]> (st_heap s);
                  st_trace := st_trace s ++ [Ev_slot_unref (connect_slot d)] |}).
    assert (Hunref :
      (slot <- sd_bus_slot_unref (connect_slot d) ;;
       update_dev dev (set_connect_slot slot)) s = (Done tt, s1)).
    { unfold sd_bus_slot_unref.
      unfold bind at 1. unfold bind at 1. rewrite emit_run. unfold pure at 1.
      rewrite update_dev_live with (d := d) by exact Hdev. reflexivity. }
    rewrite (bind_done _ _ _ _ _ Hunref).
    assert (Hsame : forall p, p <> dev -> st_heap s1 !! p = st_heap s !! p).
    { intros p Hp. subst s1. cbn [st_heap]. apply lookup_insert_ne. congruence. }
    eexists. split.
    { apply (blz_disconnect_release s1 dev d c su cu rs w).
      - rewrite Hsame by exact Hcd. exact Hctx.
      - unfold strv_at in *. destruct (service_uuids d =? NULL)%N; [exact Hsu|].
        destruct (decide (service_uuids d = dev)) as [Heq|Hne].
        + rewrite Heq, Hdev in Hsu. discriminate.
        + rewrite Hsame by exact Hne. exact Hsu.
      - unfold strv_at in *. destruct (char_uuids d =? NULL)%N; [exact Hcu|].
        destruct (decide (char_uuids d = dev)) as [Heq|Hne].
        + rewrite Heq, Hdev in Hcu. discriminate.
        + rewrite Hsame by exact Hne. exact Hcu.
      - exact Hnd.
      - intros p Hp. destruct (Hlive p Hp) as [Hpn Hps]. split; [exact Hpn|].
        destruct (decide (p = dev)) as [->|Hne].
        + subst s1. cbn [st_heap]. rewrite lookup_insert_eq. eauto.
        + rewrite Hsame by exact Hne. exact Hps.
      - exact Hw. }
    subst s1. cbn [st_world st_trace st_heap]. split; [reflexivity|].
    split; [rewrite <- app_assoc; reflexivity|].
    intros p. rewrite lookup_delete_all. fold cells.
    destruct (decide (p ∈ cells)) as [|Hnin]; [reflexivity|].
    apply lookup_insert_ne. intros ->. contradiction.
Qed.

(** ** Reading a characteristic *)

Lemma to_int_small z : - 2 ^ 31 <= z < 2 ^ 31 -> to_int z = z.
Proof.
  intros Hz. unfold to_int. rewrite Z.mod_small by lia. lia.
Qed.

(** C6: when the characteristic can be read and both the remote call and
    the decoding of its reply succeed, [blz_char_read] returns the number of
    bytes received, however long the caller's buffer is, and has copied the
    first [min(received, len)] of them to the start of the buffer, leaving
    the rest of the buffer as it was. *)
Theorem blz_char_read_returns_bytes_received
    s ch c cx data len rs1 w1 rs2 w2 :
  let received := out_array rs2 in
  let copied := Z.to_nat (Z.min (Z.of_nat (length received)) len) in
  st_heap s !! ch = Some (O_char c) ->
  st_heap s !! ch_ctx c = Some (O_ctx cx) ->
  Z.land (ch_flags c) BLZ_CHAR_READ <> 0 ->
  w_respond (st_world s) (read_request c) = (rs1, w1) ->
  0 <= ret rs1 ->
  w_respond w1 sd_bus_message_read_array = (rs2, w2) ->
  0 <= ret rs2 ->
  Z.of_nat (length received) < 2 ^ 31 ->
  0 <= len ->
  blz_char_read ch data len s =
    (Done (Z.of_nat (length received), take copied received ++ drop copied data),
     {| st_world := w2; st_heap := st_heap s;
        st_trace := st_trace s ++ [Ev_call (read_request c) rs1;
                                   Ev_call sd_bus_message_read_array rs2] |})
  /\ (copied <= Z.to_nat len)%nat
  /\ (copied <= length received)%nat.
Proof.
  intros received copied Hch Hctx Hflag Hw1 Hr1 Hw2 Hr2 Hsize Hlen.
  split; [|subst copied; lia].
  unfold blz_char_read. cbv zeta.
  rewrite (bind_done _ _ _ _ _ (load_char_live _ _ _ Hch)).
  replace (Z.land (ch_flags c) BLZ_CHAR_READ =? 0) with false
    by (symmetry; apply Z.eqb_neq; exact Hflag).
  rewrite (bind_done _ _ _ _ _ (load_ctx_live _ _ _ Hctx)).
  rewrite (bind_done _ _ _ _ _ (call_run _ _ _ _ Hw1)).
  replace (ret rs1 <? 0) with false by (symmetry; apply Z.ltb_ge; exact Hr1).
  erewrite bind_done by (apply call_run; cbn [st_world]; exact Hw2).
  replace (ret rs2 <? 0) with false by (symmetry; apply Z.ltb_ge; exact Hr2).
  fold received. unfold pure. cbn [st_world st_heap st_trace].
  rewrite to_int_small by lia. rewrite <- app_assoc.
  assert (Hdata :
    (if 0 <? Z.of_nat (length received)
     then memcpy data received
            (if Z.of_nat (length received) <? len
             then Z.of_nat (length received) else len)
     else data) = take copied received ++ drop copied data).
  { subst copied. destruct (0 <? Z.of_nat (length received)) eqn:Hpos.
    - unfold memcpy.
      destruct (Z.of_nat (length received) <? len) eqn:Hcmp.
      + apply Z.ltb_lt in Hcmp. rewrite Z.min_l by lia. reflexivity.
      + apply Z.ltb_ge in Hcmp. rewrite Z.min_r by lia. reflexivity.
    - apply Z.ltb_ge in Hpos. rewrite Z.min_l by lia.
      replace (Z.to_nat (Z.of_nat (length received))) with 0%nat by lia.
      reflexivity. }
  rewrite Hdata. reflexivity.
Qed.

(** ** The wait for the services *)

Local Abbreviation ends := (ends (W := W)).
Local Abbreviation returns := (returns (W := W)).
Local Abbreviation fuel_free := (fuel_free (W := W)).

Lemma bind_Done_inv {A B} (m : M (state W) A) (k : A -> M (state W) B) s b s' :
  bind m k s = (Done b, s') ->
  exists a s1, m s = (Done a, s1) /\ k a s1 = (Done b, s').
Proof.
  unfold bind. destruct (m s) as [[a|f|] s1]; [eauto | discriminate ..].
Qed.

Lemma fuel_free_bind {A B} (m : M (state W) A) (k : A -> M (state W) B) :
  fuel_free m -> (forall a, fuel_free (k a)) -> fuel_free (bind m k).
Proof.
  intros Hm Hk s s'. unfold bind.
  destruct (m s) as [[a|f|] s1] eqn:Hrun.
  - apply Hk.
  - discriminate.
  - exfalso. exact (Hm _ _ Hrun).
Qed.

Lemma fuel_free_total {A} (m : M (state W) A) :
  (forall s, exists o s', m s = (o, s') /\ o <> Out_of_fuel) -> fuel_free m.
Proof.
  intros Hm s s' Hrun. destruct (Hm s) as (o & s1 & Hs & Ho).
  rewrite Hrun in Hs. congruence.
Qed.

Lemma fuel_free_free p : fuel_free (free p).
Proof.
  intros s s'. unfold free. destruct (p =? NULL)%N; [discriminate|].
  destruct (st_heap s !! p); discriminate.
Qed.

Ltac fuel_free_step :=
  lazymatch goal with
  | |- fuel_free (bind _ _) => apply fuel_free_bind; [| intros ?]
  | |- fuel_free (free _) => apply fuel_free_free
  | |- fuel_free (if ?b then _ else _) => destruct b
  | |- fuel_free (update_dev _ _) => unfold update_dev
  | |- fuel_free (sd_bus_slot_unref _) => unfold sd_bus_slot_unref
  | |- fuel_free (LOG _ _ _) => unfold LOG
  | |- fuel_free (pure _) => intros ? ?; discriminate
  | |- fuel_free (emit _) => intros ? ?; discriminate
  | |- fuel_free (store _ _) => intros ? ?; discriminate
  | |- fuel_free (call _) =>
      let s := fresh "s" in
      intros s ?; unfold call; destruct (w_respond (st_world s) _);
      discriminate
  | |- fuel_free (load_ctx _) =>
      let s := fresh "s" in
      intros s ?; unfold load_ctx; destruct (st_heap s !! _) as [[]|];
      discriminate
  | |- fuel_free (load_dev _) =>
      let s := fresh "s" in
      intros s ?; unfold load_dev; destruct (st_heap s !! _) as [[]|];
      discriminate
  | |- fuel_free (load_strv _) =>
      let s := fresh "s" in
      intros s ?; unfold load_strv; destruct (st_heap s !! _) as [[]|];
      discriminate
  end.

Lemma fuel_free_free_all elems :
  fuel_free (fold_right (fun e k => free e ;; k) (pure tt) elems).
Proof.
  induction elems as [|e elems IH]; cbn [fold_right].
  - fuel_free_step.
  - apply fuel_free_bind; [apply fuel_free_free | intros _; exact IH].
Qed.

(** [blz_disconnect] has no loop. *)
Lemma blz_disconnect_fuel_free dev : fuel_free (blz_disconnect dev).
Proof.
  unfold blz_disconnect, free_strv.
  repeat first [apply fuel_free_free_all | fuel_free_step].
Qed.

(** A completed [blz_disconnect] has released the handle. *)
Lemma blz_disconnect_releases_handle dev s s' :
  dev <> NULL ->
  blz_disconnect dev s = (Done tt, s') ->
  st_heap s' !! dev = None.
Proof.
  intros Hnn. unfold blz_disconnect.
  replace (dev =? NULL)%N with false by (symmetry; apply N.eqb_neq; exact Hnn).
  intros Hrun.
  repeat (apply bind_Done_inv in Hrun as (? & ? & _ & Hrun)).
  revert Hrun. unfold free.
  replace (dev =? NULL)%N with false by (symmetry; apply N.eqb_neq; exact Hnn).
  destruct (st_heap _ !! dev); [|discriminate].
  intros [= <-]. cbn [st_heap]. apply lookup_delete_eq.
Qed.

(** The code after a timed-out wait: disconnect, then the [free] at [exit].
    However the disconnect goes, the call does not return. *)
Lemma blz_connect_timeout_faults r dev s o s' :
  r < 0 -> dev <> NULL ->
  ((LOG LOG_ERR "BLZ timeout waiting for ServicesResolved" [] ;;
    blz_disconnect dev) ;;
   blz_connect_exit r dev) s = (o, s') ->
  exists f, o = Fault f.
Proof.
  intros Hr Hnn. unfold LOG. unfold bind at 1.
  rewrite (bind_done _ _ _ _ _ (emit_run _ _)).
  match goal with |- context [blz_disconnect dev ?s1] =>
    destruct (blz_disconnect dev s1) as [[[]|f|] s2] eqn:Hdis
  end.
  - apply blz_disconnect_releases_handle in Hdis; [|exact Hnn].
    unfold blz_connect_exit.
    replace (r <? 0) with true by (symmetry; apply Z.ltb_lt; exact Hr).
    unfold bind, free.
    replace (dev =? NULL)%N with false
      by (symmetry; apply N.eqb_neq; exact Hnn).
    rewrite Hdis. intros [= <- <-]. eauto.
  - intros [= <- <-]. eauto.
  - exfalso. exact (blz_disconnect_fuel_free _ _ _ Hdis).
Qed.

Lemma ends_calm {A} (m : M (state W) A) :
  emits m (Forall (fun e => quiet e = true)) ->
  ends m faults_on_services_timeout.
Proof.
  intros Hm s o s' Hrun. destruct (Hm _ _ _ Hrun) as (t & Ht & Hq).
  exists t. split; [exact Ht|]. intros Hin.
  rewrite Forall_forall in Hq. apply Hq in Hin. discriminate.
Qed.

Lemma ends_calm_then {A B} (n : M (state W) B) (k : B -> M (state W) A) :
  emits n (Forall (fun e => is_services_timeout e = false)) ->
  (forall b, ends (k b) faults_on_services_timeout) ->
  ends (bind n k) faults_on_services_timeout.
Proof.
  intros Hn Hk s o s'. unfold bind.
  assert (Hcalm : forall t, Forall (fun e => is_services_timeout e = false) t ->
                            services_timeout ∉ t).
  { intros t Ht Hin. rewrite Forall_forall in Ht. apply Ht in Hin.
    discriminate. }
  destruct (n s) as [[b|f|] s1] eqn:Hrun;
    destruct (Hn _ _ _ Hrun) as (t1 & Ht1 & Hq1).
  - intros Hrun2. destruct (Hk b _ _ _ Hrun2) as (t2 & Ht2 & HP).
    exists (t1 ++ t2). split; [rewrite Ht2, Ht1, app_assoc; reflexivity|].
    intros Hin. apply elem_of_app in Hin as [Hin | Hin];
      [exfalso; exact (Hcalm _ Hq1 Hin) | exact (HP Hin)].
  - intros [= <- <-]. exists t1. split; [exact Ht1|].
    intros Hin. exfalso. exact (Hcalm _ Hq1 Hin).
  - intros [= <- <-]. exists t1. split; [exact Ht1|].
    intros Hin. exfalso. exact (Hcalm _ Hq1 Hin).
Qed.

Lemma Forall_quiet_calm t :
  Forall (fun e => quiet e = true) t ->
  Forall (fun e => is_services_timeout e = false) t.
Proof.
  intros Ht. eapply Forall_impl; [exact Ht | exact quiet_not_services_timeout].
Qed.

Lemma blz_connect_new_calm fuel dev macstr addr_public :
  emits (blz_connect_new fuel dev macstr addr_public)
    (Forall (fun e => is_services_timeout e = false)).
Proof.
  unfold blz_connect_new. cbv zeta.
  repeat first
    [ eapply emits_weaken;
        [apply blz_loop_timeout_quiet | apply Forall_quiet_calm]
    | emits_all_step ].
Qed.

Ltac calm :=
  repeat first
    [ eapply emits_weaken;
        [apply blz_loop_timeout_quiet | apply Forall_quiet_calm]
    | apply blz_connect_new_calm
    | emits_all_step ].

Lemma blz_connect_exit_calm r dev :
  ends (blz_connect_exit r dev) faults_on_services_timeout.
Proof. apply ends_calm. unfold blz_connect_exit. emits_all. Qed.

Lemma blz_connect_resolved_faults_on_timeout fuel ctx dev cb :
  dev <> NULL ->
  ends (blz_connect_resolved fuel ctx dev cb) faults_on_services_timeout.
Proof.
  intros Hnn. unfold blz_connect_resolved.
  apply ends_calm_then; [calm|]. intros r.
  destruct (r <? 0) eqn:Hr.
  - apply Z.ltb_lt in Hr. intros s o s' Hrun.
    destruct (blz_connect_timeout_faults _ _ _ _ _ Hr Hnn Hrun) as [f ->].
    assert (Hem : emits
              ((LOG LOG_ERR "BLZ timeout waiting for ServicesResolved" [] ;;
                blz_disconnect dev) ;; blz_connect_exit r dev)
              (Forall (fun _ => True))).
    { unfold blz_connect_exit. anything. }
    destruct (Hem _ _ _ Hrun) as (t & Ht & _).
    exists t. split; [exact Ht|]. intros _. eauto.
  - apply ends_calm. unfold blz_connect_exit. emits_all.
Qed.

Lemma blz_connect_subscribed_faults_on_timeout
    fuel ctx dev macstr atype cb conn_status :
  dev <> NULL ->
  ends (blz_connect_subscribed fuel ctx dev macstr atype cb conn_status)
    faults_on_services_timeout.
Proof.
  intros Hnn. unfold blz_connect_subscribed, blz_connect_by_address,
    blz_connect_known.
  apply ends_calm_then; [calm|]. intros d.
  apply ends_calm_then; [calm|]. intros _.
  apply ends_calm_then; [calm|]. intros rs. cbv zeta.
  destruct (ret rs <? 0).
  { apply ends_calm_then; [calm|]. intros _. apply blz_connect_exit_calm. }
  apply ends_calm_then; [calm|]. intros _.
  apply ends_calm_then; [calm|]. intros r.
  destruct (r <? 0); [apply blz_connect_exit_calm|].
  apply blz_connect_resolved_faults_on_timeout, Hnn.
Qed.

(** In every execution of [blz_connect] that reports the services timeout,
    the call ends in a fault: either the compensating disconnect faults, or
    it completes and the handle it has released is released again. *)
Lemma blz_connect_faults_on_services_timeout fuel ctx macstr atype cb s :
  services_timeout
    ∈ new_events s (snd (blz_connect fuel ctx macstr atype cb s)) ->
  exists f, fst (blz_connect fuel ctx macstr atype cb s) = Fault f.
Proof.
  assert (Hends : ends (blz_connect fuel ctx macstr atype cb)
                    faults_on_services_timeout).
  { unfold blz_connect. cbv zeta.
    apply ends_calm_then; [calm|]. intros dev.
    destruct (dev =? NULL)%N eqn:Hdev.
    { apply ends_calm. emits_all. }
    apply N.eqb_neq in Hdev.
    apply ends_calm_then; [calm|]. intros _.
    apply ends_calm_then; [calm|]. intros _.
    apply ends_calm_then; [calm|]. intros _.
    apply ends_calm_then; [calm|]. intros c.
    destruct (_ || _); [apply ends_calm; emits_all|].
    apply ends_calm_then; [calm|]. intros _.
    apply ends_calm_then; [calm|]. intros rs.
    destruct (_ && _).
    { apply ends_calm_then; [calm|]. intros _. apply blz_connect_exit_calm. }
    destruct (_ =? 1).
    { apply ends_calm_then; [calm|]. intros _.
      apply ends_calm_then; [calm|]. intros rs2.
      destruct (ret rs2 <? 0).
      - apply ends_calm_then; [calm|]. intros _. apply blz_connect_exit_calm.
      - apply ends_calm_then; [calm|]. intros _.
        apply blz_connect_subscribed_faults_on_timeout, Hdev. }
    destruct (_ && _).
    - apply blz_connect_exit_calm.
    - apply blz_connect_subscribed_faults_on_timeout, Hdev. }
  destruct (blz_connect fuel ctx macstr atype cb s) as [o s'] eqn:Hrun.
  destruct (Hends _ _ _ Hrun) as (t & Ht & HP).
  cbn [fst snd]. rewrite (new_events_app _ _ _ Ht). exact HP.
Qed.

(** *** What the wait returns *)

Lemma blz_loop_timeout_while_result fuel ctx check current_ms end_ms s r s' :
  blz_loop_timeout_while fuel ctx check current_ms end_ms s = (Done r, s') ->
  (r = 0 /\ read_flag check s' = (Done true, s'))
  \/ (r = -1 /\ read_flag check s' = (Done false, s')).
Proof.
  revert current_ms s.
  induction fuel as [|fuel IH]; intros current_ms s;
    cbn [blz_loop_timeout_while]; intros Hrun;
    apply bind_Done_inv in Hrun as (b & s1 & Hb & Hrun);
    destruct (negb b && (current_ms <? end_ms)).
  - discriminate.
  - apply bind_Done_inv in Hrun as (b' & s2 & Hb' & [= <- <-]).
    pose proof (read_flag_state _ _ _ _ Hb') as ->.
    destruct b'; auto.
  - apply bind_Done_inv in Hrun as (? & s2 & _ & Hrun).
    apply bind_Done_inv in Hrun as (ts & s3 & _ & Hrun).
    exact (IH _ _ Hrun).
  - apply bind_Done_inv in Hrun as (b' & s2 & Hb' & [= <- <-]).
    pose proof (read_flag_state _ _ _ _ Hb') as ->.
    destruct b'; auto.
Qed.

(** [blz_loop_timeout] returns 0 with the flag set or -1 with the flag
    clear, nothing else. *)
Lemma blz_loop_timeout_result fuel ctx check timeout_ms s r s' :
  blz_loop_timeout fuel ctx check timeout_ms s = (Done r, s') ->
  (r = 0 /\ read_flag check s' = (Done true, s'))
  \/ (r = -1 /\ read_flag check s' = (Done false, s')).
Proof.
  unfold blz_loop_timeout. intros Hrun.
  apply bind_Done_inv in Hrun as (ts & s1 & _ & Hrun).
  exact (blz_loop_timeout_while_result _ _ _ _ _ _ _ _ Hrun).
Qed.

(** *** What [blz_connect] returns *)

Lemma returns_bind {A B} (n : M (state W) B) (k : B -> M (state W) A)
    (Q : A -> state W -> Prop) :
  (forall b, returns (k b) Q) -> returns (bind n k) Q.
Proof.
  intros Hk s a s' Hrun.
  apply bind_Done_inv in Hrun as (b & s1 & _ & Hrun). exact (Hk _ _ _ _ Hrun).
Qed.

Lemma returns_null (Q := usable_or_null (W := W)) : returns (pure NULL) Q.
Proof. intros s a s' [= <- <-]. left. reflexivity. Qed.

Lemma blz_connect_exit_failed r dev :
  r < 0 -> returns (blz_connect_exit r dev) usable_or_null.
Proof.
  intros Hr. unfold blz_connect_exit.
  replace (r <? 0) with true by (symmetry; apply Z.ltb_lt; exact Hr).
  apply returns_bind. intros _. apply returns_null.
Qed.

Lemma blz_connect_resolved_returns fuel ctx dev cb :
  returns (blz_connect_resolved fuel ctx dev cb) usable_or_null.
Proof.
  unfold blz_connect_resolved. intros s p s' Hrun.
  apply bind_Done_inv in Hrun as (r & s1 & Hwait & Hrun).
  apply blz_loop_timeout_result in Hwait as [[-> Hflag] | [-> _]].
  - change (0 <? 0) with false in Hrun. cbv iota in Hrun.
    cbn in Hflag. unfold bind, load_dev, pure in Hflag.
    destruct (st_heap s1 !! dev) as [[| d | | |]|] eqn:Hdev; try discriminate.
    assert (Hres : services_resolved d = true) by congruence.
    apply bind_Done_inv in Hrun as ([] & s2 & Hupd & Hrun).
    apply bind_Done_inv in Hupd as ([] & s3 & Hu1 & Hu2).
    rewrite (update_dev_live _ _ _ _ Hdev) in Hu1. injection Hu1 as <-.
    erewrite update_dev_live in Hu2
      by (cbn [st_heap]; apply lookup_insert_eq).
    injection Hu2 as <-.
    unfold blz_connect_exit in Hrun. change (0 <? 0) with false in Hrun.
    injection Hrun as <- <-. right.
    eexists. split; [cbn [st_heap]; apply lookup_insert_eq|].
    split; [exact Hres | reflexivity].
  - apply bind_Done_inv in Hrun as (? & s2 & _ & Hrun).
    exact (blz_connect_exit_failed (-1) dev ltac:(lia) _ _ _ Hrun).
Qed.

Lemma blz_connect_subscribed_returns fuel ctx dev macstr atype cb conn_status :
  returns (blz_connect_subscribed fuel ctx dev macstr atype cb conn_status)
    usable_or_null.
Proof.
  unfold blz_connect_subscribed.
  apply returns_bind. intros d. apply returns_bind. intros _.
  apply returns_bind. intros rs. cbv zeta.
  destruct (ret rs <? 0) eqn:Hr.
  { apply returns_bind. intros _. apply blz_connect_exit_failed.
    apply Z.ltb_lt. exact Hr. }
  apply returns_bind. intros _. apply returns_bind. intros r.
  destruct (r <? 0) eqn:Hr2.
  - apply blz_connect_exit_failed. apply Z.ltb_lt. exact Hr2.
  - apply blz_connect_resolved_returns.
Qed.

(** [blz_connect] never returns a handle whose services are not resolved:
    its result is NULL or a handle with [services_resolved] and [connected]
    set. *)
Lemma blz_connect_returns_usable_or_null fuel ctx macstr atype cb :
  returns (blz_connect fuel ctx macstr atype cb) usable_or_null.
Proof.
  unfold blz_connect. cbv zeta.
  apply returns_bind. intros dev.
  destruct (dev =? NULL)%N.
  { apply returns_bind. intros _. apply returns_null. }
  do 4 (apply returns_bind; intros ?).
  destruct (_ || _).
  { do 2 (apply returns_bind; intros ?). apply returns_null. }
  apply returns_bind. intros _. apply returns_bind. intros rs.
  destruct (ret rs <? 0) eqn:Hr.
  - destruct (negb _); cbn [andb].
    + apply returns_bind. intros _. apply blz_connect_exit_failed.
      apply Z.ltb_lt. exact Hr.
    + change (-1 =? 1) with false. cbv iota.
      change (negb (-1 =? 0) && negb (-1 =? -1)) with false. cbv iota.
      apply blz_connect_subscribed_returns.
  - cbn [andb]. destruct (out_bool rs); cbn [Z.b2z].
    + change (1 =? 1) with true. cbv iota.
      apply returns_bind. intros _. apply returns_bind. intros rs2.
      destruct (ret rs2 <? 0) eqn:Hr2.
      * apply returns_bind. intros _. apply blz_connect_exit_failed.
        apply Z.ltb_lt. exact Hr2.
      * apply returns_bind. intros _. apply blz_connect_subscribed_returns.
    + change (0 =? 1) with false. cbv iota.
      change (negb (0 =? 0) && negb (0 =? -1)) with false. cbv iota.
      apply blz_connect_subscribed_returns.
Qed.

(** *** The budget of the wait *)

Lemma run_dispatches_pump us ds :
  emits (run_dispatches ds) (Forall (fun e => is_pump_event us e = true)).
Proof.
  induction ds as [|d ds IH]; cbn [run_dispatches]; [emits_all|].
  apply emits_bind_all; [|intros _; exact IH].
  unfold run_dispatch, blz_intf_cb, blz_connect_cb, connect_new_cb,
    blz_notify_cb.
  emits_all.
Qed.

Lemma sd_bus_process_pump us :
  emits sd_bus_process (Forall (fun e => is_pump_event us e = true)).
Proof.
  intros s o s'. unfold sd_bus_process.
  destruct (w_process (st_world s)) as [[r ds] w]. intros Hrun.
  assert (Hq : emits (run_dispatches ds ;; pure r)
                 (Forall (fun e => is_pump_event us e = true))).
  { apply emits_bind_all; [apply run_dispatches_pump|]. intros. emits_all. }
  destruct (Hq _ _ _ Hrun) as (t & Ht & HQ). cbn in Ht.
  exists (Ev_process r ds :: t). split.
  - rewrite Ht, <- app_assoc. reflexivity.
  - constructor; [reflexivity | exact HQ].
Qed.

Lemma blz_loop_pump ctx us :
  emits (blz_loop ctx us) (Forall (fun e => is_pump_event us e = true)).
Proof.
  unfold blz_loop.
  apply emits_bind_all; [emits_all|]. intros c.
  apply emits_bind_all; [apply sd_bus_process_pump|]. intros r.
  destruct (r <? 0); [emits_all|]. destruct (0 <? r); [emits_all|].
  apply emits_bind_all; [|intros rs; cbv zeta; emits_all].
  apply emits_call. intros rs. repeat constructor. apply Z.eqb_refl.
Qed.

Lemma final_ms_pump us cur t1 t2 :
  Forall (fun e => is_pump_event us e = true) t1 ->
  final_ms cur (t1 ++ t2) = final_ms cur t2.
Proof.
  induction 1 as [|e t1 He _ IH]; [reflexivity|].
  destruct e; try discriminate; exact IH.
Qed.

Lemma within_budget_pump us end_ms cur t1 t2 :
  Forall (fun e => is_pump_event us e = true) t1 ->
  0 <= us <= (end_ms - cur) * 1000 ->
  within_budget end_ms cur t2 ->
  within_budget end_ms cur (t1 ++ t2).
Proof.
  intros Ht1 Hus Ht2.
  induction Ht1 as [|e t1 He _ IH]; [exact Ht2|].
  destruct e as [| rq rs | | | | | | |]; try discriminate; try exact IH.
  destruct rq; try discriminate.
  cbn in He. apply Z.eqb_eq in He. subst. cbn. split; [exact Hus | exact IH].
Qed.

Lemma wait_budget_bound end_ms cur :
  0 <= cur < end_ms -> end_ms < 2 ^ 32 ->
  0 <= to_uint32 (to_uint32 (end_ms - cur) * 1000) <= (end_ms - cur) * 1000.
Proof.
  intros Hcur Hend.
  rewrite (to_uint32_small (end_ms - cur)) by lia.
  split; [apply to_uint32_range|].
  unfold to_uint32. apply Z.mod_le; lia.
Qed.

Lemma blz_loop_timeout_while_budget fuel ctx check end_ms :
  0 <= end_ms < 2 ^ 32 ->
  forall current_ms, 0 <= current_ms < 2 ^ 32 ->
  ends (blz_loop_timeout_while fuel ctx check current_ms end_ms)
    (fun o t => within_budget end_ms current_ms t
                /\ (o = Done (-1) -> end_ms <= final_ms current_ms t)).
Proof.
  intros Hend.
  induction fuel as [|fuel IH]; intros current_ms Hcur s o s';
    cbn [blz_loop_timeout_while]; unfold bind at 1;
    destruct (read_flag check s) as [[b|f|] s1] eqn:Hb;
    pose proof (read_flag_state _ _ _ _ Hb) as ->;
    try (intros [= <- <-]; exists []; rewrite app_nil_r;
         split; [reflexivity|]; split; [exact I | discriminate]).
  - destruct (negb b && (current_ms <? end_ms)) eqn:Hcond.
    + intros [= <- <-]. exists []. rewrite app_nil_r.
      split; [reflexivity|]. split; [exact I | discriminate].
    + unfold bind. rewrite Hb. intros [= <- <-]. exists [].
      rewrite app_nil_r. split; [reflexivity|]. split; [exact I|].
      destruct b; [discriminate|]. intros _. cbn in Hcond.
      apply Z.ltb_ge in Hcond. exact Hcond.
  - destruct (negb b && (current_ms <? end_ms)) eqn:Hcond.
    + apply andb_prop in Hcond as [_ Hlt]. apply Z.ltb_lt in Hlt.
      pose proof (wait_budget_bound end_ms current_ms ltac:(lia) ltac:(lia))
        as Hus.
      unfold bind at 1.
      destruct (blz_loop ctx _ s) as [[[]|f|] s2] eqn:Hloop;
        destruct (blz_loop_pump _ _ _ _ _ Hloop) as (t1 & Ht1 & Hp1).
      * unfold bind at 1. unfold clock_gettime.
        destruct (w_clock_gettime (st_world s2)) as [ts w].
        intros Hrun.
        destruct (IH (ms_of_timespec ts) (ms_of_timespec_range ts) _ _ _ Hrun)
          as (t2 & Ht2 & Hb2 & Hf2).
        cbn [st_trace] in Ht2.
        exists (t1 ++ Ev_clock_gettime ts :: t2). split.
        { rewrite Ht2, Ht1, <- !app_assoc. reflexivity. }
        split.
        -- apply (within_budget_pump _ _ _ _ _ Hp1 Hus). exact Hb2.
        -- intros Ho. rewrite (final_ms_pump _ _ _ _ Hp1). cbn. exact (Hf2 Ho).
      * intros [= <- <-]. exists t1. split; [exact Ht1|].
        split; [|discriminate].
        rewrite <- (app_nil_r t1).
        apply (within_budget_pump _ _ _ _ _ Hp1 Hus). exact I.
      * intros [= <- <-]. exists t1. split; [exact Ht1|].
        split; [|discriminate].
        rewrite <- (app_nil_r t1).
        apply (within_budget_pump _ _ _ _ _ Hp1 Hus). exact I.
    + unfold bind. rewrite Hb. intros [= <- <-]. exists [].
      rewrite app_nil_r. split; [reflexivity|]. split; [exact I|].
      destruct b; [discriminate|]. intros _. cbn in Hcond.
      apply Z.ltb_ge in Hcond. exact Hcond.
Qed.

(** The parts of the wait that hold in [uint32_t] arithmetic: the trace of
    [blz_loop_timeout] starts with the reading of the clock that fixes the
    deadline [end_ms], every blocking wait is for at most the time then left
    to [end_ms], and the result is -1 only when the latest reading has
    reached [end_ms]. *)
Lemma blz_loop_timeout_budget fuel ctx check timeout_ms s ts w :
  w_clock_gettime (st_world s) = (ts, w) ->
  let end_ms := to_uint32 (ms_of_timespec ts + to_uint32 timeout_ms) in
  let run := blz_loop_timeout fuel ctx check timeout_ms s in
  exists t,
    new_events s (snd run) = Ev_clock_gettime ts :: t
    /\ within_budget end_ms (ms_of_timespec ts) t
    /\ (fst run = Done (-1) -> end_ms <= final_ms (ms_of_timespec ts) t).
Proof.
  intros Hclock end_ms run. subst run.
  unfold blz_loop_timeout, bind, clock_gettime. rewrite Hclock. fold end_ms.
  match goal with |- context [blz_loop_timeout_while _ _ _ _ _ ?s1] =>
    destruct (blz_loop_timeout_while fuel ctx check (ms_of_timespec ts)
                end_ms s1) as [o s'] eqn:Hrun
  end.
  destruct (blz_loop_timeout_while_budget fuel ctx check end_ms
              (to_uint32_range _) _ (ms_of_timespec_range ts) _ _ _ Hrun)
    as (t & Ht & Hb & Hf).
  exists t. cbn [fst snd st_trace] in *. split; [|split; assumption].
  apply new_events_app. rewrite Ht, <- app_assoc. reflexivity.
Qed.

(** With the flag set at entry the wait returns 0 at once: its only event
    is the reading of the clock. *)
Lemma blz_loop_timeout_flag_already_set fuel ctx check timeout_ms s ts w :
  w_clock_gettime (st_world s) = (ts, w) ->
  read_flag check s = (Done true, s) ->
  blz_loop_timeout fuel ctx check timeout_ms s =
    (Done 0, {| st_world := w; st_heap := st_heap s;
                st_trace := st_trace s ++ [Ev_clock_gettime ts] |}).
Proof.
  intros Hclock Hflag.
  unfold blz_loop_timeout, bind, clock_gettime. rewrite Hclock.
  set (s1 := {| st_world := w; st_heap := st_heap s;
                st_trace := st_trace s ++ [Ev_clock_gettime ts] |}).
  pose proof (read_flag_heap _ _ _ Hflag s1 eq_refl) as Hflag1.
  destruct fuel; cbn [blz_loop_timeout_while]; unfold bind;
    rewrite Hflag1; cbn [negb andb]; rewrite Hflag1; reflexivity.
Qed.

(** * Further properties *)

(** ** The poll engine (lines 812-846) *)

(** X1: when [blz_loop_timeout] returns, it returns 0 and the flag it polls
    is set, or -1 and the flag is clear; it returns nothing else. *)
Theorem blz_loop_timeout_returns_the_flag fuel ctx check timeout_ms s r s' :
  blz_loop_timeout fuel ctx check timeout_ms s = (Done r, s') ->
  (r = 0 /\ read_flag check s' = (Done true, s'))
  \/ (r = -1 /\ read_flag check s' = (Done false, s')).
Proof. apply blz_loop_timeout_result. Qed.

(** X2: the trace of [blz_loop_timeout] starts with the reading of the clock
    that fixes the deadline; every blocking wait is for at most the time
    left to the deadline at the latest reading before it; and -1 is
    returned only once a reading has reached the deadline.  The deadline is
    [end_ms], entry time plus timeout in [uint32_t]; when that sum does not
    wrap, -1 is returned no earlier than entry time plus timeout. *)
Theorem blz_loop_timeout_keeps_its_budget fuel ctx check timeout_ms s ts w :
  w_clock_gettime (st_world s) = (ts, w) ->
  let end_ms := to_uint32 (ms_of_timespec ts + to_uint32 timeout_ms) in
  let run := blz_loop_timeout fuel ctx check timeout_ms s in
  exists t,
    new_events s (snd run) = Ev_clock_gettime ts :: t
    /\ within_budget end_ms (ms_of_timespec ts) t
    /\ (fst run = Done (-1) -> end_ms <= final_ms (ms_of_timespec ts) t)
    /\ (fst run = Done (-1) ->
        ms_of_timespec ts + to_uint32 timeout_ms < 2 ^ 32 ->
        ms_of_timespec ts + to_uint32 timeout_ms
        <= final_ms (ms_of_timespec ts) t).
Proof.
  intros Hclock end_ms run.
  destruct (blz_loop_timeout_budget fuel ctx check timeout_ms s ts w Hclock)
    as (t & Ht & Hb & Hf).
  exists t. repeat split; try assumption.
  intros Ho Hfit. specialize (Hf Ho).
  rewrite to_uint32_small in Hf; [exact Hf|].
  pose proof (ms_of_timespec_range ts). pose proof (to_uint32_range timeout_ms).
  lia.
Qed.

(** X3: with the flag already set, [blz_loop_timeout] returns 0 at once,
    whatever the timeout and the clock: it reads the clock once and does
    not touch the bus. *)
Theorem blz_loop_timeout_returns_at_once_when_set
    fuel ctx check timeout_ms s ts w :
  w_clock_gettime (st_world s) = (ts, w) ->
  read_flag check s = (Done true, s) ->
  blz_loop_timeout fuel ctx check timeout_ms s =
    (Done 0, {| st_world := w; st_heap := st_heap s;
                st_trace := st_trace s ++ [Ev_clock_gettime ts] |}).
Proof. apply blz_loop_timeout_flag_already_set. Qed.

Lemma run_dispatches_handler_events ds :
  emits (run_dispatches ds) (Forall (fun e => is_handler_event e = true)).
Proof.
  induction ds as [|d ds IH]; cbn [run_dispatches]; [emits_all|].
  apply emits_bind_all; [|intros _; exact IH].
  unfold run_dispatch, blz_intf_cb, blz_connect_cb, connect_new_cb,
    blz_notify_cb.
  emits_all.
Qed.

Lemma waits_after_idle_handlers last t1 t2 :
  Forall (fun e => is_handler_event e = true) t1 ->
  waits_after_idle last t2 -> waits_after_idle last (t1 ++ t2).
Proof.
  intros Ht1 Ht2. induction Ht1 as [|e t1 He _ IH]; [exact Ht2|].
  destruct e; try discriminate; exact IH.
Qed.

Lemma waits_after_idle_then_clock last t1 ts t2 :
  waits_after_idle last t1 -> waits_after_idle None t2 ->
  waits_after_idle last (t1 ++ Ev_clock_gettime ts :: t2).
Proof.
  intros Ht1 Ht2. revert last Ht1.
  induction t1 as [|e t1 IH]; intros last Ht1; [exact Ht2|].
  destruct e as [| rq rs | | | | | | |]; cbn in *; try (apply IH; exact Ht1).
  destruct rq; cbn in *; try (apply IH; exact Ht1).
  destruct Ht1 as [Hlast Ht1]. split; [exact Hlast | apply IH; exact Ht1].
Qed.

(** One round of [blz_loop]: it waits only if [sd_bus_process] returned 0,
    and then once. *)
Lemma blz_loop_waits_after_idle ctx timeout_us :
  emits (blz_loop ctx timeout_us) (fun t => forall last, waits_after_idle last t).
Proof.
  intros s o s'. unfold blz_loop. unfold bind at 1.
  destruct (load_ctx ctx s) as [[c|f|] s0] eqn:Hload;
    (assert (s0 = s) as ->
       by (revert Hload; unfold load_ctx;
           destruct (st_heap s !! ctx) as [[]|]; congruence));
    try (intros [= <- <-]; exists []; rewrite app_nil_r;
         split; [reflexivity | intros last; exact I]).
  unfold bind at 1. unfold sd_bus_process.
  destruct (w_process (st_world s)) as [[r ds] w].
  unfold bind at 1. unfold bind at 1.
  match goal with |- context [run_dispatches ds ?s1] =>
    destruct (run_dispatches ds s1) as [[[]|f|] s2] eqn:Hcb;
    destruct (run_dispatches_handler_events ds _ _ _ Hcb) as (t1 & Ht1 & Hh)
  end; cbn [st_trace] in Ht1;
    try (intros [= <- <-]; exists (Ev_process r ds :: t1);
         split; [rewrite Ht1, <- app_assoc; reflexivity|];
         intros last; cbn; rewrite <- (app_nil_r t1);
         apply waits_after_idle_handlers; [exact Hh | exact I]).
  unfold pure at 1.
  destruct (r <? 0) eqn:Hneg.
  { intros [= <- <-]. eexists (Ev_process r ds :: t1 ++ [_]). split.
    - cbn [st_trace]. rewrite Ht1, <- !app_assoc. reflexivity.
    - intros last. cbn. apply waits_after_idle_handlers; [exact Hh | exact I]. }
  destruct (0 <? r) eqn:Hpos.
  { intros [= <- <-]. exists (Ev_process r ds :: t1). split.
    - rewrite Ht1, <- app_assoc. reflexivity.
    - intros last. cbn. rewrite <- (app_nil_r t1).
      apply waits_after_idle_handlers; [exact Hh | exact I]. }
  assert (r = 0) as -> by (apply Z.ltb_ge in Hneg, Hpos; lia).
  unfold bind, call.
  destruct (w_respond (st_world s2) (sd_bus_wait timeout_us)) as [rs w'].
  cbv zeta.
  destruct ((ret rs <? 0) && negb (- ret rs =? EINTR)).
  - intros [= <- <-]. eexists (Ev_process 0 ds :: t1 ++ [_; _]). split.
    + cbn [st_trace]. rewrite Ht1, <- !app_assoc. reflexivity.
    + intros last. cbn. apply waits_after_idle_handlers; [exact Hh|].
      cbn. auto.
  - intros [= <- <-]. eexists (Ev_process 0 ds :: t1 ++ [_]). split.
    + cbn [st_trace]. rewrite Ht1, <- !app_assoc. reflexivity.
    + intros last. cbn. apply waits_after_idle_handlers; [exact Hh|].
      cbn. auto.
Qed.

Lemma blz_loop_timeout_while_waits_after_idle
    fuel ctx check current_ms end_ms :
  emits (blz_loop_timeout_while fuel ctx check current_ms end_ms)
    (fun t => forall last, waits_after_idle last t).
Proof.
  revert current_ms.
  induction fuel as [|fuel IH]; intros current_ms;
    cbn [blz_loop_timeout_while].
  - eapply emits_weaken with (P := fun t => t = []).
    + eapply emits_bind with (P1 := fun t => t = []) (P2 := fun t => t = []).
      * apply emits_read_flag. reflexivity.
      * intros b. destruct (_ && _).
        -- apply emits_out_of_fuel. reflexivity.
        -- eapply emits_bind with (P1 := fun t => t = [])
             (P2 := fun t => t = []);
             [apply emits_read_flag; reflexivity
             | intros; apply emits_pure; reflexivity | auto
             | intros ? ? -> ->; reflexivity].
      * auto.
      * intros ? ? -> ->. reflexivity.
    + intros t -> last. exact I.
  - eapply emits_bind with (P1 := fun t => t = [])
      (P2 := fun t => forall last, waits_after_idle last t).
    + apply emits_read_flag. reflexivity.
    + intros b. destruct (_ && _).
      * eapply emits_bind with
          (P1 := fun t => forall last, waits_after_idle last t)
          (P2 := fun t => exists ts t2,
                   t = Ev_clock_gettime ts :: t2
                   /\ forall last, waits_after_idle last t2).
        -- apply blz_loop_waits_after_idle.
        -- intros _. intros s o s'. unfold bind, clock_gettime.
           destruct (w_clock_gettime (st_world s)) as [ts w]. intros Hrun.
           destruct (IH _ _ _ _ Hrun) as (t2 & Ht2 & Hw2). cbn [st_trace] in Ht2.
           exists (Ev_clock_gettime ts :: t2). split.
           ++ rewrite Ht2, <- app_assoc. reflexivity.
           ++ eauto.
        -- auto.
        -- intros t1 t H1 (ts & t2 & -> & H2) last.
           apply waits_after_idle_then_clock; auto.
      * eapply emits_weaken with (P := fun t => t = []).
        -- eapply emits_bind with (P1 := fun t => t = [])
             (P2 := fun t => t = []);
             [apply emits_read_flag; reflexivity
             | intros; apply emits_pure; reflexivity | auto
             | intros ? ? -> ->; reflexivity].
        -- intros t -> last. exact I.
    + intros t1 -> last. exact I.
    + intros t1 t2 -> H2. exact H2.
Qed.

(** X4: [blz_loop_timeout] never blocks while messages are pending: in
    every trace of it, each wait follows a step of [sd_bus_process] that
    returned 0, with no other wait and no reading of the clock in between
    (the rule of the comment at line 820). *)
Theorem blz_loop_timeout_waits_only_when_idle fuel ctx check timeout_ms s :
  waits_after_idle None
    (new_events s (snd (blz_loop_timeout fuel ctx check timeout_ms s))).
Proof.
  apply (emits_new_events _ (fun t => waits_after_idle None t)).
  unfold blz_loop_timeout. intros s0 o s'. unfold bind, clock_gettime.
  destruct (w_clock_gettime (st_world s0)) as [ts w]. intros Hrun.
  destruct (blz_loop_timeout_while_waits_after_idle _ _ _ _ _ _ _ _ Hrun)
    as (t & Ht & Hw). cbn [st_trace] in Ht.
  exists (Ev_clock_gettime ts :: t). split.
  - rewrite Ht, <- app_assoc. reflexivity.
  - cbn. apply Hw.
Qed.

(** ** The device path (lines 333-343) *)

Lemma string_length_append (a b : string) :
  String.length (a +:+ b) = (String.length a + String.length b)%nat.
Proof.
  induction a as [|c a IH]; [reflexivity|].
  change (S (String.length (a +:+ b))
          = S (String.length a + String.length b)).
  f_equal. exact IH.
Qed.

Lemma hex_digit_length n : String.length (hex_digit n) = 1%nat.
Proof.
  unfold hex_digit. generalize (Z.to_nat n). intros k.
  do 16 (destruct k as [|k]; [reflexivity|]). destruct k; reflexivity.
Qed.

Lemma hex02_length octet : String.length (hex02 octet) = 2%nat.
Proof.
  unfold hex02. cbv zeta. rewrite string_length_append, !hex_digit_length.
  reflexivity.
Qed.

(** The formatted path is the adapter path and 22 more characters. *)
Lemma format_dev_path_length adapter mac :
  String.length (format_dev_path adapter mac)
  = (String.length adapter + 22)%nat.
Proof.
  unfold format_dev_path.
  repeat rewrite string_length_append. rewrite !hex02_length. cbn. lia.
Qed.

Ltac connect_prefix Hcalloc Hctx Hne :=
  unfold blz_connect; cbv zeta;
  rewrite (bind_done _ _ _ _ _ (calloc_ok _ _ _ Hcalloc));
  replace (fresh_pointer _ =? NULL)%N with false
    by (symmetry; apply N.eqb_neq, fresh_pointer_not_null);
  do 3 (erewrite bind_done
          by (apply update_dev_live; cbn [st_heap]; apply lookup_insert_eq));
  cbn [st_heap st_world st_trace]; rewrite !insert_insert_eq;
  erewrite bind_done
    by (apply load_ctx_live; cbn [st_heap];
        rewrite lookup_insert_ne
          by (let Heq := fresh "Heq" in
              intros Heq; apply Hne; symmetry; exact Heq);
        exact Hctx).

Lemma fresh_pointer_other (h : gmap N object) p ob :
  h !! p = Some ob -> p <> fresh_pointer h.
Proof. intros Hp ->. rewrite fresh_pointer_fresh in Hp. discriminate. Qed.

(** X5: [blz_connect] rejects what it cannot set up before it uses the bus.
    When the handle cannot be allocated it logs and returns NULL; when the
    adapter path and the 22 characters of the device part do not fit in
    [DBUS_PATH_MAX_LEN] (terminator included) it logs, releases the handle
    and returns NULL.  In both cases the heap is as before and the world
    has been asked for nothing but the allocation. *)
Theorem blz_connect_rejects_before_bus fuel ctx macstr atype cb s :
  (forall w1,
     w_calloc (st_world s) = (false, w1) ->
     blz_connect fuel ctx macstr atype cb s =
       (Done NULL,
        {| st_world := w1; st_heap := st_heap s;
           st_trace := st_trace s
             ++ [Ev_calloc NULL; Ev_log LOG_ERR "blz_dev: alloc failed" []] |}))
  /\ (forall w1 c,
        let dev := fresh_pointer (st_heap s) in
        w_calloc (st_world s) = (true, w1) ->
        st_heap s !! ctx = Some (O_ctx c) ->
        DBUS_PATH_MAX_LEN <= Z.of_nat (String.length (ctx_path c)) + 22 ->
        blz_connect fuel ctx macstr atype cb s =
          (Done NULL,
           {| st_world := w1; st_heap := st_heap s;
              st_trace := st_trace s
                ++ [Ev_calloc dev;
                    Ev_log LOG_ERR
                      "BLZ connect failed to construct device path" [];
                    Ev_free dev] |})).
Proof.
  split.
  - intros w1 Hcalloc. unfold blz_connect, bind, calloc. cbv zeta.
    rewrite Hcalloc. cbn. rewrite <- app_assoc. reflexivity.
  - intros w1 c dev Hcalloc Hctx Hlen.
    pose proof (fresh_pointer_other _ _ _ Hctx) as Hne. fold dev in Hne.
    connect_prefix Hcalloc Hctx Hne. fold dev.
    rewrite format_dev_path_length.
    replace ((Z.of_nat (String.length (ctx_path c) + 22) <? 0)
             || (DBUS_PATH_MAX_LEN
                 <=? Z.of_nat (String.length (ctx_path c) + 22)))
      with true
      by (symmetry; apply orb_true_iff; right; apply Z.leb_le; lia).
    unfold LOG. rewrite (bind_done _ _ _ _ _ (emit_run _ _)).
    erewrite bind_done
      by (apply free_live; cbn [st_heap];
          [apply fresh_pointer_not_null | rewrite lookup_insert_eq; eauto]).
    unfold pure. cbn [st_world st_heap st_trace].
    rewrite delete_insert_id by apply fresh_pointer_fresh.
    rewrite <- !app_assoc. reflexivity.
Qed.

(** ** [blz_connect] by the answer to the query of "Connected" *)

Ltac connect_query Hfit Hq :=
  rewrite format_dev_path_length;
  match goal with
  | |- context [(?a <? 0) || (DBUS_PATH_MAX_LEN <=? ?a)] =>
      replace ((a <? 0) || (DBUS_PATH_MAX_LEN <=? a)) with false
        by (symmetry; apply orb_false_iff; split;
            [apply Z.ltb_ge | apply Z.leb_gt]; lia)
  end;
  erewrite bind_done
    by (apply update_dev_live; cbn [st_heap]; apply lookup_insert_eq);
  cbn [st_heap st_world st_trace]; rewrite !insert_insert_eq;
  erewrite bind_done by (apply call_run; cbn [st_world]; exact Hq);
  cbn [st_heap st_world st_trace].

Lemma blz_connect_exit_releases r dev s :
  r < 0 -> dev <> NULL -> is_Some (st_heap s !! dev) ->
  blz_connect_exit r dev s =
    (Done NULL, {| st_world := st_world s; st_heap := delete dev (st_heap s);
                   st_trace := st_trace s ++ [Ev_free dev] |}).
Proof.
  intros Hr Hnn Hlive. unfold blz_connect_exit.
  replace (r <? 0) with true by (symmetry; apply Z.ltb_lt; exact Hr).
  rewrite (bind_done _ _ _ _ _ (free_live _ _ Hnn Hlive)). reflexivity.
Qed.

(** X6: when a query of [blz_connect] fails, nothing is left behind.  If
    the query of "Connected" fails with another error than
    [UnknownObject], or the device is connected and the query of
    "ServicesResolved" fails, [blz_connect] logs the error, releases the
    handle and returns NULL: the heap is as before and no subscription has
    been made. *)
Theorem blz_connect_query_failure_leaves_nothing fuel ctx macstr atype cb s :
  (forall w1 c rs1 w2,
     let dev := fresh_pointer (st_heap s) in
     let path := format_dev_path (ctx_path c) (blz_string_to_mac macstr) in
     w_calloc (st_world s) = (true, w1) ->
     st_heap s !! ctx = Some (O_ctx c) ->
     Z.of_nat (String.length (ctx_path c)) + 22 < DBUS_PATH_MAX_LEN ->
     w_respond w1 (device_query path "Connected") = (rs1, w2) ->
     ret rs1 < 0 ->
     err_name (out_error rs1) <> SD_BUS_ERROR_UNKNOWN_OBJECT ->
     blz_connect fuel ctx macstr atype cb s =
       (Done NULL,
        {| st_world := w2; st_heap := st_heap s;
           st_trace := st_trace s
             ++ [Ev_calloc dev;
                 Ev_call (device_query path "Connected") rs1;
                 Ev_log LOG_ERR "BLZ failed to get connected: %s"
                   [err_message (out_error rs1)];
                 Ev_free dev] |}))
  /\ (forall w1 c rs1 w2 rs2 w3,
        let dev := fresh_pointer (st_heap s) in
        let path := format_dev_path (ctx_path c) (blz_string_to_mac macstr) in
        w_calloc (st_world s) = (true, w1) ->
        st_heap s !! ctx = Some (O_ctx c) ->
        Z.of_nat (String.length (ctx_path c)) + 22 < DBUS_PATH_MAX_LEN ->
        w_respond w1 (device_query path "Connected") = (rs1, w2) ->
        0 <= ret rs1 -> out_bool rs1 = true ->
        w_respond w2 (device_query path "ServicesResolved") = (rs2, w3) ->
        ret rs2 < 0 ->
        blz_connect fuel ctx macstr atype cb s =
          (Done NULL,
           {| st_world := w3; st_heap := st_heap s;
              st_trace := st_trace s
                ++ [Ev_calloc dev;
                    Ev_call (device_query path "Connected") rs1;
                    Ev_log LOG_NOTI "Device %s already was connected" [macstr];
                    Ev_call (device_query path "ServicesResolved") rs2;
                    Ev_log LOG_ERR "BLZ failed to get ServicesResolved: %s"
                      [err_message (out_error rs2)];
                    Ev_free dev] |})).
Proof.
  split.
  - intros w1 c rs1 w2 dev path Hcalloc Hctx Hfit Hq Hneg Hname.
    pose proof (fresh_pointer_other _ _ _ Hctx) as Hne. fold dev in Hne.
    connect_prefix Hcalloc Hctx Hne. fold dev. connect_query Hfit Hq.
    replace (ret rs1 <? 0) with true by (symmetry; apply Z.ltb_lt; exact Hneg).
    unfold sd_bus_error_has_name.
    rewrite bool_decide_eq_false_2 by exact Hname. cbn [negb andb].
    unfold LOG. rewrite (bind_done _ _ _ _ _ (emit_run _ _)).
    rewrite blz_connect_exit_releases;
      [| exact Hneg | apply fresh_pointer_not_null
       | cbn [st_heap]; rewrite lookup_insert_eq; eauto].
    cbn [st_world st_heap st_trace].
    rewrite delete_insert_id by apply fresh_pointer_fresh.
    rewrite <- !app_assoc. reflexivity.
  - intros w1 c rs1 w2 rs2 w3 dev path Hcalloc Hctx Hfit Hq Hok Hb Hq2 Hneg.
    pose proof (fresh_pointer_other _ _ _ Hctx) as Hne. fold dev in Hne.
    connect_prefix Hcalloc Hctx Hne. fold dev. connect_query Hfit Hq.
    replace (ret rs1 <? 0) with false by (symmetry; apply Z.ltb_ge; exact Hok).
    rewrite Hb. cbn [andb Z.b2z]. change (1 =? 1) with true. cbv iota.
    unfold LOG. rewrite (bind_done _ _ _ _ _ (emit_run _ _)).
    erewrite bind_done by (apply call_run; cbn [st_world]; exact Hq2).
    replace (ret rs2 <? 0) with true by (symmetry; apply Z.ltb_lt; exact Hneg).
    rewrite (bind_done _ _ _ _ _ (emit_run _ _)).
    rewrite blz_connect_exit_releases;
      [| exact Hneg | apply fresh_pointer_not_null
       | cbn [st_heap]; rewrite lookup_insert_eq; eauto].
    cbn [st_world st_heap st_trace].
    rewrite delete_insert_id by apply fresh_pointer_fresh.
    rewrite <- !app_assoc. reflexivity.
Qed.

Lemma emits_after_all {A} (m : M (state W) A) (Q : event -> Prop) s s0 t0 :
  emits m (Forall Q) ->
  st_trace s0 = st_trace s ++ t0 ->
  Forall Q t0 ->
  Forall Q (new_events s (snd (m s0))).
Proof.
  intros Hm Hs0 Ht0. destruct (m s0) as [o s'] eqn:Hrun.
  destruct (Hm _ _ _ Hrun) as (t & Ht & HQ). cbn [snd].
  rewrite (new_events_app s s' (t0 ++ t))
    by (rewrite Ht, Hs0, <- app_assoc; reflexivity).
  apply Forall_app. split; assumption.
Qed.

Lemma Forall_quiet_no_connect_call t :
  Forall (fun e => quiet e = true) t ->
  Forall (fun e => is_connect_call e = false) t.
Proof.
  intros Ht. eapply Forall_impl; [exact Ht | exact quiet_not_connect_call].
Qed.

Ltac no_connect_call :=
  repeat first
    [ eapply emits_weaken;
        [apply blz_loop_timeout_quiet | apply Forall_quiet_no_connect_call]
    | eapply emits_weaken;
        [apply blz_disconnect_quiet | apply Forall_quiet_no_connect_call]
    | emits_all_step ].

Lemma blz_connect_subscribed_connected fuel ctx dev macstr atype cb :
  emits (blz_connect_subscribed fuel ctx dev macstr atype cb 1)
    (Forall (fun e => is_connect_call e = false)).
Proof.
  unfold blz_connect_subscribed, blz_connect_resolved, blz_connect_exit.
  change (1 =? 0) with false. change (1 =? -1) with false. cbv iota.
  no_connect_call.
Qed.

(** X7: a device that BlueZ reports as connected is not connected again.
    When the query of "Connected" succeeds with the value true, no run of
    [blz_connect], however it goes on, sends [Connect] or
    [ConnectDevice]. *)
Theorem blz_connect_does_not_reconnect
    fuel ctx macstr atype cb s w1 c rs1 w2 :
  let path := format_dev_path (ctx_path c) (blz_string_to_mac macstr) in
  w_calloc (st_world s) = (true, w1) ->
  st_heap s !! ctx = Some (O_ctx c) ->
  Z.of_nat (String.length (ctx_path c)) + 22 < DBUS_PATH_MAX_LEN ->
  w_respond w1 (device_query path "Connected") = (rs1, w2) ->
  0 <= ret rs1 -> out_bool rs1 = true ->
  Forall (fun e => is_connect_call e = false)
    (new_events s (snd (blz_connect fuel ctx macstr atype cb s))).
Proof.
  intros path Hcalloc Hctx Hfit Hq Hok Hb.
  pose proof (fresh_pointer_other _ _ _ Hctx) as Hne.
  connect_prefix Hcalloc Hctx Hne.
  set (dev := fresh_pointer (st_heap s)) in *. connect_query Hfit Hq.
  replace (ret rs1 <? 0) with false by (symmetry; apply Z.ltb_ge; exact Hok).
  rewrite Hb. cbn [andb Z.b2z]. change (1 =? 1) with true. cbv iota.
  match goal with |- Forall _ (new_events _ (snd (?m ?s3))) =>
    apply (emits_after_all m _ s s3
             [Ev_calloc dev; Ev_call (device_query path "Connected") rs1])
  end.
  - apply emits_bind_all; [no_connect_call|]. intros _.
    apply emits_bind_all; [no_connect_call|]. intros rs2.
    destruct (ret rs2 <? 0).
    + unfold blz_connect_exit. no_connect_call.
    + apply emits_bind_all; [no_connect_call|]. intros _.
      apply blz_connect_subscribed_connected.
  - cbn [st_trace]. rewrite <- app_assoc. reflexivity.
  - repeat constructor.
Qed.

(** X8: a device that is connected and has its services resolved is handed
    out at once.  When both queries succeed with the value true and the
    subscription is accepted, [blz_connect] returns the handle after one
    reading of the clock, without pumping the bus: the handle has its
    context, path, slot and callback, and [connected] and
    [services_resolved] set. *)
Theorem blz_connect_hands_out_resolved_device
    fuel ctx macstr atype cb s w1 c rs1 w2 rs2 w3 rs3 w4 ts w5 :
  let dev := fresh_pointer (st_heap s) in
  let path := format_dev_path (ctx_path c) (blz_string_to_mac macstr) in
  w_calloc (st_world s) = (true, w1) ->
  st_heap s !! ctx = Some (O_ctx c) ->
  Z.of_nat (String.length (ctx_path c)) + 22 < DBUS_PATH_MAX_LEN ->
  w_respond w1 (device_query path "Connected") = (rs1, w2) ->
  0 <= ret rs1 -> out_bool rs1 = true ->
  w_respond w2 (device_query path "ServicesResolved") = (rs2, w3) ->
  0 <= ret rs2 -> out_bool rs2 = true ->
  w_respond w3 (device_subscription path dev) = (rs3, w4) ->
  0 <= ret rs3 ->
  w_clock_gettime w4 = (ts, w5) ->
  blz_connect fuel ctx macstr atype cb s =
    (Done dev,
     {| st_world := w5;
        st_heap := <[dev := O_dev (connected_handle ctx path (out_slot rs3) cb)]>
                     (st_heap s);
        st_trace := st_trace s
          ++ [Ev_calloc dev;
              Ev_call (device_query path "Connected") rs1;
              Ev_log LOG_NOTI "Device %s already was connected" [macstr];
              Ev_call (device_query path "ServicesResolved") rs2;
              Ev_call (device_subscription path dev) rs3;
              Ev_clock_gettime ts] |}).
Proof.
  intros dev path Hcalloc Hctx Hfit Hq Hok Hb Hq2 Hok2 Hb2 Hsub Hok3 Hclock.
  pose proof (fresh_pointer_other _ _ _ Hctx) as Hne. fold dev in Hne.
  connect_prefix Hcalloc Hctx Hne. fold dev. connect_query Hfit Hq.
  replace (ret rs1 <? 0) with false by (symmetry; apply Z.ltb_ge; exact Hok).
  rewrite Hb. cbn [andb Z.b2z]. change (1 =? 1) with true. cbv iota.
  unfold LOG. rewrite (bind_done _ _ _ _ _ (emit_run _ _)).
  erewrite bind_done by (apply call_run; cbn [st_world]; exact Hq2).
  replace (ret rs2 <? 0) with false by (symmetry; apply Z.ltb_ge; exact Hok2).
  erewrite bind_done
    by (apply update_dev_live; cbn [st_heap]; apply lookup_insert_eq).
  cbn [st_heap st_world st_trace]. rewrite !insert_insert_eq. rewrite Hb2.
  unfold blz_connect_subscribed.
  erewrite bind_done
    by (apply load_dev_live; cbn [st_heap]; apply lookup_insert_eq).
  erewrite bind_done
    by (apply load_ctx_live; cbn [st_heap];
        rewrite lookup_insert_ne
          by (let Heq := fresh "Heq" in
              intros Heq; apply Hne; symmetry; exact Heq);
        exact Hctx).
  erewrite bind_done by (apply call_run; cbn [st_world]; exact Hsub).
  cbv zeta.
  replace (ret rs3 <? 0) with false by (symmetry; apply Z.ltb_ge; exact Hok3).
  erewrite bind_done
    by (apply update_dev_live; cbn [st_heap]; apply lookup_insert_eq).
  cbn [st_heap st_world st_trace]. rewrite !insert_insert_eq.
  change (1 =? 0) with false. change (1 =? -1) with false. cbv iota.
  rewrite (bind_done _ _ _ _ _ (eq_refl : pure (ret rs3) _ = (Done (ret rs3), _))).
  replace (ret rs3 <? 0) with false by (symmetry; apply Z.ltb_ge; exact Hok3).
  unfold blz_connect_resolved.
  erewrite bind_done;
    [| apply (blz_loop_timeout_flag_already_set fuel ctx
                (Services_resolved_of dev) 30000 _ ts w5);
       [ cbn [st_world]; exact Hclock
       | cbn; unfold bind, load_dev; cbn [st_heap];
         rewrite lookup_insert_eq; reflexivity ] ].
  change (0 <? 0) with false. cbv iota.
  erewrite bind_done;
    [| erewrite bind_done
         by (apply update_dev_live; cbn [st_heap]; apply lookup_insert_eq);
       apply update_dev_live; cbn [st_heap]; apply lookup_insert_eq ].
  cbn [st_heap st_world st_trace]. rewrite !insert_insert_eq.
  unfold blz_connect_exit. change (0 <? 0) with false. cbv iota.
  unfold pure. rewrite <- !app_assoc. reflexivity.
Qed.

(** X9: a failed [Connect] leaves the subscription behind.  When BlueZ
    knows the device as not connected, accepts the subscription and then
    fails [Connect], [blz_connect] logs, releases the handle and returns
    NULL with the heap as before, but it does not release the slot of the
    subscription it has made with the handle as user data: the handler
    [blz_connect_cb], run for that handle afterwards, uses released
    memory. *)
Theorem blz_connect_failure_leaves_subscription
    fuel ctx macstr atype cb s w1 c rs1 w2 rs2 w3 rs3 w4 :
  let dev := fresh_pointer (st_heap s) in
  let path := format_dev_path (ctx_path c) (blz_string_to_mac macstr) in
  w_calloc (st_world s) = (true, w1) ->
  st_heap s !! ctx = Some (O_ctx c) ->
  Z.of_nat (String.length (ctx_path c)) + 22 < DBUS_PATH_MAX_LEN ->
  w_respond w1 (device_query path "Connected") = (rs1, w2) ->
  0 <= ret rs1 -> out_bool rs1 = false ->
  w_respond w2 (device_subscription path dev) = (rs2, w3) ->
  0 <= ret rs2 ->
  w_respond w3 (connect_request path) = (rs3, w4) ->
  ret rs3 < 0 ->
  let s' := {| st_world := w4; st_heap := st_heap s;
               st_trace := st_trace s
                 ++ [Ev_calloc dev;
                     Ev_call (device_query path "Connected") rs1;
                     Ev_call (device_subscription path dev) rs2;
                     Ev_call (connect_request path) rs3;
                     Ev_log LOG_ERR "BLZ connect failed: %s"
                       [err_message (out_error rs3)];
                     Ev_free dev] |} in
  blz_connect fuel ctx macstr atype cb s = (Done NULL, s')
  /\ forall m, blz_connect_cb m dev s' = (Fault (Bad_pointer dev), s').
Proof.
  intros dev path Hcalloc Hctx Hfit Hq Hok Hb Hsub Hok2 Hcon Hneg s'.
  pose proof (fresh_pointer_other _ _ _ Hctx) as Hne. fold dev in Hne.
  split.
  - connect_prefix Hcalloc Hctx Hne. fold dev. connect_query Hfit Hq.
    replace (ret rs1 <? 0) with false by (symmetry; apply Z.ltb_ge; exact Hok).
    rewrite Hb. cbn [andb Z.b2z]. change (0 =? 1) with false. cbv iota.
    change (negb (0 =? 0) && negb (0 =? -1)) with false. cbv iota.
    unfold blz_connect_subscribed.
    erewrite bind_done
      by (apply load_dev_live; cbn [st_heap]; apply lookup_insert_eq).
    erewrite bind_done
      by (apply load_ctx_live; cbn [st_heap];
          rewrite lookup_insert_ne
            by (let Heq := fresh "Heq" in
                intros Heq; apply Hne; symmetry; exact Heq);
          exact Hctx).
    erewrite bind_done by (apply call_run; cbn [st_world]; exact Hsub).
    cbv zeta.
    replace (ret rs2 <? 0) with false by (symmetry; apply Z.ltb_ge; exact Hok2).
    erewrite bind_done
      by (apply update_dev_live; cbn [st_heap]; apply lookup_insert_eq).
    cbn [st_heap st_world st_trace]. rewrite !insert_insert_eq.
    change (0 =? 0) with true. cbv iota.
    unfold blz_connect_known.
    erewrite bind_done;
      [| erewrite bind_done
           by (apply load_dev_live; cbn [st_heap]; apply lookup_insert_eq);
         erewrite bind_done
           by (apply load_ctx_live; cbn [st_heap];
               rewrite lookup_insert_ne
                 by (let Heq := fresh "Heq" in
                     intros Heq; apply Hne; symmetry; exact Heq);
               exact Hctx);
         erewrite bind_done by (apply call_run; cbn [st_world]; exact Hcon);
         cbv zeta;
         replace (ret rs3 <? 0) with true
           by (symmetry; apply Z.ltb_lt; exact Hneg);
         unfold LOG; rewrite (bind_done _ _ _ _ _ (emit_run _ _));
         reflexivity ].
    replace (ret rs3 <? 0) with true by (symmetry; apply Z.ltb_lt; exact Hneg).
    rewrite blz_connect_exit_releases;
      [| exact Hneg | apply fresh_pointer_not_null
       | cbn [st_heap]; rewrite lookup_insert_eq; eauto].
    cbn [st_world st_heap st_trace].
    rewrite delete_insert_id by apply fresh_pointer_fresh.
    subst s'. rewrite <- !app_assoc. reflexivity.
  - intros m. unfold blz_connect_cb.
    replace (dev =? NULL)%N with false
      by (symmetry; apply N.eqb_neq, fresh_pointer_not_null).
    unfold update_dev, bind, load_dev. subst s'. cbn [st_heap].
    unfold dev. rewrite fresh_pointer_fresh. reflexivity.
Qed.

(** X10: [blz_connect] never hands out a handle that is not ready.  A
    result other than NULL is a live handle with [services_resolved] and
    [connected] set. *)
Theorem blz_connect_result_is_ready fuel ctx macstr atype cb s p s' :
  blz_connect fuel ctx macstr atype cb s = (Done p, s') ->
  p <> NULL ->
  exists d, st_heap s' !! p = Some (O_dev d)
            /\ services_resolved d = true /\ connected d = true.
Proof.
  intros Hrun Hnn.
  destruct (blz_connect_returns_usable_or_null _ _ _ _ _ _ _ _ Hrun)
    as [Hnull | Hd]; [contradiction | exact Hd].
Qed.

(** ** Scanning (lines 120-173) *)

Lemma update_ctx_live s p c f :
  st_heap s !! p = Some (O_ctx c) ->
  update_ctx p f s =
    (Done tt, {| st_world := st_world s;
                 st_heap := <[p := O_ctx (f c)]> (st_heap s);
                 st_trace := st_trace s |}).
Proof.
  intros Hp. unfold update_ctx, bind, load_ctx. rewrite Hp. reflexivity.
Qed.

Lemma sd_bus_slot_unref_run slot s :
  sd_bus_slot_unref slot s =
    (Done NULL, {| st_world := st_world s; st_heap := st_heap s;
                   st_trace := st_trace s ++ [Ev_slot_unref slot] |}).
Proof. reflexivity. Qed.

Ltac step_update_ctx :=
  erewrite bind_done
    by (apply update_ctx_live; cbn [st_heap];
        first [eassumption | apply lookup_insert_eq]);
  cbn [st_heap st_world st_trace]; rewrite ?insert_insert_eq.

Ltac step_load_ctx :=
  erewrite bind_done
    by (apply load_ctx_live; cbn [st_heap];
        first [eassumption | apply lookup_insert_eq]).

Ltac step_call Hq :=
  erewrite bind_done by (apply call_run; cbn [st_world]; exact Hq);
  cbn [st_heap st_world st_trace].

Ltac step_log :=
  unfold LOG; rewrite (bind_done _ _ _ _ _ (emit_run _ _));
  cbn [st_heap st_world st_trace].

(** X11: [blz_scan_start] stores the callback, subscribes to
    "InterfacesAdded" and only then asks the adapter to discover.  When the
    subscription is refused, [StartDiscovery] is not sent and the result is
    false; when it is accepted, the slot is kept in the context,
    [StartDiscovery] is sent and the result says whether BlueZ accepted it.
    In both failures the callback stays stored, and a refused
    [StartDiscovery] leaves the subscription in place: nothing is undone.
    The final context is given field by field, and its [scan_cb] and
    [scan_slot] are read back from the final heap. *)
Theorem blz_scan_start_subscribes_then_discovers ctx cb s c rs1 w1 :
  st_heap s !! ctx = Some (O_ctx c) ->
  w_respond (st_world s) (scan_subscription ctx) = (rs1, w1) ->
  (ret rs1 < 0 ->
   blz_scan_start ctx cb s =
     (Done false,
      {| st_world := w1;
         st_heap := <[ctx := O_ctx (context_scanning c (scan_slot c) cb)]>
                      (st_heap s);
         st_trace := st_trace s
           ++ [Ev_call (scan_subscription ctx) rs1;
               Ev_log LOG_ERR "BLZ Failed to notify" []] |})
   /\ exists c',
        st_heap (snd (blz_scan_start ctx cb s)) !! ctx = Some (O_ctx c')
        /\ scan_cb c' = cb /\ scan_slot c' = scan_slot c)
  /\ (0 <= ret rs1 ->
      forall rs2 w2,
        w_respond w1 (adapter_call c "StartDiscovery") = (rs2, w2) ->
        blz_scan_start ctx cb s =
          (Done (0 <=? ret rs2),
           {| st_world := w2;
              st_heap := <[ctx := O_ctx (context_scanning c (out_slot rs1) cb)]>
                           (st_heap s);
              st_trace := st_trace s
                ++ [Ev_call (scan_subscription ctx) rs1;
                    Ev_call (adapter_call c "StartDiscovery") rs2]
                ++ (if ret rs2 <? 0
                    then [Ev_log LOG_ERR "BLZ failed to scan: %s"
                            [err_message (out_error rs2)]]
                    else []) |})
        /\ exists c',
             st_heap (snd (blz_scan_start ctx cb s)) !! ctx = Some (O_ctx c')
             /\ scan_cb c' = cb /\ scan_slot c' = out_slot rs1).
Proof.
  intros Hctx Hsub. split.
  - intros Hneg.
    assert (Hrun : blz_scan_start ctx cb s =
      (Done false,
       {| st_world := w1;
          st_heap := <[ctx := O_ctx (context_scanning c (scan_slot c) cb)]>
                       (st_heap s);
          st_trace := st_trace s
            ++ [Ev_call (scan_subscription ctx) rs1;
                Ev_log LOG_ERR "BLZ Failed to notify" []] |})).
    { change (context_scanning c (scan_slot c) cb) with (set_scan_cb cb c).
      unfold blz_scan_start.
      step_update_ctx. step_load_ctx. step_call Hsub.
      replace (ret rs1 <? 0) with true
        by (symmetry; apply Z.ltb_lt; exact Hneg).
      step_log. unfold pure.
      replace (0 <=? ret rs1) with false
        by (symmetry; apply Z.leb_gt; exact Hneg).
      rewrite <- !app_assoc. reflexivity. }
    split; [exact Hrun|]. rewrite Hrun. cbn [snd st_heap].
    eexists. split; [apply lookup_insert_eq|]. split; reflexivity.
  - intros Hok rs2 w2 Hstart.
    assert (Hrun : blz_scan_start ctx cb s =
      (Done (0 <=? ret rs2),
       {| st_world := w2;
          st_heap := <[ctx := O_ctx (context_scanning c (out_slot rs1) cb)]>
                       (st_heap s);
          st_trace := st_trace s
            ++ [Ev_call (scan_subscription ctx) rs1;
                Ev_call (adapter_call c "StartDiscovery") rs2]
            ++ (if ret rs2 <? 0
                then [Ev_log LOG_ERR "BLZ failed to scan: %s"
                        [err_message (out_error rs2)]]
                else []) |})).
    { change (context_scanning c (out_slot rs1) cb)
        with (set_scan_slot (out_slot rs1) (set_scan_cb cb c)).
      unfold blz_scan_start.
      step_update_ctx. step_load_ctx. step_call Hsub.
      replace (ret rs1 <? 0) with false
        by (symmetry; apply Z.ltb_ge; exact Hok).
      step_update_ctx.
      change (adapter_call (set_scan_cb cb c) "StartDiscovery")
        with (adapter_call c "StartDiscovery").
      step_call Hstart.
      destruct (ret rs2 <? 0).
      + step_log. unfold pure. rewrite <- !app_assoc. reflexivity.
      + unfold bind, pure. cbn [st_heap st_world st_trace].
        rewrite <- !app_assoc. reflexivity. }
    split; [exact Hrun|]. rewrite Hrun. cbn [snd st_heap].
    eexists. split; [apply lookup_insert_eq|]. split; reflexivity.
Qed.


(** ** Notifications (lines 701-773) *)

Lemma update_char_live s p c f :
  st_heap s !! p = Some (O_char c) ->
  update_char p f s =
    (Done tt, {| st_world := st_world s;
                 st_heap := <[p := O_char (f c)]> (st_heap s);
                 st_trace := st_trace s |}).
Proof.
  intros Hp. unfold update_char, bind, load_char. rewrite Hp. reflexivity.
Qed.

Lemma load_char_inv s p c s1 :
  load_char p s = (Done c, s1) -> s1 = s /\ st_heap s !! p = Some (O_char c).
Proof.
  unfold load_char. destruct (st_heap s !! p) as [[]|]; try discriminate.
  intros [= <- <-]. split; reflexivity.
Qed.

Lemma load_ctx_inv s p c s1 :
  load_ctx p s = (Done c, s1) -> s1 = s /\ st_heap s !! p = Some (O_ctx c).
Proof.
  unfold load_ctx. destruct (st_heap s !! p) as [[]|]; try discriminate.
  intros [= <- <-]. split; reflexivity.
Qed.

Lemma call_inv rq s rs s1 :
  call rq s = (Done rs, s1) ->
  s1 = {| st_world := snd (w_respond (st_world s) rq); st_heap := st_heap s;
          st_trace := st_trace s ++ [Ev_call rq rs] |}.
Proof.
  unfold call. destruct (w_respond (st_world s) rq) as [rs' w].
  intros [= <- <-]. reflexivity.
Qed.

Lemma live_char_not_ctx s ch c x :
  st_heap s !! ch = Some (O_char c) ->
  st_heap s !! ch_ctx c = Some (O_ctx x) ->
  ch <> ch_ctx c.
Proof. intros Hch Hctx Heq. rewrite <- Heq, Hch in Hctx. discriminate. Qed.

Ltac step_update_char :=
  erewrite bind_done
    by (apply update_char_live; cbn [st_heap];
        first [eassumption | apply lookup_insert_eq]);
  cbn [st_heap st_world st_trace]; rewrite ?insert_insert_eq.

Ltac step_load_char :=
  erewrite bind_done
    by (apply load_char_live; cbn [st_heap];
        first [eassumption | apply lookup_insert_eq]).

Ltac step_load_ctx_of Hne Hctx :=
  erewrite bind_done
    by (apply load_ctx_live; cbn [st_heap];
        rewrite ?lookup_insert_ne by exact Hne; exact Hctx).

(** X13: [blz_char_notify_start] reports success only for a characteristic
    that is notifying.  When it returns true, the characteristic has its
    [notifying] flag set at that moment. *)
Theorem blz_char_notify_start_true_means_notifying fuel ch cb s s' :
  blz_char_notify_start fuel ch cb s = (Done true, s') ->
  exists c', st_heap s' !! ch = Some (O_char c') /\ notifying c' = true.
Proof.
  unfold blz_char_notify_start. intros Hrun.
  apply bind_Done_inv in Hrun as (c & s1 & _ & Hrun).
  destruct (_ =? 0).
  { apply bind_Done_inv in Hrun as (? & ? & _ & Hrun). discriminate. }
  do 3 (apply bind_Done_inv in Hrun as (? & ? & _ & Hrun)).
  match type of Hrun with context [ret ?rs <? 0] =>
    destruct (ret rs <? 0) eqn:Hneg
  end.
  { apply bind_Done_inv in Hrun as (? & ? & _ & Hrun).
    unfold pure in Hrun. injection Hrun as Hle _.
    apply Z.leb_le in Hle. apply Z.ltb_lt in Hneg. lia. }
  do 3 (apply bind_Done_inv in Hrun as (? & ? & _ & Hrun)).
  apply bind_Done_inv in Hrun as (r & s2 & Hloop & Hrun).
  apply bind_Done_inv in Hrun as (? & s3 & Hlog & Hrun).
  destruct (blz_loop_timeout_result _ _ _ _ _ _ _ Hloop)
    as [[-> Hflag] | [-> _]]; [|discriminate].
  change (0 <? 0) with false in Hlog. cbv iota in Hlog.
  unfold pure in Hlog, Hrun.
  injection Hlog as _ <-. injection Hrun as <-.
  revert Hflag. cbn [read_flag]. unfold bind, load_char, pure.
  destruct (st_heap s2 !! ch) as [[| |c'| |]|]; try discriminate.
  intros [= Hn]. exists c'. split; [reflexivity | exact Hn].
Qed.

(** X14: the result of [blz_char_notify_start] is decided by the flag
    alone.  When the characteristic is already notifying and the
    subscription is accepted, a refused [StartNotify] is logged but not
    reported: the call reads the clock once and returns true. *)
Theorem blz_char_notify_start_hides_refused_start
    fuel ch cb s c x rs1 w1 rs2 w2 ts w3 :
  st_heap s !! ch = Some (O_char c) ->
  Z.land (ch_flags c) (Z.lor BLZ_CHAR_NOTIFY BLZ_CHAR_INDICATE) <> 0 ->
  st_heap s !! ch_ctx c = Some (O_ctx x) ->
  notifying c = true ->
  w_respond (st_world s) (notify_subscription c ch) = (rs1, w1) ->
  0 <= ret rs1 ->
  w_respond w1 (char_call c "StartNotify" "") = (rs2, w2) ->
  ret rs2 < 0 ->
  w_clock_gettime w2 = (ts, w3) ->
  blz_char_notify_start fuel ch cb s =
    (Done true,
     {| st_world := w3;
        st_heap := <[ch := O_char (set_notify_slot (out_slot rs1)
                                     (set_notify_cb cb c))]> (st_heap s);
        st_trace := st_trace s
          ++ [Ev_call (notify_subscription c ch) rs1;
              Ev_call (char_call c "StartNotify" "") rs2;
              Ev_log LOG_ERR "BLZ Failed to start notify: %s"
                [err_message (out_error rs2)];
              Ev_clock_gettime ts] |}).
Proof.
  intros Hch Hflags Hctx Hn Hsub Hok Hstart Hneg Hclock.
  pose proof (live_char_not_ctx _ _ _ _ Hch Hctx) as Hne.
  unfold blz_char_notify_start. step_load_char.
  replace (_ =? 0) with false by (symmetry; apply Z.eqb_neq; exact Hflags).
  step_update_char.
  step_load_ctx_of Hne Hctx.
  step_call Hsub.
  replace (ret rs1 <? 0) with false by (symmetry; apply Z.ltb_ge; exact Hok).
  step_update_char.
  step_call Hstart.
  replace (ret rs2 <? 0) with true by (symmetry; apply Z.ltb_lt; exact Hneg).
  step_log.
  erewrite bind_done;
    [| apply (blz_loop_timeout_flag_already_set fuel (ch_ctx c)
                (Notifying_of ch) 5000 _ ts w3);
       [ cbn [st_world]; exact Hclock
       | cbn [read_flag]; unfold bind, load_char; cbn [st_heap];
         rewrite lookup_insert_eq; cbn; rewrite Hn; reflexivity ] ].
  change (0 <? 0) with false. cbv iota.
  unfold bind, pure. cbn [st_heap st_world st_trace].
  rewrite <- !app_assoc. reflexivity.
Qed.

(** X15: [blz_char_notify_stop] always ends the subscription.  Whatever
    BlueZ answers to [StopNotify] (a failure is logged and gives the result
    false), the slot is released and cleared and the callback is cleared.
    From then on a second [blz_char_notify_stop] returns false without
    touching the bus, and the handler [blz_notify_cb] for the
    characteristic logs, returns -1 and calls no user callback. *)
Theorem blz_char_notify_stop_always_unsubscribes ch s c x rs w :
  ch <> NULL ->
  st_heap s !! ch = Some (O_char c) ->
  notify_slot c <> NULL ->
  st_heap s !! ch_ctx c = Some (O_ctx x) ->
  w_respond (st_world s) (char_call c "StopNotify" "") = (rs, w) ->
  let s' :=
    {| st_world := w;
       st_heap := <[ch := O_char (set_notify_cb NULL (set_notify_slot NULL c))]>
                    (st_heap s);
       st_trace := st_trace s
         ++ [Ev_call (char_call c "StopNotify" "") rs]
         ++ (if ret rs <? 0
             then [Ev_log LOG_ERR "BLZ Failed to stop notify: %s"
                     [err_message (out_error rs)]]
             else [])
         ++ [Ev_slot_unref (notify_slot c)] |} in
  blz_char_notify_stop ch s = (Done (0 <=? ret rs), s')
  /\ blz_char_notify_stop ch s' = (Done false, s')
  /\ forall m,
       blz_notify_cb m ch s' =
         (Done (-1), logged s' LOG_ERR "BLZ signal no callback" []).
Proof.
  intros Hnn Hch Hslot Hctx Hstop s'.
  assert (Hch' : st_heap s' !! ch
                 = Some (O_char (set_notify_cb NULL (set_notify_slot NULL c))))
    by (subst s'; cbn [st_heap]; apply lookup_insert_eq).
  split; [|split].
  - unfold blz_char_notify_stop.
    replace (ch =? NULL)%N with false by (symmetry; apply N.eqb_neq; exact Hnn).
    step_load_char.
    replace (notify_slot c =? NULL)%N with false
      by (symmetry; apply N.eqb_neq; exact Hslot).
    step_load_ctx. step_call Hstop.
    destruct (ret rs <? 0).
    + step_log.
      rewrite (bind_done _ _ _ _ _ (sd_bus_slot_unref_run _ _)).
      cbn [st_heap st_world st_trace].
      step_update_char. step_update_char.
      unfold pure. subst s'. rewrite <- !app_assoc. reflexivity.
    + unfold bind at 1. unfold pure at 1.
      rewrite (bind_done _ _ _ _ _ (sd_bus_slot_unref_run _ _)).
      cbn [st_heap st_world st_trace].
      step_update_char. step_update_char.
      unfold pure. subst s'. rewrite <- !app_assoc. reflexivity.
  - unfold blz_char_notify_stop.
    replace (ch =? NULL)%N with false by (symmetry; apply N.eqb_neq; exact Hnn).
    rewrite (bind_done _ _ _ _ _ (load_char_live _ _ _ Hch')).
    reflexivity.
  - intros m. unfold blz_notify_cb.
    replace (ch =? NULL)%N with false by (symmetry; apply N.eqb_neq; exact Hnn).
    rewrite (bind_done _ _ _ _ _ (load_char_live _ _ _ Hch')).
    reflexivity.
Qed.

(** ** Reading and writing a characteristic (lines 587-678, 775-810) *)

(** X16: [blz_char_write] reports success only for a write that BlueZ has
    accepted.  When it returns true, the characteristic can be written, and
    the last thing the call did was to send [WriteValue] for it with the
    first [len] bytes of the data, which was answered without error. *)
Theorem blz_char_write_true_means_written ch data len s s' :
  blz_char_write ch data len s = (Done true, s') ->
  exists c rs t,
    st_heap s !! ch = Some (O_char c)
    /\ Z.land (ch_flags c) (Z.lor BLZ_CHAR_WRITE BLZ_CHAR_WRITE_WITHOUT_RESPONSE)
       <> 0
    /\ new_events s s'
       = t ++ [Ev_call (sd_bus_call (write_value c)
                          (take (Z.to_nat len) data)) rs]
    /\ 0 <= ret rs.
Proof.
  unfold blz_char_write. intros Hrun.
  apply bind_Done_inv in Hrun as (c & s0 & Hc & Hrun).
  apply load_char_inv in Hc as [-> Hch].
  destruct (_ =? 0) eqn:Hflags.
  { apply bind_Done_inv in Hrun as (? & ? & _ & Hrun). discriminate. }
  apply bind_Done_inv in Hrun as (? & s0 & Hx & Hrun).
  apply load_ctx_inv in Hx as [-> _].
  cbv zeta in Hrun.
  do 4 (apply bind_Done_inv in Hrun as (? & ? & Hcall & Hrun);
        apply call_inv in Hcall as ->;
        match type of Hrun with context [ret ?rs <? 0] =>
          destruct (ret rs <? 0) eqn:?Hneg
        end;
        [ apply bind_Done_inv in Hrun as (? & ? & _ & Hrun);
          unfold pure in Hrun; injection Hrun as Hle _;
          apply Z.leb_le in Hle;
          match goal with Ht : (_ <? 0) = true |- _ =>
            apply Z.ltb_lt in Ht; lia
          end |]).
  apply bind_Done_inv in Hrun as (rs & ? & Hcall & Hrun).
  apply call_inv in Hcall as ->.
  apply bind_Done_inv in Hrun as (? & s5 & Hlog & Hrun).
  unfold pure in Hrun. injection Hrun as Hle <-. apply Z.leb_le in Hle.
  replace (ret rs <? 0) with false in Hlog
    by (symmetry; apply Z.ltb_ge; exact Hle).
  unfold pure in Hlog. injection Hlog as _ <-.
  exists c, rs. eexists [_; _; _; _].
  split; [exact Hch|]. split; [apply Z.eqb_neq; exact Hflags|].
  split; [|exact Hle].
  apply new_events_app. cbn [st_trace]. rewrite <- !app_assoc. reflexivity.
Qed.

Lemma memcpy_within data ptr n len :
  0 <= n -> n <= Z.of_nat (length ptr) -> n <= len ->
  len <= Z.of_nat (length data) ->
  length (memcpy data ptr n) = length data
  /\ drop (Z.to_nat len) (memcpy data ptr n) = drop (Z.to_nat len) data.
Proof.
  intros Hn Hptr Hlen Hdata. unfold memcpy. split.
  - rewrite length_app, length_take, length_drop. lia.
  - rewrite drop_app_ge by (rewrite length_take; lia).
    rewrite length_take, drop_drop. f_equal. lia.
Qed.

(** X17: [blz_char_read] stays within the caller's buffer.  For a buffer
    of at least [len] bytes, whatever BlueZ answers and however many bytes
    it sends, the buffer keeps its length and its bytes from position
    [len] on are untouched. *)
Theorem blz_char_read_stays_in_buffer ch data len s r data' s' :
  blz_char_read ch data len s = (Done (r, data'), s') ->
  0 <= len <= Z.of_nat (length data) ->
  length data' = length data
  /\ drop (Z.to_nat len) data' = drop (Z.to_nat len) data.
Proof.
  unfold blz_char_read. cbv zeta. intros Hrun Hlen.
  apply bind_Done_inv in Hrun as (c & s0 & _ & Hrun).
  destruct (_ =? 0).
  { apply bind_Done_inv in Hrun as (? & ? & _ & Hrun).
    unfold pure in Hrun. injection Hrun as _ <- _. split; reflexivity. }
  do 2 (apply bind_Done_inv in Hrun as (? & ? & _ & Hrun)).
  destruct (ret _ <? 0).
  { apply bind_Done_inv in Hrun as (? & ? & _ & Hrun).
    unfold pure in Hrun. injection Hrun as _ <- _. split; reflexivity. }
  apply bind_Done_inv in Hrun as (rs & ? & _ & Hrun).
  destruct (ret rs <? 0).
  { apply bind_Done_inv in Hrun as (? & ? & _ & Hrun).
    unfold pure in Hrun. injection Hrun as _ <- _. split; reflexivity. }
  unfold pure in Hrun. injection Hrun as _ <- _.
  destruct (0 <? _); [|split; reflexivity].
  destruct (Z.of_nat (length (out_array rs)) <? len) eqn:Hmin.
  - apply Z.ltb_lt in Hmin. apply memcpy_within; lia.
  - apply Z.ltb_ge in Hmin. apply memcpy_within; lia.
Qed.

(** X18: a failed read returns -1 and leaves the buffer alone.  When the
    characteristic can be read and [ReadValue] fails, or its reply cannot
    be decoded, [blz_char_read] logs and returns -1, the value [rlen] was
    initialised with ([(size_t)-1] as an [int]); the buffer is as before. *)
Theorem blz_char_read_failure_leaves_buffer ch data len s c x rs1 w1 :
  st_heap s !! ch = Some (O_char c) ->
  Z.land (ch_flags c) BLZ_CHAR_READ <> 0 ->
  st_heap s !! ch_ctx c = Some (O_ctx x) ->
  w_respond (st_world s) (read_request c) = (rs1, w1) ->
  (ret rs1 < 0 ->
   blz_char_read ch data len s =
     (Done (-1, data),
      {| st_world := w1; st_heap := st_heap s;
         st_trace := st_trace s
           ++ [Ev_call (read_request c) rs1;
               Ev_log LOG_ERR "BLZ failed to read: %s"
                 [err_message (out_error rs1)]] |}))
  /\ (0 <= ret rs1 ->
      forall rs2 w2,
        w_respond w1 sd_bus_message_read_array = (rs2, w2) ->
        ret rs2 < 0 ->
        blz_char_read ch data len s =
          (Done (-1, data),
           {| st_world := w2; st_heap := st_heap s;
              st_trace := st_trace s
                ++ [Ev_call (read_request c) rs1;
                    Ev_call sd_bus_message_read_array rs2;
                    Ev_log LOG_ERR "BLZ failed to read result: %s" []] |})).
Proof.
  intros Hch Hflags Hctx Hread. split.
  - intros Hneg. unfold blz_char_read. cbv zeta. step_load_char.
    replace (_ =? 0) with false by (symmetry; apply Z.eqb_neq; exact Hflags).
    step_load_ctx. step_call Hread.
    replace (ret rs1 <? 0) with true by (symmetry; apply Z.ltb_lt; exact Hneg).
    step_log. unfold pure. rewrite <- !app_assoc. reflexivity.
  - intros Hok rs2 w2 Harr Hneg. unfold blz_char_read. cbv zeta.
    step_load_char.
    replace (_ =? 0) with false by (symmetry; apply Z.eqb_neq; exact Hflags).
    step_load_ctx. step_call Hread.
    replace (ret rs1 <? 0) with false by (symmetry; apply Z.ltb_ge; exact Hok).
    step_call Harr.
    replace (ret rs2 <? 0) with true by (symmetry; apply Z.ltb_lt; exact Hneg).
    step_log. unfold pure. rewrite <- !app_assoc. reflexivity.
Qed.

(** X19: the descriptor [blz_char_write_fd_acquire] hands out is a
    duplicate.  When it returns a value that is not negative, the call has
    sent [AcquireWrite], has read a descriptor from the reply and has
    duplicated it: the result is what [dup] returned for that descriptor,
    not the descriptor of the reply. *)
Theorem blz_char_write_fd_acquire_returns_duplicate ch s r s' :
  blz_char_write_fd_acquire ch s = (Done r, s') ->
  0 <= r ->
  exists c rs1 rs2 rs3,
    st_heap s !! ch = Some (O_char c)
    /\ Z.land (ch_flags c) BLZ_CHAR_WRITE_WITHOUT_RESPONSE <> 0
    /\ new_events s s'
       = [Ev_call (char_call c "AcquireWrite" "a{sv}") rs1;
          Ev_call sd_bus_message_read_fd rs2;
          Ev_call (dup (out_fd rs2)) rs3]
    /\ 0 <= ret rs1 /\ 0 <= ret rs2 /\ r = ret rs3.
Proof.
  unfold blz_char_write_fd_acquire. intros Hrun Hr.
  apply bind_Done_inv in Hrun as (c & s0 & Hc & Hrun).
  apply load_char_inv in Hc as [-> Hch].
  destruct (_ =? 0) eqn:Hflags.
  { apply bind_Done_inv in Hrun as (? & ? & _ & Hrun).
    unfold pure in Hrun. injection Hrun as <- _. lia. }
  apply bind_Done_inv in Hrun as (? & s0 & Hx & Hrun).
  apply load_ctx_inv in Hx as [-> _].
  apply bind_Done_inv in Hrun as (rs1 & ? & Hcall & Hrun).
  apply call_inv in Hcall as ->.
  destruct (ret rs1 <? 0) eqn:Hneg1.
  { apply bind_Done_inv in Hrun as (? & ? & _ & Hrun).
    unfold pure in Hrun. injection Hrun as <- _.
    apply Z.ltb_lt in Hneg1. lia. }
  apply bind_Done_inv in Hrun as (rs2 & ? & Hcall & Hrun).
  apply call_inv in Hcall as ->.
  destruct (ret rs2 <? 0) eqn:Hneg2.
  { apply bind_Done_inv in Hrun as (? & ? & _ & Hrun).
    unfold pure in Hrun. injection Hrun as <- _.
    apply Z.ltb_lt in Hneg2. lia. }
  apply bind_Done_inv in Hrun as (rs3 & ? & Hcall & Hrun).
  apply call_inv in Hcall as ->.
  unfold pure in Hrun. injection Hrun as <- <-.
  exists c, rs1, rs2, rs3.
  split; [exact Hch|]. split; [apply Z.eqb_neq; exact Hflags|].
  split; [|apply Z.ltb_ge in Hneg1, Hneg2; auto].
  apply new_events_app. cbn [st_trace]. rewrite <- !app_assoc. reflexivity.
Qed.

(** ** Connecting by address (lines 241-314) *)

Lemma update_dev_inv s p f s1 :
  update_dev p f s = (Done tt, s1) ->
  exists d, st_heap s !! p = Some (O_dev d)
            /\ s1 = {| st_world := st_world s;
                       st_heap := <[p := O_dev (f d)]> (st_heap s);
                       st_trace := st_trace s |}.
Proof.
  unfold update_dev, bind, load_dev, store.
  destruct (st_heap s !! p) as [[]|]; try discriminate.
  intros [= <-]. eauto.
Qed.

Lemma load_dev_inv s p d s1 :
  load_dev p s = (Done d, s1) -> s1 = s /\ st_heap s !! p = Some (O_dev d).
Proof.
  unfold load_dev. destruct (st_heap s !! p) as [[]|]; try discriminate.
  intros [= <- <-]. split; reflexivity.
Qed.

(** X20: a result of [blz_connect_new] that is not negative is the verdict
    of the reply.  When [blz_connect_new] returns [0 <= r], it has sent
    [ConnectDevice] on the adapter of the handle with "Address" the given
    address and "AddressType" "public" or "random" as asked, with
    [connect_new_cb] and the handle as its reply handler; the handle has
    [connect_new_done] set, and [r] is the [connect_new_result] stored in
    it. *)
Theorem blz_connect_new_result_is_the_reply
    fuel dev macstr addr_public s r s' :
  blz_connect_new fuel dev macstr addr_public s = (Done r, s') ->
  0 <= r ->
  exists d c d' rs,
    st_heap s !! dev = Some (O_dev d)
    /\ st_heap s !! dev_ctx d = Some (O_ctx c)
    /\ Ev_call (sd_bus_call_async (connect_device c macstr addr_public)
                  connect_new_cb_fn dev (CONNECT_NEW_TIMEOUT * 1000000)) rs
       ∈ new_events s s'
    /\ 0 <= ret rs
    /\ st_heap s' !! dev = Some (O_dev d')
    /\ connect_new_done d' = true
    /\ connect_new_result d' = r.
Proof.
  unfold blz_connect_new. cbv zeta. intros Hrun Hr.
  unfold LOG in Hrun at 1.
  rewrite (bind_done _ _ _ _ _ (emit_run _ _)) in Hrun.
  apply bind_Done_inv in Hrun as (d & ? & Hd & Hrun).
  apply load_dev_inv in Hd as [-> Hdev].
  apply bind_Done_inv in Hrun as (c & ? & Hc & Hrun).
  apply load_ctx_inv in Hc as [-> Hctx]. cbn [st_heap] in Hdev, Hctx.
  apply bind_Done_inv in Hrun as (rs1 & ? & Hcall & Hrun).
  apply call_inv in Hcall; cbn [st_world st_heap st_trace] in Hcall;
    subst.
  destruct (ret rs1 <? 0) eqn:Hn1.
  { apply bind_Done_inv in Hrun as (? & ? & _ & Hrun).
    unfold pure in Hrun. injection Hrun as <- _. apply Z.ltb_lt in Hn1. lia. }
  apply bind_Done_inv in Hrun as (rs2 & ? & Hcall & Hrun).
  apply call_inv in Hcall; cbn [st_world st_heap st_trace] in Hcall;
    subst.
  destruct (ret rs2 <? 0) eqn:Hn2.
  { apply bind_Done_inv in Hrun as (? & ? & _ & Hrun).
    unfold pure in Hrun. injection Hrun as <- _. apply Z.ltb_lt in Hn2. lia. }
  apply bind_Done_inv in Hrun as (rs3 & ? & Hcall & Hrun).
  apply call_inv in Hcall; cbn [st_world st_heap st_trace] in Hcall;
    subst.
  destruct (ret rs3 <? 0) eqn:Hn3.
  { unfold pure in Hrun. injection Hrun as <- _. apply Z.ltb_lt in Hn3. lia. }
  apply bind_Done_inv in Hrun as (rs4 & ? & Hcall & Hrun).
  apply call_inv in Hcall; cbn [st_world st_heap st_trace] in Hcall;
    subst.
  destruct (ret rs4 <? 0) eqn:Hn4.
  { unfold pure in Hrun. injection Hrun as <- _. apply Z.ltb_lt in Hn4. lia. }
  apply bind_Done_inv in Hrun as (rs5 & ? & Hcall & Hrun).
  apply call_inv in Hcall; cbn [st_world st_heap st_trace] in Hcall;
    subst.
  destruct (ret rs5 <? 0) eqn:Hn5.
  { apply bind_Done_inv in Hrun as (? & ? & _ & Hrun).
    unfold pure in Hrun. injection Hrun as <- _. apply Z.ltb_lt in Hn5. lia. }
  apply bind_Done_inv in Hrun as ([] & ? & Hup & Hrun).
  apply update_dev_inv in Hup as (d0 & _ & Hup);
    cbn [st_world st_heap st_trace] in Hup; subst.
  apply bind_Done_inv in Hrun as (rs & ? & Hcall & Hrun).
  apply call_inv in Hcall; cbn [st_world st_heap st_trace] in Hcall;
    subst.
  destruct (ret rs <? 0) eqn:Hn6.
  { apply bind_Done_inv in Hrun as (? & ? & _ & Hrun).
    unfold pure in Hrun. injection Hrun as <- _. apply Z.ltb_lt in Hn6. lia. }
  apply bind_Done_inv in Hrun as (r0 & s2 & Hloop & Hrun).
  destruct (blz_loop_timeout_result _ _ _ _ _ _ _ Hloop)
    as [[-> Hflag] | [-> _]].
  2:{ change (-1 <? 0) with true in Hrun. cbv iota in Hrun.
      apply bind_Done_inv in Hrun as (? & ? & _ & Hrun).
      unfold pure in Hrun. injection Hrun as <- _. lia. }
  change (0 <? 0) with false in Hrun. cbv iota in Hrun.
  apply bind_Done_inv in Hrun as (d' & ? & Hd' & Hrun).
  apply load_dev_inv in Hd' as [-> Hdev'].
  unfold pure in Hrun. injection Hrun as <- <-.
  destruct (blz_loop_timeout_quiet _ _ _ _ _ _ _ Hloop) as (t & Ht & _).
  cbn [st_trace] in Ht.
  exists d, c, d', rs.
  split; [exact Hdev|]. split; [exact Hctx|].
  split.
  { rewrite (new_events_app s s2 ([_; _; _; _; _; _] ++ [_] ++ t))
      by (rewrite Ht, <- !app_assoc; reflexivity).
    apply elem_of_app. right. apply elem_of_app. left.
    apply list_elem_of_here. }
  split; [apply Z.ltb_ge; exact Hn6|].
  split; [exact Hdev'|]. split; [|reflexivity].
  revert Hflag. cbn [read_flag]. unfold bind, load_dev, pure.
  rewrite Hdev'. intros [= Hdone]. exact Hdone.
Qed.

Lemma run_dispatches_no_notice ds :
  emits (run_dispatches ds) (Forall (fun e => is_old_bluez_notice e = false)).
Proof.
  induction ds as [|d ds IH]; cbn [run_dispatches]; [emits_all|].
  apply emits_bind_all; [|intros _; exact IH].
  unfold run_dispatch, blz_intf_cb, blz_connect_cb, connect_new_cb,
    blz_notify_cb.
  emits_all.
Qed.

Lemma sd_bus_process_no_notice :
  emits sd_bus_process (Forall (fun e => is_old_bluez_notice e = false)).
Proof.
  intros s o s'. unfold sd_bus_process.
  destruct (w_process (st_world s)) as [[r ds] w]. intros Hrun.
  assert (Hq : emits (run_dispatches ds ;; pure r)
                 (Forall (fun e => is_old_bluez_notice e = false))).
  { apply emits_bind_all; [apply run_dispatches_no_notice|]. intros.
    emits_all. }
  destruct (Hq _ _ _ Hrun) as (t & Ht & HQ). cbn in Ht.
  exists (Ev_process r ds :: t). split.
  - rewrite Ht, <- app_assoc. reflexivity.
  - constructor; [reflexivity | exact HQ].
Qed.

Lemma blz_loop_timeout_no_notice fuel ctx check timeout_ms :
  emits (blz_loop_timeout fuel ctx check timeout_ms)
    (Forall (fun e => is_old_bluez_notice e = false)).
Proof.
  unfold blz_loop_timeout.
  apply emits_bind_all; [emits_all|]. intros ts.
  generalize (ms_of_timespec ts). intros current_ms.
  generalize (to_uint32 (current_ms + to_uint32 timeout_ms)) at 1.
  intros end_ms. revert current_ms.
  induction fuel as [|fuel IH]; intros current_ms;
    cbn [blz_loop_timeout_while].
  - emits_all.
  - apply emits_bind_all; [emits_all|]. intros b.
    destruct (negb b && (current_ms <? end_ms)); [|emits_all].
    apply emits_bind_all.
    { unfold blz_loop.
      apply emits_bind_all; [emits_all|]. intros c.
      apply emits_bind_all; [apply sd_bus_process_no_notice|]. intros r.
      emits_all. }
    intros _.
    apply emits_bind_all; [emits_all|]. intros ts'. apply IH.
Qed.

(** X21: [blz_connect_new] never reports an old BlueZ.  The notice
    about a BlueZ before 5.49 (line 294) is guarded by a test of the local
    [error], which no call fills in ([sd_bus_call_async] takes no error):
    whatever the bus answers, no run of [blz_connect_new] logs it. *)
Theorem blz_connect_new_never_logs_notice fuel dev macstr addr_public s :
  Forall (fun e => is_old_bluez_notice e = false)
    (new_events s (snd (blz_connect_new fuel dev macstr addr_public s))).
Proof.
  apply (emits_new_events _ (Forall (fun e => is_old_bluez_notice e = false))).
  unfold blz_connect_new. cbv zeta.
  change (sd_bus_error_has_name SD_BUS_ERROR_NULL SD_BUS_ERROR_UNKNOWN_METHOD)
    with false. cbv iota.
  repeat first
    [ apply blz_loop_timeout_no_notice
    | emits_all_step ].
Qed.

(** ** The device path and the address *)

Lemma string_app_inv_head (a x y : string) : a +:+ x = a +:+ y -> x = y.
Proof.
  induction a as [|ch a IH]; [exact id|].
  intros [= Heq]. exact (IH Heq).
Qed.

Lemma string_app_assoc (a b c : string) : (a +:+ b) +:+ c = a +:+ (b +:+ c).
Proof.
  induction a as [|ch a IH]; [reflexivity|].
  change (String ch ((a +:+ b) +:+ c) = String ch (a +:+ (b +:+ c))).
  f_equal. exact IH.
Qed.

Lemma string_app_nil_r (a : string) : a +:+ "" = a.
Proof.
  induction a as [|ch a IH]; [reflexivity|].
  change (String ch (a +:+ "") = String ch a). f_equal. exact IH.
Qed.

Lemma hex_digit_inj a b r1 r2 :
  0 <= a < 16 -> 0 <= b < 16 ->
  hex_digit a +:+ r1 = hex_digit b +:+ r2 -> a = b /\ r1 = r2.
Proof.
  intros Ha Hb. unfold hex_digit.
  assert (Hi : (Z.to_nat a < 16)%nat) by lia.
  assert (Hj : (Z.to_nat b < 16)%nat) by lia.
  intros Heq.
  assert (Hij : Z.to_nat a = Z.to_nat b /\ r1 = r2).
  { revert Hi Hj Heq. generalize (Z.to_nat a) (Z.to_nat b). intros i j Hi Hj.
    do 16 (destruct i as [|i];
           [ do 16 (destruct j as [|j];
                    [ cbv [String.append nth]; intros Heq;
                      first [ discriminate Heq
                            | injection Heq as ->; split; reflexivity ] |]);
             lia |]).
    lia. }
  destruct Hij as [Hij ->]. split; [lia | reflexivity].
Qed.

Lemma hex02_inj x y r1 r2 :
  0 <= x < 256 -> 0 <= y < 256 ->
  hex02 x +:+ r1 = hex02 y +:+ r2 -> x = y /\ r1 = r2.
Proof.
  intros Hx Hy. unfold hex02. cbv zeta.
  rewrite (Z.mod_small x 256), (Z.mod_small y 256) by lia.
  rewrite !string_app_assoc. intros Heq.
  apply hex_digit_inj in Heq as [Hhi Heq];
    [| split; [apply Z.div_pos; lia | apply Z.div_lt_upper_bound; lia] ..].
  apply hex_digit_inj in Heq as [Hlo ->];
    [| apply Z.mod_pos_bound; lia ..].
  split; [|reflexivity].
  rewrite (Z.div_mod x 16), (Z.div_mod y 16) by lia. rewrite Hhi, Hlo.
  reflexivity.
Qed.

(** X22: the device path tells addresses apart.  On one adapter, two
    addresses of six octets that give the same device path are the same
    address: [blz_connect] never uses the object of one device for
    another. *)
Theorem format_dev_path_tells_addresses_apart adapter mac1 mac2 :
  length mac1 = 6%nat -> length mac2 = 6%nat ->
  Forall (fun b => 0 <= b < 256) mac1 ->
  Forall (fun b => 0 <= b < 256) mac2 ->
  format_dev_path adapter mac1 = format_dev_path adapter mac2 ->
  mac1 = mac2.
Proof.
  intros Hl1 Hl2 Hb1 Hb2.
  do 6 (destruct mac1 as [|? mac1]; [discriminate Hl1|]).
  destruct mac1; [|discriminate Hl1].
  do 6 (destruct mac2 as [|? mac2]; [discriminate Hl2|]).
  destruct mac2; [|discriminate Hl2].
  repeat match goal with
         | Hb : Forall _ (_ :: _) |- _ =>
             apply Forall_cons in Hb as [? Hb]
         end.
  unfold format_dev_path. cbn [nth]. intros Heq.
  apply string_app_inv_head in Heq.
  apply (string_app_inv_head "/dev_") in Heq.
  do 5 (apply hex02_inj in Heq as [-> Heq]; [| assumption ..];
        apply (string_app_inv_head "_") in Heq).
  rewrite <- (string_app_nil_r (hex02 _)) in Heq.
  rewrite <- (string_app_nil_r (hex02 z10)) in Heq.
  apply hex02_inj in Heq as [-> _]; [| assumption ..].
  reflexivity.
Qed.

(** ** Session teardown (lines 70-77) *)

(** X23: [blz_fini] releases the bus and the context and nothing else.  It
    drops the reference to the bus, then frees the context.  The handles of
    the session stay allocated and keep pointing to the freed context:
    [blz_disconnect] on such a handle after [blz_fini] uses the freed
    context, before it has sent [Disconnect] or freed anything. *)
Theorem blz_fini_leaves_handles_behind ctx dev s c d :
  ctx <> NULL -> dev <> NULL ->
  st_heap s !! ctx = Some (O_ctx c) ->
  st_heap s !! dev = Some (O_dev d) ->
  dev_ctx d = ctx ->
  let s1 := {| st_world := st_world s; st_heap := delete ctx (st_heap s);
               st_trace := st_trace s
                 ++ [Ev_bus_unref (ctx_bus c); Ev_free ctx] |} in
  blz_fini ctx s = (Done tt, s1)
  /\ st_heap s1 !! dev = Some (O_dev d)
  /\ fst (blz_disconnect dev s1) = Fault (Bad_pointer ctx)
  /\ methods_called (new_events s1 (snd (blz_disconnect dev s1))) = []
  /\ frees (new_events s1 (snd (blz_disconnect dev s1))) = [].
Proof.
  intros Hnn Hdn Hctx Hdev Hd s1.
  assert (Hne : ctx <> dev).
  { intros ->. rewrite Hctx in Hdev. discriminate. }
  assert (Hdev1 : st_heap s1 !! dev = Some (O_dev d)).
  { subst s1. cbn [st_heap]. rewrite lookup_delete_ne by exact Hne.
    exact Hdev. }
  assert (Hgone : st_heap s1 !! ctx = None)
    by (subst s1; cbn [st_heap]; apply lookup_delete_eq).
  split; [|split; [exact Hdev1|]].
  - unfold blz_fini.
    replace (ctx =? NULL)%N with false by (symmetry; apply N.eqb_neq; exact Hnn).
    step_load_ctx.
    rewrite (bind_done _ _ _ _ _ (emit_run _ _)).
    rewrite (free_live _ _ Hnn) by (cbn [st_heap]; eauto).
    subst s1. cbn [st_heap st_world st_trace].
    rewrite <- !app_assoc. reflexivity.
  - unfold blz_disconnect.
    replace (dev =? NULL)%N with false by (symmetry; apply N.eqb_neq; exact Hdn).
    rewrite (bind_done _ _ _ _ _ (load_dev_live _ _ _ Hdev1)).
    rewrite Hd.
    assert (Hload : forall s2 B (k : blz_context -> M (state W) B),
               st_heap s2 !! ctx = None ->
               bind (load_ctx ctx) k s2 = (Fault (Bad_pointer ctx), s2)).
    { intros s2 B k Hn. unfold bind, load_ctx. rewrite Hn. reflexivity. }
    destruct (connect_slot d =? NULL)%N; cbn [negb].
    + rewrite (bind_done _ _ _ tt s1) by reflexivity.
      rewrite Hload by exact Hgone. cbn [fst snd]. unfold new_events.
      rewrite drop_all. repeat split.
    + rewrite (bind_done _ _ _ tt
                 {| st_world := st_world s1;
                    st_heap := <[dev := O_dev (set_connect_slot NULL d)]>
                                 (st_heap s1);
                    st_trace := st_trace s1 ++ [Ev_slot_unref (connect_slot d)] |}).
      2:{ rewrite (bind_done _ _ _ _ _ (sd_bus_slot_unref_run _ _)).
          erewrite update_dev_live by (cbn [st_heap]; exact Hdev1).
          reflexivity. }
      rewrite Hload
        by (cbn [st_heap]; rewrite lookup_insert_ne
              by (intros Heq; apply Hne; symmetry; exact Heq);
            exact Hgone).
      cbn [fst snd]. split; [reflexivity|].
      unfold new_events. cbn [st_trace]. rewrite drop_app_length.
      split; reflexivity.
Qed.

(** ** The handle of a failed [blz_connect] *)

Lemma free_then_null_released dev :
  dev <> NULL -> returns (free dev ;; pure NULL) (released dev).
Proof.
  intros Hnn s p s' Hrun.
  apply bind_Done_inv in Hrun as ([] & s1 & Hfree & Hrun).
  unfold pure in Hrun. injection Hrun as _ <-. intros _.
  revert Hfree. unfold free.
  replace (dev =? NULL)%N with false by (symmetry; apply N.eqb_neq; exact Hnn).
  destruct (st_heap s !! dev); [|discriminate].
  intros [= <-]. cbn [st_heap]. apply lookup_delete_eq.
Qed.

Lemma blz_connect_exit_released r dev :
  dev <> NULL -> returns (blz_connect_exit r dev) (released dev).
Proof.
  intros Hnn. unfold blz_connect_exit. destruct (r <? 0).
  - apply free_then_null_released. exact Hnn.
  - intros s p s' [= <- <-] Hp. contradiction.
Qed.

Lemma blz_connect_subscribed_released
    fuel ctx dev macstr atype cb conn_status :
  dev <> NULL ->
  returns (blz_connect_subscribed fuel ctx dev macstr atype cb conn_status)
    (released dev).
Proof.
  intros Hnn. unfold blz_connect_subscribed, blz_connect_resolved.
  repeat first
    [ apply blz_connect_exit_released; exact Hnn
    | apply returns_bind; intros ?
    | progress cbv zeta
    | match goal with
      | |- returns (if ?b then _ else _) _ => destruct b
      end ].
Qed.

(** X24: a failed [blz_connect] does not keep its handle.  Whenever
    [blz_connect] returns NULL, nothing is allocated at the address that
    [calloc] had for the handle: the handle has been freed, or was never
    allocated. *)
Theorem blz_connect_failure_frees_handle fuel ctx macstr atype cb s s' :
  blz_connect fuel ctx macstr atype cb s = (Done NULL, s') ->
  st_heap s' !! fresh_pointer (st_heap s) = None.
Proof.
  unfold blz_connect. cbv zeta. intros Hrun.
  apply bind_Done_inv in Hrun as (dev & s1 & Hcalloc & Hrun).
  revert Hcalloc. unfold calloc.
  destruct (w_calloc (st_world s)) as [[] w]; intros [= <- <-].
  - pose proof (fresh_pointer_not_null (st_heap s)) as Hnn.
    revert Hrun.
    replace (fresh_pointer (st_heap s) =? NULL)%N with false
      by (symmetry; apply N.eqb_neq; exact Hnn).
    intros Hrun.
    assert (Hrel : released (fresh_pointer (st_heap s)) NULL s');
      [| exact (Hrel eq_refl)].
    revert Hrun. generalize (fresh_pointer (st_heap s)) Hnn.
    intros dev Hdev.
    match goal with |- ?m ?s1 = _ -> _ =>
      generalize s1; intros s0 Hrun;
      cut (returns m (released dev)); [intros Hm; exact (Hm _ _ _ Hrun)|]
    end.
    repeat first
      [ apply blz_connect_exit_released; exact Hdev
      | apply blz_connect_subscribed_released; exact Hdev
      | apply free_then_null_released; exact Hdev
      | apply returns_bind; intros ?
      | progress cbv zeta
      | match goal with
        | |- returns (if ?b then _ else _) _ => destruct b
        end ].
  - change (NULL =? NULL)%N with true in Hrun. cbv iota in Hrun.
    apply bind_Done_inv in Hrun as (? & ? & Hlog & Hrun).
    injection Hlog as _ <-. injection Hrun as <-.
    cbn [st_heap]. apply fresh_pointer_fresh.
Qed.

(** ** Subscribe, then connect *)

Lemma blz_connect_subscribed_order_at
    fuel ctx dev macstr atype cb conn_status s d o s' :
  st_heap s !! dev = Some (O_dev d) ->
  blz_connect_subscribed fuel ctx dev macstr atype cb conn_status s = (o, s') ->
  exists t,
    st_trace s' = st_trace s ++ t
    /\ (Forall (fun e => quiet e = true) t
        \/ subscribed_first_at (dev_path d) dev t).
Proof.
  intros Hdev. unfold blz_connect_subscribed.
  rewrite (bind_done _ _ _ _ _ (load_dev_live _ _ _ Hdev)).
  match goal with |- ?m s = _ -> _ =>
    assert (Hem : emits m
              (fun t => Forall (fun e => quiet e = true) t
                        \/ subscribed_first_at (dev_path d) dev t));
      [| intros Hrun; exact (Hem _ _ _ Hrun)]
  end.
  apply emits_after_nothing;
    [apply emits_load_ctx; reflexivity | | left; constructor]. intros _.
  apply emits_bind_call. intros rs. cbv zeta.
  destruct (ret rs <? 0) eqn:Hret.
  - eapply emits_weaken with (P := Forall (fun e => quiet e = true)).
    + unfold blz_connect_exit. emits_all.
    + intros t Ht. left. constructor; [reflexivity | exact Ht].
  - eapply emits_weaken with (P := Forall (fun _ => True)).
    + apply emits_bind_all; [anything|]. intros _.
      apply emits_bind_all; [|intros r; apply blz_connect_finish_anything].
      destruct (conn_status =? 0); [anything|].
      destruct (conn_status =? -1); [|anything].
      eapply emits_weaken; [apply blz_connect_by_address_starts_with_entry|].
      intros t _. apply Forall_true. auto.
    + intros t _. right. exists []. do 2 eexists.
      split; [reflexivity|]. split; [|constructor].
      apply Z.ltb_ge in Hret. exact Hret.
Qed.

(** A branch of [blz_connect] that ends without a subscription. *)
Lemma quiet_branch {A} (m : M (state W) A) path dev s s0 t0 :
  emits m (Forall (fun e => quiet e = true)) ->
  st_trace s0 = st_trace s ++ t0 ->
  Forall (fun e => quiet e = true) t0 ->
  Forall (fun e => quiet e = true) (new_events s (snd (m s0)))
  \/ subscribed_first_at path dev (new_events s (snd (m s0))).
Proof.
  intros Hm Hs0 Ht0. left.
  exact (emits_after_all m _ s s0 t0 Hm Hs0 Ht0).
Qed.

(** A branch of [blz_connect] that goes on to the subscription. *)
Lemma subscribed_branch
    fuel ctx dev macstr atype cb conn_status path d s s0 t0 :
  st_heap s0 !! dev = Some (O_dev d) ->
  dev_path d = path ->
  st_trace s0 = st_trace s ++ t0 ->
  Forall (fun e => quiet e = true) t0 ->
  let t := new_events s
             (snd (blz_connect_subscribed fuel ctx dev macstr atype cb
                     conn_status s0)) in
  Forall (fun e => quiet e = true) t \/ subscribed_first_at path dev t.
Proof.
  intros Hdev <- Hs0 Ht0 t. subst t.
  destruct (blz_connect_subscribed fuel ctx dev macstr atype cb conn_status s0)
    as [o s'] eqn:Hrun.
  destruct (blz_connect_subscribed_order_at _ _ _ _ _ _ _ _ _ _ _ Hdev Hrun)
    as (t & Ht & Horder).
  cbn [snd].
  rewrite (new_events_app s s' (t0 ++ t))
    by (rewrite Ht, Hs0, <- app_assoc; reflexivity).
  destruct Horder as [Hq | (t1 & rs & t2 & -> & Hok & Hq)].
  - left. apply Forall_app. split; assumption.
  - right. exists (t0 ++ t1), rs, t2. rewrite <- app_assoc.
    split; [reflexivity|]. split; [exact Hok|].
    apply Forall_app. split; assumption.
Qed.

Ltac quiet_exit :=
  match goal with
  | |- _ \/ subscribed_first_at _ _ (new_events ?s (snd (?m ?s0))) =>
      eapply (quiet_branch m _ _ s s0);
        [ unfold blz_connect_exit; emits_all
        | cbn [st_trace]; rewrite <- ?app_assoc; reflexivity
        | repeat constructor ]
  end.

Ltac go_on_subscribed :=
  eapply subscribed_branch;
    [ cbn [st_heap]; apply lookup_insert_eq
    | reflexivity
    | cbn [st_trace]; rewrite <- ?app_assoc; reflexivity
    | repeat constructor ].

(** With the handle allocated and the context in place, the events of
    [blz_connect] are quiet up to the accepted subscription for the handle
    at the path of the device, or quiet altogether. *)
Lemma blz_connect_order_at fuel ctx macstr atype cb s c w1 :
  let dev := fresh_pointer (st_heap s) in
  let path := format_dev_path (ctx_path c) (blz_string_to_mac macstr) in
  w_calloc (st_world s) = (true, w1) ->
  st_heap s !! ctx = Some (O_ctx c) ->
  Forall (fun e => quiet e = true)
    (new_events s (snd (blz_connect fuel ctx macstr atype cb s)))
  \/ subscribed_first_at path dev
       (new_events s (snd (blz_connect fuel ctx macstr atype cb s))).
Proof.
  intros dev path Hcalloc Hctx.
  pose proof (fresh_pointer_other _ _ _ Hctx) as Hne. fold dev in Hne.
  connect_prefix Hcalloc Hctx Hne. fold dev. fold path.
  destruct (_ || _); [quiet_exit|].
  erewrite bind_done
    by (apply update_dev_live; cbn [st_heap]; apply lookup_insert_eq).
  cbn [st_heap st_world st_trace]. rewrite !insert_insert_eq.
  destruct (w_respond w1 (sd_bus_get_property_trivial "org.bluez" path
                            "org.bluez.Device1" "Connected"))
    as [rs1 w2] eqn:Hq.
  erewrite bind_done by (apply call_run; cbn [st_world]; exact Hq).
  cbn [st_heap st_world st_trace].
  destruct (_ && _); [quiet_exit|].
  destruct (_ =? 1).
  - rewrite (bind_done (LOG LOG_NOTI _ _) _ _ _ _ (emit_run _ _)).
    cbn [st_heap st_world st_trace].
    destruct (w_respond w2 (sd_bus_get_property_trivial "org.bluez" path
                              "org.bluez.Device1" "ServicesResolved"))
      as [rs2 w3] eqn:Hq2.
    erewrite bind_done by (apply call_run; cbn [st_world]; exact Hq2).
    cbn [st_heap st_world st_trace].
    destruct (ret rs2 <? 0); [quiet_exit|].
    erewrite bind_done
      by (apply update_dev_live; cbn [st_heap]; apply lookup_insert_eq).
    cbn [st_heap st_world st_trace]. rewrite !insert_insert_eq.
    go_on_subscribed.
  - destruct (_ && _); [quiet_exit|]. go_on_subscribed.
Qed.

(** When the handle cannot be allocated, or the context is not one,
    [blz_connect] ends before it uses the bus. *)
Lemma blz_connect_quiet_without_context fuel ctx macstr atype cb s :
  fst (w_calloc (st_world s)) = false
  \/ (forall c, st_heap s !! ctx <> Some (O_ctx c)) ->
  Forall (fun e => quiet e = true)
    (new_events s (snd (blz_connect fuel ctx macstr atype cb s))).
Proof.
  destruct (w_calloc (st_world s)) as [ok w1] eqn:Hcalloc. cbn [fst].
  destruct ok.
  - intros [Hok | Hbad]; [discriminate|].
    unfold blz_connect. cbv zeta.
    rewrite (bind_done _ _ _ _ _ (calloc_ok _ _ _ Hcalloc)).
    replace (fresh_pointer _ =? NULL)%N with false
      by (symmetry; apply N.eqb_neq, fresh_pointer_not_null).
    do 3 (erewrite bind_done
            by (apply update_dev_live; cbn [st_heap]; apply lookup_insert_eq)).
    cbn [st_heap st_world st_trace]. rewrite !insert_insert_eq.
    match goal with |- context [bind (load_ctx ctx) ?k ?s3] =>
      assert (Hload : bind (load_ctx ctx) k s3 = (Fault (Bad_pointer ctx), s3))
    end.
    { unfold bind, load_ctx. cbn [st_heap].
      destruct (decide (ctx = fresh_pointer (st_heap s))) as [Heq | Hne].
      - rewrite Heq at 1. rewrite lookup_insert_eq. reflexivity.
      - rewrite lookup_insert_ne
          by (intros Heq; apply Hne; symmetry; exact Heq).
        destruct (st_heap s !! ctx) as [[c| | | |]|] eqn:Hctx;
          try reflexivity.
        exfalso. exact (Hbad c eq_refl). }
    rewrite Hload. cbn [snd].
    rewrite (new_events_app s _ [Ev_calloc (fresh_pointer (st_heap s))])
      by reflexivity.
    repeat constructor.
  - intros _. unfold blz_connect, bind, calloc. cbv zeta.
    rewrite Hcalloc. cbn.
    rewrite (new_events_app s _ [Ev_calloc NULL;
                                 Ev_log LOG_ERR "blz_dev: alloc failed" []])
      by (cbn [st_trace]; rewrite <- app_assoc; reflexivity).
    repeat constructor.
Qed.

(** C4: in every execution of [blz_connect], whatever it ends with, each
    connect request ([Connect] on the device or the asynchronous
    [ConnectDevice]) comes after the subscription to the property changes
    of the device object: an [sd_bus_match_signal] for "PropertiesChanged"
    on the object path of the device, built from the path of the adapter
    and the address, with the handler [blz_connect_cb] and the handle just
    allocated as its user data, which the bus has accepted. *)
Theorem subscription_precedes_connect_call
    fuel ctx macstr atype cb s pre e post :
  new_events s (snd (blz_connect fuel ctx macstr atype cb s)) = pre ++ e :: post ->
  is_connect_call e = true ->
  exists c rs,
    st_heap s !! ctx = Some (O_ctx c)
    /\ Ev_call
         (sd_bus_match_signal "org.bluez"
            (format_dev_path (ctx_path c) (blz_string_to_mac macstr))
            "org.freedesktop.DBus.Properties" "PropertiesChanged"
            blz_connect_cb_fn (fresh_pointer (st_heap s))) rs
       ∈ pre
    /\ 0 <= ret rs.
Proof.
  intros Hsplit He.
  assert (Hnot_quiet :
    ~ Forall (fun e => quiet e = true)
        (new_events s (snd (blz_connect fuel ctx macstr atype cb s)))).
  { rewrite Hsplit. intros Hq. apply Forall_app in Hq as [_ Hq].
    apply Forall_cons in Hq as [Hq _].
    apply quiet_not_connect_call in Hq. congruence. }
  destruct (w_calloc (st_world s)) as [ok w1] eqn:Hcalloc.
  destruct ok.
  2:{ exfalso. apply Hnot_quiet. apply blz_connect_quiet_without_context.
      left. rewrite Hcalloc. reflexivity. }
  destruct (st_heap s !! ctx) as [[c| | | |]|] eqn:Hctx;
    try (exfalso; apply Hnot_quiet; apply blz_connect_quiet_without_context;
         right; intros c'; rewrite Hctx; discriminate).
  destruct (blz_connect_order_at fuel ctx macstr atype cb s c w1 Hcalloc Hctx)
    as [Hq | (t1 & rs & t2 & Heq & Hok & Hq)]; [contradiction|].
  exists c, rs. split; [reflexivity|]. split; [|exact Hok].
  rewrite Hsplit in Heq. symmetry in Heq.
  apply split_at_two_places in Heq as [Hin | [Hin | ->]].
  - exact Hin.
  - rewrite Forall_forall in Hq. apply Hq in Hin.
    apply quiet_not_connect_call in Hin. congruence.
  - discriminate He.
Qed.

(** ** Address-type fallback *)

Lemma quiet_no_step e : quiet e = true -> connect_step_of e = None.
Proof.
  unfold quiet, connect_step_of, is_attempt. intros Hq.
  apply andb_prop in Hq as [Hq _]. apply andb_prop in Hq as [Ha Hc].
  destruct (attempt_of e); [discriminate|].
  destruct e as [| rq rs | | | | | | |]; try reflexivity.
  destruct rq; try reflexivity. discriminate.
Qed.

Lemma Forall_quiet_no_step t :
  Forall (fun e => quiet e = true) t ->
  Forall (fun e => connect_step_of e = None) t.
Proof. intros Ht. eapply Forall_impl; [exact Ht | exact quiet_no_step]. Qed.

Lemma connect_steps_app t1 t2 :
  connect_steps (t1 ++ t2) = connect_steps t1 ++ connect_steps t2.
Proof. apply omap_app. Qed.

Lemma connect_steps_cons e t :
  connect_steps (e :: t)
  = match connect_step_of e with
    | Some st => st :: connect_steps t
    | None => connect_steps t
    end.
Proof. reflexivity. Qed.

Lemma connect_steps_none t :
  Forall (fun e => connect_step_of e = None) t -> connect_steps t = [].
Proof.
  induction 1 as [|e t He _ IH]; [reflexivity|].
  rewrite connect_steps_cons, He. exact IH.
Qed.

Lemma follows_plan_nil plan : follows_plan plan [] = true.
Proof. destruct plan; reflexivity. Qed.

Ltac stepless :=
  repeat first
    [ eapply emits_weaken;
        [apply blz_loop_timeout_quiet | apply Forall_quiet_no_step]
    | eapply emits_weaken;
        [apply blz_disconnect_quiet | apply Forall_quiet_no_step]
    | emits_all_step ].

Lemma emits_stepless_then {A B} (n : M (state W) B) (k : B -> M (state W) A)
    (R : list connect_step -> Prop) :
  emits n (Forall (fun e => connect_step_of e = None)) ->
  (forall b, emits (k b) (fun t => R (connect_steps t))) ->
  R [] ->
  emits (bind n k) (fun t => R (connect_steps t)).
Proof.
  intros Hn Hk HR. eapply emits_bind; [exact Hn | exact Hk | |].
  - intros t1 H1. rewrite (connect_steps_none _ H1). exact HR.
  - intros t1 t2 H1 H2.
    rewrite connect_steps_app, (connect_steps_none _ H1). exact H2.
Qed.

Lemma emits_then_stepless {A B} (n : M (state W) B) (k : B -> M (state W) A)
    (R : list connect_step -> Prop) :
  emits n (fun t => R (connect_steps t)) ->
  (forall b, emits (k b) (Forall (fun e => connect_step_of e = None))) ->
  emits (bind n k) (fun t => R (connect_steps t)).
Proof.
  intros Hn Hk. eapply emits_bind; [exact Hn | exact Hk | |].
  - auto.
  - intros t1 t2 H1 H2.
    rewrite connect_steps_app, (connect_steps_none _ H2), app_nil_r. exact H1.
Qed.

Lemma emits_stepless {A} (m : M (state W) A) (R : list connect_step -> Prop) :
  emits m (Forall (fun e => connect_step_of e = None)) ->
  R [] ->
  emits m (fun t => R (connect_steps t)).
Proof.
  intros Hm HR. eapply emits_weaken; [exact Hm|].
  intros t Ht. rewrite (connect_steps_none _ Ht). exact HR.
Qed.

(** The request of [blz_connect_new], if it gets as far as sending one,
    carries the type it has announced. *)
Lemma blz_connect_new_steps fuel dev macstr addr_public :
  emits (blz_connect_new fuel dev macstr addr_public)
    (fun t =>
       connect_steps t = [Announced (addr_type_name addr_public)]
       \/ connect_steps t = [Announced (addr_type_name addr_public);
                             Issued (Some (addr_type_name addr_public))]).
Proof.
  set (ty := addr_type_name addr_public).
  set (R := fun l : list connect_step => l = [] \/ l = [Issued (Some ty)]).
  unfold blz_connect_new. cbv zeta. fold ty.
  eapply emits_bind with
    (P1 := fun t => connect_steps t = [Announced ty])
    (P2 := fun t => R (connect_steps t)).
  - apply emits_emit. reflexivity.
  - intros _.
    apply (emits_stepless_then _ _ R); [stepless | | left; reflexivity].
    intros d.
    apply (emits_stepless_then _ _ R); [stepless | | left; reflexivity].
    intros c.
    apply (emits_stepless_then _ _ R); [stepless | | left; reflexivity].
    intros rs1.
    destruct (ret rs1 <? 0);
      [apply (emits_stepless _ R); [stepless | left; reflexivity]|].
    apply (emits_stepless_then _ _ R); [stepless | | left; reflexivity].
    intros rs2.
    destruct (ret rs2 <? 0);
      [apply (emits_stepless _ R); [stepless | left; reflexivity]|].
    apply (emits_stepless_then _ _ R); [stepless | | left; reflexivity].
    intros rs3.
    destruct (ret rs3 <? 0);
      [apply (emits_stepless _ R); [stepless | left; reflexivity]|].
    apply (emits_stepless_then _ _ R); [stepless | | left; reflexivity].
    intros rs4.
    destruct (ret rs4 <? 0);
      [apply (emits_stepless _ R); [stepless | left; reflexivity]|].
    apply (emits_stepless_then _ _ R); [stepless | | left; reflexivity].
    intros rs5.
    destruct (ret rs5 <? 0);
      [apply (emits_stepless _ R); [stepless | left; reflexivity]|].
    apply (emits_stepless_then _ _ R); [stepless | | left; reflexivity].
    intros _.
    apply emits_bind_call. intros rs.
    eapply emits_weaken with
      (P := Forall (fun e => connect_step_of e = None)); [stepless|].
    intros t Ht. right.
    rewrite connect_steps_cons, (connect_steps_none _ Ht). reflexivity.
  - intros t1 ->. left. reflexivity.
  - intros t1 t2 H1 [H2 | H2]; rewrite connect_steps_app, H1, H2;
      [left | right]; reflexivity.
Qed.

Lemma blz_connect_by_address_plan fuel dev macstr atype :
  emits (blz_connect_by_address fuel dev macstr atype)
    (fun t => follows_plan (attempt_plan atype) (connect_steps t) = true).
Proof.
  unfold blz_connect_by_address.
  eapply emits_bind with
    (P1 := fun t =>
       connect_steps t = [Announced (addr_type_name (is_public atype))]
       \/ connect_steps t = [Announced (addr_type_name (is_public atype));
                             Issued (Some (addr_type_name (is_public atype)))])
    (P2 := fun t =>
       connect_steps t = []
       \/ (atype = BLZ_ADDR_UNKNOWN
           /\ (connect_steps t = [Announced "public"]
               \/ connect_steps t = [Announced "public";
                                     Issued (Some "public")]))).
  - destruct atype; apply blz_connect_new_steps.
  - intros r. destruct ((r <? 0) && is_unknown atype) eqn:Hretry.
    + apply andb_prop in Hretry as [_ Hu].
      destruct atype; try discriminate.
      eapply emits_weaken; [apply blz_connect_new_steps|].
      cbn. auto.
    + apply emits_pure. auto.
  - intros t1 [-> | ->]; destruct atype; reflexivity.
  - intros t1 t2 H1 H2. rewrite connect_steps_app.
    destruct H2 as [-> | [-> [-> | ->]]];
      destruct H1 as [-> | ->]; try destruct atype; reflexivity.
Qed.

Lemma blz_connect_exit_stepless r dev :
  emits (blz_connect_exit r dev)
    (Forall (fun e => connect_step_of e = None)).
Proof. unfold blz_connect_exit. stepless. Qed.

Lemma blz_connect_finish_stepless fuel ctx dev cb (r : Z) :
  emits
    (if r <? 0 then blz_connect_exit r dev
     else blz_connect_resolved fuel ctx dev cb)
    (Forall (fun e => connect_step_of e = None)).
Proof. unfold blz_connect_resolved, blz_connect_exit. stepless. Qed.

Lemma blz_connect_subscribed_plan fuel ctx dev macstr atype cb conn_status :
  emits
    (blz_connect_subscribed fuel ctx dev macstr atype cb conn_status)
    (fun t => follows_plan (attempt_plan atype) (connect_steps t) = true).
Proof.
  set (R := fun l => follows_plan (attempt_plan atype) l = true).
  unfold blz_connect_subscribed.
  apply (emits_stepless_then _ _ R); [stepless | | apply follows_plan_nil].
  intros d.
  apply (emits_stepless_then _ _ R); [stepless | | apply follows_plan_nil].
  intros _.
  apply (emits_stepless_then _ _ R); [stepless | | apply follows_plan_nil].
  intros rs. cbv zeta. destruct (ret rs <? 0).
  { apply (emits_stepless _ R); [|apply follows_plan_nil].
    apply emits_bind_all; [stepless|]. intros _.
    apply blz_connect_exit_stepless. }
  apply (emits_stepless_then _ _ R); [stepless | | apply follows_plan_nil].
  intros _.
  apply (emits_then_stepless _ _ R).
  - destruct (conn_status =? 0).
    { apply (emits_stepless _ R); [|apply follows_plan_nil].
      unfold blz_connect_known. stepless. }
    destruct (conn_status =? -1).
    + apply blz_connect_by_address_plan.
    + apply (emits_stepless _ R); [stepless | apply follows_plan_nil].
  - intros r. apply blz_connect_finish_stepless.
Qed.

Lemma blz_connect_plan fuel ctx macstr atype cb :
  emits (blz_connect fuel ctx macstr atype cb)
    (fun t => follows_plan (attempt_plan atype) (connect_steps t) = true).
Proof.
  set (R := fun l => follows_plan (attempt_plan atype) l = true).
  unfold blz_connect. cbv zeta.
  apply (emits_stepless_then _ _ R); [stepless | | apply follows_plan_nil].
  intros dev.
  destruct (dev =? NULL)%N.
  { apply (emits_stepless _ R); [stepless | apply follows_plan_nil]. }
  do 4 (apply (emits_stepless_then _ _ R);
        [stepless | intros ? | apply follows_plan_nil]).
  destruct (_ || _).
  { apply (emits_stepless _ R); [stepless | apply follows_plan_nil]. }
  do 2 (apply (emits_stepless_then _ _ R);
        [stepless | intros ? | apply follows_plan_nil]).
  destruct (_ && _).
  { apply (emits_stepless _ R); [|apply follows_plan_nil].
    apply emits_bind_all; [stepless|]. intros _.
    apply blz_connect_exit_stepless. }
  destruct (_ =? 1).
  { do 2 (apply (emits_stepless_then _ _ R);
          [stepless | intros ? | apply follows_plan_nil]).
    destruct (ret _ <? 0).
    - apply (emits_stepless _ R); [|apply follows_plan_nil].
      apply emits_bind_all; [stepless|]. intros _.
      apply blz_connect_exit_stepless.
    - apply (emits_stepless_then _ _ R);
        [stepless | intros ? | apply follows_plan_nil].
      apply blz_connect_subscribed_plan. }
  destruct (_ && _).
  - apply (emits_stepless _ R);
      [apply blz_connect_exit_stepless | apply follows_plan_nil].
  - apply blz_connect_subscribed_plan.
Qed.

Lemma bind_bind_done {A B C} (m : M (state W) A) (k1 : A -> M (state W) B)
    (k2 : B -> M (state W) C) s a s1 :
  m s = (Done a, s1) -> bind (bind m k1) k2 s = bind (k1 a) k2 s1.
Proof. intros Hm. unfold bind. rewrite Hm. reflexivity. Qed.

Lemma emits_after {A} (m : M (state W) A) (P : list event -> Prop) s s0 t0 :
  emits m P ->
  st_trace s0 = st_trace s ++ t0 ->
  exists t, new_events s (snd (m s0)) = t0 ++ t /\ P t.
Proof.
  intros Hm Hs0. destruct (m s0) as [o s'] eqn:Hrun.
  destruct (Hm _ _ _ Hrun) as (t & Ht & HP). cbn [snd].
  exists t. split; [|exact HP].
  apply new_events_app. rewrite Ht, Hs0, <- app_assoc. reflexivity.
Qed.

Lemma bind_assoc {A B C} (m : M (state W) A) (k1 : A -> M (state W) B)
    (k2 : B -> M (state W) C) s :
  bind (bind m k1) k2 s = bind m (fun a => bind (k1 a) k2) s.
Proof. unfold bind. destruct (m s) as [[a|f|] s1]; reflexivity. Qed.

Lemma bind_trace_extends {A B} (m : M (state W) A) (k : A -> M (state W) B) s :
  (forall a, emits (k a) (Forall (fun _ => True))) ->
  exists t, st_trace (snd (bind m k s)) = st_trace (snd (m s)) ++ t.
Proof.
  intros Hk. unfold bind. destruct (m s) as [[a|f|] s1]; cbn [snd].
  - destruct (k a s1) as [o s'] eqn:Hrun.
    destruct (Hk a _ _ _ Hrun) as (t & Ht & _). exists t. exact Ht.
  - exists []. rewrite app_nil_r. reflexivity.
  - exists []. rewrite app_nil_r. reflexivity.
Qed.

(** [blz_connect] for a device BlueZ does not know, up to the connect by
    address: the subscription is accepted and its slot stored. *)
Lemma blz_connect_unknown_subscribed
    fuel ctx macstr atype cb s w1 c rs1 w2 rs2 w3 :
  let dev := fresh_pointer (st_heap s) in
  let path := format_dev_path (ctx_path c) (blz_string_to_mac macstr) in
  w_calloc (st_world s) = (true, w1) ->
  st_heap s !! ctx = Some (O_ctx c) ->
  Z.of_nat (String.length path) < DBUS_PATH_MAX_LEN ->
  w_respond w1 (device_query path "Connected") = (rs1, w2) ->
  ret rs1 < 0 ->
  err_name (out_error rs1) = SD_BUS_ERROR_UNKNOWN_OBJECT ->
  w_respond w2 (device_subscription path dev) = (rs2, w3) ->
  0 <= ret rs2 ->
  blz_connect fuel ctx macstr atype cb s =
    (r <- blz_connect_by_address fuel dev macstr atype ;;
     if r <? 0 then blz_connect_exit r dev
     else blz_connect_resolved fuel ctx dev cb)
      {| st_world := w3;
         st_heap := <[dev := O_dev (unknown_device_handle ctx path
                                      (out_slot rs2))]> (st_heap s);
         st_trace := st_trace s
           ++ [Ev_calloc dev;
               Ev_call (device_query path "Connected") rs1;
               Ev_call (device_subscription path dev) rs2] |}.
Proof.
  intros dev path Hcalloc Hctx Hlen Hq Hneg Hname Hsub Hok.
  assert (Hne : ctx <> dev).
  { intros ->. subst dev. rewrite fresh_pointer_fresh in Hctx. discriminate. }
  rewrite (blz_connect_unknown_object fuel ctx macstr atype cb s
             w1 c rs1 w2 Hcalloc Hctx Hlen Hq Hneg Hname).
  fold dev path. unfold blz_connect_subscribed.
  erewrite bind_done
    by (apply load_dev_live; cbn [st_heap]; apply lookup_insert_eq).
  erewrite bind_done
    by (apply load_ctx_live; cbn [st_heap];
        rewrite lookup_insert_ne
          by (intros Heq; apply Hne; symmetry; exact Heq);
        exact Hctx).
  erewrite bind_done by (apply call_run; cbn [st_world]; exact Hsub).
  cbv zeta.
  replace (ret rs2 <? 0) with false by (symmetry; apply Z.ltb_ge; exact Hok).
  erewrite bind_done
    by (apply update_dev_live; cbn [st_heap]; apply lookup_insert_eq).
  cbn [st_heap st_world st_trace]. rewrite !insert_insert_eq.
  change (-1 =? 0) with false. change (-1 =? -1) with true. cbv iota.
  rewrite <- !app_assoc. reflexivity.
Qed.

(** [blz_connect_new] when BlueZ lets it build the message: the
    [ConnectDevice] request goes on the bus with the address and the
    address type asked for. *)
Lemma blz_connect_new_issues
    fuel dev macstr addr_public s d c a1 v1 a2 v2 a3 v3 a4 v4 a5 v5 a6 v6 :
  st_heap s !! dev = Some (O_dev d) ->
  st_heap s !! dev_ctx d = Some (O_ctx c) ->
  w_respond (st_world s)
    (sd_bus_message_new_method_call "org.bluez" (ctx_path c)
       "org.bluez.Adapter1" "ConnectDevice") = (a1, v1) ->
  0 <= ret a1 ->
  w_respond v1 (sd_bus_message_open_container "a" "{sv}") = (a2, v2) ->
  0 <= ret a2 ->
  w_respond v2 (msg_append_property "Address" macstr) = (a3, v3) ->
  0 <= ret a3 ->
  w_respond v3 (msg_append_property "AddressType"
                  (addr_type_name addr_public)) = (a4, v4) ->
  0 <= ret a4 ->
  w_respond v4 sd_bus_message_close_container = (a5, v5) ->
  0 <= ret a5 ->
  w_respond v5
    (sd_bus_call_async (connect_device c macstr addr_public)
       connect_new_cb_fn dev (CONNECT_NEW_TIMEOUT * 1000000)) = (a6, v6) ->
  exists t',
    st_trace (snd (blz_connect_new fuel dev macstr addr_public s))
    = st_trace s
      ++ [attempt_entry macstr addr_public;
          Ev_call (sd_bus_message_new_method_call "org.bluez" (ctx_path c)
                     "org.bluez.Adapter1" "ConnectDevice") a1;
          Ev_call (sd_bus_message_open_container "a" "{sv}") a2;
          Ev_call (msg_append_property "Address" macstr) a3;
          Ev_call (msg_append_property "AddressType"
                     (addr_type_name addr_public)) a4;
          Ev_call sd_bus_message_close_container a5;
          Ev_call (sd_bus_call_async (connect_device c macstr addr_public)
                     connect_new_cb_fn dev (CONNECT_NEW_TIMEOUT * 1000000)) a6]
      ++ t'.
Proof.
  intros Hdev Hctx H1 Hok1 H2 Hok2 H3 Hok3 H4 Hok4 H5 Hok5 H6.
  assert (Hne : dev_ctx d <> dev).
  { intros Heq. rewrite Heq, Hdev in Hctx. discriminate. }
  unfold blz_connect_new. cbv zeta.
  rewrite (bind_done (LOG LOG_INF _ _) _ _ _ _ (emit_run _ _)).
  erewrite bind_done by (apply load_dev_live; cbn [st_heap]; exact Hdev).
  erewrite bind_done by (apply load_ctx_live; cbn [st_heap]; exact Hctx).
  step_call H1.
  replace (ret a1 <? 0) with false by (symmetry; apply Z.ltb_ge; exact Hok1).
  step_call H2.
  replace (ret a2 <? 0) with false by (symmetry; apply Z.ltb_ge; exact Hok2).
  step_call H3.
  replace (ret a3 <? 0) with false by (symmetry; apply Z.ltb_ge; exact Hok3).
  step_call H4.
  replace (ret a4 <? 0) with false by (symmetry; apply Z.ltb_ge; exact Hok4).
  step_call H5.
  replace (ret a5 <? 0) with false by (symmetry; apply Z.ltb_ge; exact Hok5).
  erewrite bind_done by (apply update_dev_live; cbn [st_heap]; exact Hdev).
  cbn [st_heap st_world st_trace].
  match goal with |- context [bind (call ?rq) ?k ?s0] =>
    destruct (bind_trace_extends (call rq) k s0) as [t' Ht'];
      [ intros rs; anything | exists t'; rewrite Ht' ]
  end.
  erewrite call_run by (cbn [st_world]; exact H6).
  cbn [snd st_trace]. unfold attempt_entry.
  rewrite <- !app_assoc. reflexivity.
Qed.

(** C1, as the code has it: with the address type unspecified the first
    connect by address uses "random" and the one retry uses "public".
    (1) Whatever happens, the attempts of a call of [blz_connect] are an
    initial part of the plan for its address type ("random" then "public"
    for [BLZ_ADDR_UNKNOWN], the one given type otherwise), so there is
    never a third attempt, and never a second one when the caller gave a
    type; and what goes on the bus follows the same plan: a [ConnectDevice]
    request comes right after the announcement of its attempt and carries
    the "AddressType" announced.
    For a call in which the handle is allocated, BlueZ answers the query of
    "Connected" with [UnknownObject] and accepts the subscription:
    (2) the first attempt is made right after the subscription, with the
    first type of the plan; (3) when BlueZ lets the message be built, the
    [ConnectDevice] request is put on the bus with the address given and
    that type; (4) when the first attempt returns [r], [blz_connect] goes on
    with the one retry, with "public", exactly when [r] is negative and the
    type is unspecified, and the outcome of the retry then decides; in that
    case the attempts of the whole call are "random" and "public", otherwise
    it is the one attempt. *)
Theorem blz_connect_address_type_fallback fuel ctx macstr atype cb s :
  attempts (new_events s (snd (blz_connect fuel ctx macstr atype cb s)))
    `prefix_of` attempt_plan atype
  /\ follows_plan (attempt_plan atype)
       (connect_steps
          (new_events s (snd (blz_connect fuel ctx macstr atype cb s))))
     = true
  /\ (forall w1 c rs1 w2 rs2 w3,
        let dev := fresh_pointer (st_heap s) in
        let path := format_dev_path (ctx_path c) (blz_string_to_mac macstr) in
        let query := sd_bus_get_property_trivial "org.bluez" path
                       "org.bluez.Device1" "Connected" in
        let subscribe := sd_bus_match_signal "org.bluez" path
                           "org.freedesktop.DBus.Properties"
                           "PropertiesChanged" blz_connect_cb_fn dev in
        let first := is_public atype in
        let s3 :=
          {| st_world := w3;
             st_heap := <[dev := O_dev (unknown_device_handle ctx path
                                          (out_slot rs2))]> (st_heap s);
             st_trace := st_trace s
               ++ [Ev_calloc dev; Ev_call query rs1;
                   Ev_call subscribe rs2] |} in
        w_calloc (st_world s) = (true, w1) ->
        st_heap s !! ctx = Some (O_ctx c) ->
        Z.of_nat (String.length path) < DBUS_PATH_MAX_LEN ->
        w_respond w1 query = (rs1, w2) ->
        ret rs1 < 0 ->
        err_name (out_error rs1) = SD_BUS_ERROR_UNKNOWN_OBJECT ->
        w_respond w2 subscribe = (rs2, w3) ->
        0 <= ret rs2 ->
        (exists t',
           new_events s (snd (blz_connect fuel ctx macstr atype cb s))
           = [Ev_calloc dev; Ev_call query rs1; Ev_call subscribe rs2;
              attempt_entry macstr first] ++ t'
           /\ hd_error (attempt_plan atype) = Some (addr_type_name first))
        /\ (forall a1 v1 a2 v2 a3 v3 a4 v4 a5 v5 a6 v6,
              w_respond w3
                (sd_bus_message_new_method_call "org.bluez" (ctx_path c)
                   "org.bluez.Adapter1" "ConnectDevice") = (a1, v1) ->
              0 <= ret a1 ->
              w_respond v1 (sd_bus_message_open_container "a" "{sv}")
              = (a2, v2) ->
              0 <= ret a2 ->
              w_respond v2 (msg_append_property "Address" macstr) = (a3, v3) ->
              0 <= ret a3 ->
              w_respond v3 (msg_append_property "AddressType"
                              (addr_type_name first)) = (a4, v4) ->
              0 <= ret a4 ->
              w_respond v4 sd_bus_message_close_container = (a5, v5) ->
              0 <= ret a5 ->
              w_respond v5
                (sd_bus_call_async (connect_device c macstr first)
                   connect_new_cb_fn dev (CONNECT_NEW_TIMEOUT * 1000000))
              = (a6, v6) ->
              exists t',
                new_events s (snd (blz_connect fuel ctx macstr atype cb s))
                = [Ev_calloc dev; Ev_call query rs1; Ev_call subscribe rs2;
                   attempt_entry macstr first;
                   Ev_call (sd_bus_message_new_method_call "org.bluez"
                              (ctx_path c) "org.bluez.Adapter1"
                              "ConnectDevice") a1;
                   Ev_call (sd_bus_message_open_container "a" "{sv}") a2;
                   Ev_call (msg_append_property "Address" macstr) a3;
                   Ev_call (msg_append_property "AddressType"
                              (addr_type_name first)) a4;
                   Ev_call sd_bus_message_close_container a5;
                   Ev_call (sd_bus_call_async (connect_device c macstr first)
                              connect_new_cb_fn dev
                              (CONNECT_NEW_TIMEOUT * 1000000)) a6]
                  ++ t')
        /\ (forall r s4,
              blz_connect_new fuel dev macstr first s3 = (Done r, s4) ->
              blz_connect fuel ctx macstr atype cb s =
                (r' <- (if (r <? 0) && is_unknown atype
                        then blz_connect_new fuel dev macstr true
                        else pure r) ;;
                 if r' <? 0 then blz_connect_exit r' dev
                 else blz_connect_resolved fuel ctx dev cb) s4
              /\ attempts
                   (new_events s (snd (blz_connect fuel ctx macstr atype cb s)))
                 = if (r <? 0) && is_unknown atype
                   then ["random"; "public"]
                   else [addr_type_name first])).
Proof.
  split; [|split].
  - apply (emits_new_events _ (fun t => attempts t `prefix_of` attempt_plan atype)).
    apply blz_connect_attempts.
  - apply (emits_new_events _
             (fun t => follows_plan (attempt_plan atype) (connect_steps t)
                       = true)).
    apply blz_connect_plan.
  - intros w1 c rs1 w2 rs2 w3 dev path query subscribe first s3
      Hcalloc Hctx Hlen Hq Hneg Hname Hsub Hok.
    assert (Hne : ctx <> dev).
    { intros ->. subst dev. rewrite fresh_pointer_fresh in Hctx. discriminate. }
    pose proof (blz_connect_unknown_subscribed fuel ctx macstr atype cb s
                  w1 c rs1 w2 rs2 w3 Hcalloc Hctx Hlen Hq Hneg Hname Hsub Hok)
      as Hrun.
    cbv zeta in Hrun. fold dev path in Hrun.
    change (device_query path "Connected") with query in Hrun.
    change (device_subscription path dev) with subscribe in Hrun.
    fold s3 in Hrun.
    assert (Hby : blz_connect_by_address fuel dev macstr atype
                  = (r <- blz_connect_new fuel dev macstr first ;;
                     if (r <? 0) && is_unknown atype then
                       blz_connect_new fuel dev macstr (negb first)
                     else pure r)).
    { unfold blz_connect_by_address, first. destruct atype; reflexivity. }
    assert (Hdev3 : st_heap s3 !! dev
                    = Some (O_dev (unknown_device_handle ctx path
                                     (out_slot rs2))))
      by (subst s3; cbn [st_heap]; apply lookup_insert_eq).
    assert (Hctx3 : st_heap s3 !! ctx = Some (O_ctx c)).
    { subst s3. cbn [st_heap].
      rewrite lookup_insert_ne by (intros Heq; apply Hne; symmetry; exact Heq).
      exact Hctx. }
    assert (Hrest : forall r,
              emits (r' <- (if (r <? 0) && is_unknown atype
                            then blz_connect_new fuel dev macstr (negb first)
                            else pure r) ;;
                     if r' <? 0 then blz_connect_exit r' dev
                     else blz_connect_resolved fuel ctx dev cb)
                (Forall (fun _ => True))).
    { intros r. apply emits_bind_all;
        [| intros r'; apply blz_connect_finish_anything].
      destruct (_ && _); [apply blz_connect_new_anything | anything]. }
    split; [|split].
    + destruct (blz_connect_subscribed_first_attempt
                  fuel ctx dev macstr atype cb
                  {| st_world := w2;
                     st_heap := <[dev := O_dev (set_dev_path path
                                                  (set_dev_ctx ctx zeroed_dev))]>
                                  (st_heap s);
                     st_trace := st_trace s
                       ++ [Ev_calloc dev; Ev_call query rs1] |}
                  (set_dev_path path (set_dev_ctx ctx zeroed_dev))
                  c rs2 w3) as [t' Ht'];
        [ cbn [st_heap]; apply lookup_insert_eq
        | cbn [st_heap];
          rewrite lookup_insert_ne
            by (intros Heq; apply Hne; symmetry; exact Heq);
          exact Hctx
        | cbn [st_world]; exact Hsub
        | exact Hok | ].
      rewrite (blz_connect_unknown_object fuel ctx macstr atype cb s
                 w1 c rs1 w2 Hcalloc Hctx Hlen Hq Hneg Hname).
      fold dev path query.
      exists t'. split; [|destruct atype; reflexivity].
      apply new_events_app. rewrite Ht'. cbn [st_trace dev_path set_dev_path].
      rewrite <- app_assoc. reflexivity.
    + intros a1 v1 a2 v2 a3 v3 a4 v4 a5 v5 a6 v6
        H1 Hok1 H2 Hok2 H3 Hok3 H4 Hok4 H5 Hok5 H6.
      destruct (blz_connect_new_issues fuel dev macstr first s3
                  (unknown_device_handle ctx path (out_slot rs2)) c
                  a1 v1 a2 v2 a3 v3 a4 v4 a5 v5 a6 v6)
        as [t1 Ht1]; try assumption.
      rewrite Hrun, Hby.
      rewrite bind_assoc.
      match goal with |- context [bind ?m ?k s3] =>
        destruct (bind_trace_extends m k s3 Hrest) as [t2 Ht2]
      end.
      exists (t1 ++ t2). apply new_events_app.
      rewrite Ht2, Ht1. subst s3. cbn [st_trace].
      rewrite <- !app_assoc. reflexivity.
    + intros r s4 Hfirst.
      assert (Heq : blz_connect fuel ctx macstr atype cb s =
                (r' <- (if (r <? 0) && is_unknown atype
                        then blz_connect_new fuel dev macstr true
                        else pure r) ;;
                 if r' <? 0 then blz_connect_exit r' dev
                 else blz_connect_resolved fuel ctx dev cb) s4).
      { rewrite Hrun, Hby. rewrite (bind_bind_done _ _ _ _ _ _ Hfirst).
        destruct ((r <? 0) && is_unknown atype) eqn:Hretry; [|reflexivity].
        apply andb_prop in Hretry as [_ Hu].
        subst first. destruct atype; try discriminate. reflexivity. }
      split; [exact Heq|].
      rewrite Heq.
      destruct (blz_connect_new_one_attempt fuel dev macstr first _ _ _ Hfirst)
        as (t1 & Ht1 & Ha1).
      match goal with |- context [snd (?K s4)] =>
        assert (HK : emits K
                  (fun t => attempts t
                            = if (r <? 0) && is_unknown atype
                              then ["public"] else []))
      end.
      { eapply emits_bind with
          (P1 := fun t => attempts t
                          = if (r <? 0) && is_unknown atype
                            then ["public"] else [])
          (P2 := Forall (fun e => is_attempt e = false)).
        - destruct (_ && _).
          + apply (blz_connect_new_one_attempt fuel dev macstr true).
          + apply emits_pure. reflexivity.
        - intros r'. destruct (r' <? 0); [apply blz_connect_exit_silent|].
          unfold blz_connect_resolved.
          apply emits_bind_all; [silent|]. intros r''.
          apply emits_bind_all; [silent|]. intros _.
          apply blz_connect_exit_silent.
        - auto.
        - intros t2 t3 H2 H3.
          rewrite attempts_app, H2, (attempts_none _ H3), app_nil_r.
          reflexivity. }
      destruct (emits_after _ _ s s4
                  ([Ev_calloc dev; Ev_call query rs1; Ev_call subscribe rs2]
                   ++ t1) HK)
        as (t2 & Hnew & Ha2).
      { rewrite Ht1. subst s3. cbn [st_trace].
        rewrite <- !app_assoc. reflexivity. }
      rewrite Hnew, !attempts_app, Ha1, Ha2.
      destruct ((r <? 0) && is_unknown atype) eqn:Hretry; [|reflexivity].
      apply andb_prop in Hretry as [_ Hu].
      subst first. destruct atype; try discriminate. reflexivity.
Qed.

End Properties.

(** * The properties on the test double *)

(** ** Waiting across the wrap of the millisecond counter *)

(** C2 fails on the code: [blz_loop_timeout] can report a timeout before the
    timeout has passed.  With the monotonic clock at 4294967.290 s and a
    timeout of 30000 ms the deadline [end_ms] wraps to 29994, below
    [current_ms]; the call returns -1 with the entry reading of the clock as
    its only event: it has not pumped the bus once and no time has passed,
    30 s before entry time plus timeout. *)
Theorem blz_loop_timeout_reports_timeout_at_entry :
  let s := session_with (O_dev (set_services_resolved false (handle 7)))
             late_clock in
  let run := blz_loop_timeout 10 1%N (Services_resolved_of 2%N) 30000 s in
  fst run = Done (-1)
  /\ st_trace (snd run)
     = [Ev_clock_gettime {| tv_sec := 4294967; tv_nsec := 290000000 |}]
  /\ ms_of_timespec {| tv_sec := 4294967; tv_nsec := 290000000 |} = 4294967290
  /\ to_uint32 (4294967290 + 30000) = 29994.
Proof. vm_compute. repeat split. Qed.

(** C9 at 4294967.290 s with a timeout of 30000 ms. *)
Lemma blz_loop_timeout_wrapped_deadline_witness :
  let s := session_with (O_dev (set_services_resolved false (handle 7)))
             late_clock in
  let ts := {| tv_sec := 4294967; tv_nsec := 290000000 |} in
  2 ^ 32 <= ms_of_timespec ts + 30000
  /\ blz_loop_timeout 10 1%N (Services_resolved_of 2%N) 30000 s =
       (Done (-1),
        {| st_world := no_script; st_heap := st_heap s;
           st_trace := st_trace s ++ [Ev_clock_gettime ts] |}).
Proof.
  intros s ts.
  assert (Hwrap : 2 ^ 32 <= ms_of_timespec ts + 30000) by (vm_compute; discriminate).
  split; [exact Hwrap|].
  apply (blz_loop_timeout_wrapped_deadline 10 1%N (Services_resolved_of 2%N)
           30000 s ts no_script false).
  - reflexivity.
  - reflexivity.
  - lia.
  - exact Hwrap.
Defined.

(** ** No services resolved *)

(** C3 fails on the code: when the wait for "ServicesResolved" times out,
    [blz_connect] does send the compensating [Disconnect], but
    [blz_disconnect] has released the handle (line 487) when the code at
    [exit] releases it again (line 427): the call ends in a second [free] of
    the handle, which is undefined behaviour, instead of returning NULL. *)
Theorem blz_connect_frees_handle_twice_on_timeout :
  let run := blz_connect 5 1%N mac_str BLZ_ADDR_UNKNOWN 9%N
               (session services_never_resolved) in
  fst run = Fault (Bad_free 2%N)
  /\ methods_called (st_trace (snd run)) = ["Connect"; "Disconnect"]
  /\ frees (st_trace (snd run)) = [NULL; NULL; 2%N; 2%N]
  /\ Ev_log LOG_ERR "BLZ timeout waiting for ServicesResolved" []
     ∈ st_trace (snd run).
Proof.
  vm_compute. repeat split.
  do 8 apply list_elem_of_further. apply list_elem_of_here.
Qed.

(** ** The first address type *)

(** C1 as stated fails: with the address type unspecified and the device
    unknown to BlueZ, the first [ConnectDevice] carries "random", not
    "public"; the retry carries "public". *)
Lemma blz_connect_first_attempt_is_random :
  let run := blz_connect 5 1%N mac_str BLZ_ADDR_UNKNOWN 9%N
               (session second_type_accepted) in
  fst run = Done 2%N
  /\ attempts (st_trace (snd run)) = ["random"; "public"]
  /\ omap issued_type (st_trace (snd run)) = ["random"; "public"]
  /\ hd_error (omap issued_type (st_trace (snd run))) <> Some "public".
Proof. vm_compute. repeat split. discriminate. Qed.

(** The fallback theorem in the scenario of the specification: the first
    [ConnectDevice] on the bus carries "random"; it is answered with another
    object path, so the first attempt returns -1 and the retry with "public"
    follows. *)
Lemma blz_connect_address_type_fallback_witness :
  let s := session second_type_accepted in
  let run := blz_connect 5 1%N mac_str BLZ_ADDR_UNKNOWN 9%N s in
  let query := sd_bus_get_property_trivial "org.bluez" mac_path
                 "org.bluez.Device1" "Connected" in
  let subscribe := sd_bus_match_signal "org.bluez" mac_path
                     "org.freedesktop.DBus.Properties" "PropertiesChanged"
                     blz_connect_cb_fn 2%N in
  let random_request :=
    {| mc_path := "/org/bluez/hci0"; mc_interface := "org.bluez.Adapter1";
       mc_member := "ConnectDevice";
       mc_properties := [("Address", mac_str); ("AddressType", "random")] |} in
  follows_plan ["random"; "public"] (connect_steps (new_events s (snd run)))
  = true
  /\ (exists t',
        new_events s (snd run)
        = [Ev_calloc 2%N; Ev_call query unknown_object;
           Ev_call subscribe slot_7;
           attempt_entry mac_str false;
           Ev_call (sd_bus_message_new_method_call "org.bluez"
                      "/org/bluez/hci0" "org.bluez.Adapter1" "ConnectDevice")
             (response_of 0);
           Ev_call (sd_bus_message_open_container "a" "{sv}") (response_of 0);
           Ev_call (msg_append_property "Address" mac_str) (response_of 0);
           Ev_call (msg_append_property "AddressType" "random") (response_of 0);
           Ev_call sd_bus_message_close_container (response_of 0);
           Ev_call (sd_bus_call_async random_request connect_new_cb_fn 2%N
                      15000000) (response_of 0)]
          ++ t')
  /\ attempts (new_events s (snd run)) = ["random"; "public"].
Proof.
  intros s run query subscribe random_request.
  set (w := {| sc_calloc := []; sc_clock := sc_clock second_type_accepted;
               sc_respond := [];
               sc_process := sc_process second_type_accepted |}).
  destruct (blz_connect_address_type_fallback
              5 1%N mac_str BLZ_ADDR_UNKNOWN 9%N s)
    as (_ & Hplan & Hscenario).
  destruct (Hscenario
              {| sc_calloc := []; sc_clock := sc_clock second_type_accepted;
                 sc_respond := sc_respond second_type_accepted;
                 sc_process := sc_process second_type_accepted |}
              hci0 unknown_object
              {| sc_calloc := []; sc_clock := sc_clock second_type_accepted;
                 sc_respond := [slot_7];
                 sc_process := sc_process second_type_accepted |}
              slot_7 w)
    as (_ & Hissued & Hretry).
  - reflexivity.
  - reflexivity.
  - vm_compute. reflexivity.
  - reflexivity.
  - vm_compute. reflexivity.
  - reflexivity.
  - reflexivity.
  - vm_compute. discriminate.
  - split; [exact Hplan|]. split.
    + destruct (Hissued (response_of 0) w (response_of 0) w (response_of 0) w
                  (response_of 0) w (response_of 0) w (response_of 0) w)
        as [t' Ht'];
        [ reflexivity | vm_compute; discriminate
        | reflexivity | vm_compute; discriminate
        | reflexivity | vm_compute; discriminate
        | reflexivity | vm_compute; discriminate
        | reflexivity | vm_compute; discriminate
        | reflexivity | ].
      exists t'. etransitivity; [exact Ht'|]. vm_compute. reflexivity.
    + match type of Hretry with
      | forall r s4, blz_connect_new ?f ?d ?m ?a ?s3 = _ -> _ =>
          destruct (Hretry (-1) (snd (blz_connect_new f d m a s3)))
            as [_ Hattempts]; [vm_compute; reflexivity|]
      end.
      exact Hattempts.
Defined.

(** The order theorem on the first [ConnectDevice] of the same scenario. *)
Lemma subscription_precedes_connect_call_witness :
  let s := session second_type_accepted in
  let t := st_trace (snd (blz_connect 5 1%N mac_str BLZ_ADDR_UNKNOWN 9%N s)) in
  is_connect_call (nth 9 t (Ev_calloc NULL)) = true
  /\ format_dev_path (ctx_path hci0) (blz_string_to_mac mac_str) = mac_path
  /\ fresh_pointer (st_heap s) = 2%N
  /\ exists c rs,
       st_heap s !! 1%N = Some (O_ctx c)
       /\ Ev_call
            (sd_bus_match_signal "org.bluez"
               (format_dev_path (ctx_path c) (blz_string_to_mac mac_str))
               "org.freedesktop.DBus.Properties" "PropertiesChanged"
               blz_connect_cb_fn (fresh_pointer (st_heap s))) rs
          ∈ take 9 t
       /\ 0 <= ret rs.
Proof.
  intros s t. split; [vm_compute; reflexivity|].
  split; [vm_compute; reflexivity|]. split; [vm_compute; reflexivity|].
  apply (subscription_precedes_connect_call 5 1%N mac_str BLZ_ADDR_UNKNOWN 9%N
           s (take 9 t) (nth 9 t (Ev_calloc NULL)) (drop 10 t)).
  - vm_compute. reflexivity.
  - vm_compute. reflexivity.
Defined.

(** ** The handler, on a reply with a foreign object path *)

Lemma connect_new_cb_stores_result_witness :
  let s := session_with (O_dev (handle 7)) no_script in
  let reply := connected_at "/org/bluez/hci0/dev_00_00_00_00_00_00" in
  let stored :=
    {| dev_ctx := 1%N; dev_path := mac_path; connected := true;
       services_resolved := true; connect_slot := 7%N; disconnect_cb := 9%N;
       service_uuids := NULL; char_uuids := NULL; connect_new_done := true;
       connect_new_result := -1 |} in
  st_heap s !! 2%N = Some (O_dev (handle 7))
  /\ connect_new_done (handle 7) = false
  /\ connect_new_result (handle 7) = 0
  /\ (exists t,
        connect_new_cb reply 2%N s =
          (Done (-1),
           {| st_world := st_world s;
              st_heap := <[2%N := O_dev stored]> (st_heap s);
              st_trace := st_trace s ++ t |}))
  /\ exists d',
       st_heap (snd (connect_new_cb reply 2%N s)) !! 2%N = Some (O_dev d')
       /\ connect_new_done d' = true
       /\ connect_new_result d' = -1.
Proof.
  intros s reply stored.
  assert (Hdev : st_heap s !! 2%N = Some (O_dev (handle 7))) by reflexivity.
  destruct (connect_new_cb_stores_result reply 2%N (handle 7) s Hdev)
    as ((t & Hrun & _) & (d' & Hd' & Hdone & Hres & _) & _).
  split; [exact Hdev|]. split; [reflexivity|]. split; [reflexivity|].
  split.
  - exists t. exact Hrun.
  - exists d'. split; [exact Hd'|]. split; [exact Hdone|]. exact Hres.
Defined.

(** ** Reading six bytes into a buffer of four *)

Lemma blz_char_read_returns_bytes_received_witness :
  let s := session_with (O_char (characteristic 2)) read_six_bytes in
  blz_char_read 2%N [x00; x00; x00; x00] 4 s =
    (Done (6, [x01; x02; x03; x04]),
     {| st_world := no_script; st_heap := st_heap s;
        st_trace := [Ev_call (read_request (characteristic 2)) (response_of 1);
                     Ev_call sd_bus_message_read_array six_bytes] |}).
Proof.
  intros s.
  apply (blz_char_read_returns_bytes_received s 2%N (characteristic 2) hci0
           [x00; x00; x00; x00] 4 (response_of 1)
           {| sc_calloc := []; sc_clock := []; sc_respond := [six_bytes];
              sc_process := [] |}
           six_bytes no_script).
  - reflexivity.
  - reflexivity.
  - vm_compute. discriminate.
  - reflexivity.
  - vm_compute. discriminate.
  - reflexivity.
  - vm_compute. discriminate.
  - vm_compute. reflexivity.
  - lia.
Defined.

(** ** A characteristic without any capability *)

(** C7 fails on the code for [blz_char_read]: on a characteristic without
    the read flag it does end before any traffic with the bus, but what it
    returns is [false] in a function that returns [int] (line 650), that
    is 0: the result of a successful read of an empty value, not a failure
    result.  Every other failure of [blz_char_read] returns -1 (the
    [(size_t)-1] that [rlen] starts with), and so does the capability check
    of [blz_char_write_fd_acquire]; the checks of [blz_char_write] and
    [blz_char_notify_start] return false. *)
Theorem blz_char_read_without_capability_returns_zero :
  let data := [x0a; x0b; x0c; x0d] in
  let unreadable := session_with (O_char (characteristic 0)) no_script in
  let empty_value := session_with (O_char (characteristic 2))
                       (answers [response_of 0; response_of 0]) in
  let refused := session_with (O_char (characteristic 2))
                   (answers [access_denied]) in
  blz_char_read 2%N data 4 unreadable =
    (Done (0, data),
     logged unreadable LOG_ERR "BLZ characteristic does not support read" [])
  /\ fst (blz_char_read 2%N data 4 empty_value) = Done (0, data)
  /\ methods_called (st_trace (snd (blz_char_read 2%N data 4 empty_value)))
     = ["ReadValue"]
  /\ fst (blz_char_read 2%N data 4 refused) = Done (-1, data)
  /\ fst (blz_char_write_fd_acquire 2%N unreadable) = Done (-1)
  /\ fst (blz_char_write 2%N data 4 unreadable) = Done false
  /\ fst (blz_char_notify_start 5 2%N 9%N unreadable) = Done false.
Proof. vm_compute. repeat split. Qed.

(** The capability checks on a characteristic without any capability. *)

Lemma capability_check_precedes_remote_call_witness :
  let s := session_with (O_char (characteristic 0)) no_script in
  blz_char_read 2%N [x00] 1 s =
    (Done (0, [x00]),
     logged s LOG_ERR "BLZ characteristic does not support read" [])
  /\ blz_char_write 2%N [x00] 1 s =
       (Done false,
        logged s LOG_ERR "BLZ characteristic does not support write" [])
  /\ blz_char_notify_start 5 2%N 9%N s =
       (Done false,
        logged s LOG_ERR "BLZ characteristic does not support notify" [])
  /\ blz_char_write_fd_acquire 2%N s =
       (Done (-1),
        logged s LOG_ERR
          "BLZ characteristic does not support write-without-response" []).
Proof.
  intros s.
  destruct (capability_check_precedes_remote_call s 2%N (characteristic 0)
              eq_refl) as (Hread & Hwrite & Hnotify & Hacquire).
  split; [apply Hread; reflexivity|].
  split; [apply Hwrite; reflexivity|].
  split; [apply Hnotify; reflexivity|].
  apply Hacquire; reflexivity.
Defined.

(** ** Disconnecting a handle whose subscription is gone *)

Lemma blz_disconnect_always_cleans_up_witness :
  let s := session_with_uuids disconnect_fails in
  exists s',
    blz_disconnect 2%N s = (Done tt, s')
    /\ st_trace s' =
         [Ev_call (disconnect_request released_handle) (response_of (-5));
          Ev_log LOG_ERR "BLZ failed to disconnect: %s" [""];
          Ev_free 4%N; Ev_free 5%N; Ev_free 3%N; Ev_free NULL; Ev_free 2%N]
    /\ st_heap s' !! 1%N = Some (O_ctx hci0)
    /\ st_heap s' !! 2%N = None.
Proof.
  intros s.
  destruct (blz_disconnect_always_cleans_up s 2%N released_handle hci0
              [4%N; 5%N] [] (response_of (-5)) no_script)
    as (s' & Hrun & _ & Htrace & Hheap).
  - reflexivity.
  - reflexivity.
  - reflexivity.
  - reflexivity.
  - apply (bool_decide_unpack (NoDup [4%N; 5%N; 3%N; 2%N])).
    vm_compute. exact I.
  - intros p Hp. cbn in Hp.
    repeat (apply elem_of_cons in Hp as [-> | Hp]);
      [ split; [discriminate | eexists; reflexivity] ..
      | apply elem_of_nil in Hp; contradiction ].
  - reflexivity.
  - exists s'. split; [exact Hrun|]. split; [exact Htrace|].
    split; [rewrite Hheap; reflexivity | rewrite Hheap; reflexivity].
Defined.

(** * The further properties on the test double *)

(** ** The poll engine *)

(** The services are not resolved within 30 s. *)
Lemma blz_loop_timeout_returns_the_flag_witness :
  let s := session_with (O_dev (set_services_resolved false (handle 7)))
             services_never_resolved in
  let s' := snd (blz_loop_timeout 5 1%N (Services_resolved_of 2%N) 30000 s) in
  (-1 = 0 /\ read_flag (Services_resolved_of 2%N) s' = (Done true, s'))
  \/ (-1 = -1 /\ read_flag (Services_resolved_of 2%N) s' = (Done false, s')).
Proof.
  intros s s'.
  apply (blz_loop_timeout_returns_the_flag 5 1%N (Services_resolved_of 2%N)
           30000 s (-1) s').
  vm_compute. reflexivity.
Defined.

Lemma blz_loop_timeout_keeps_its_budget_witness :
  let s := session_with (O_dev (set_services_resolved false (handle 7)))
             services_never_resolved in
  let run := blz_loop_timeout 5 1%N (Services_resolved_of 2%N) 30000 s in
  exists t,
    new_events s (snd run) = Ev_clock_gettime (seconds 0) :: t
    /\ within_budget 30000 0 t
    /\ (fst run = Done (-1) -> 30000 <= final_ms 0 t)
    /\ (fst run = Done (-1) -> 0 + 30000 < 2 ^ 32 -> 0 + 30000 <= final_ms 0 t).
Proof.
  intros s run.
  apply (blz_loop_timeout_keeps_its_budget 5 1%N (Services_resolved_of 2%N)
           30000 s (seconds 0)
           {| sc_calloc := []; sc_clock := [seconds 30]; sc_respond := [];
              sc_process := [] |}).
  reflexivity.
Defined.

Lemma blz_loop_timeout_returns_at_once_when_set_witness :
  let s := session_with (O_dev (handle 7)) late_clock in
  blz_loop_timeout 5 1%N (Services_resolved_of 2%N) 30000 s =
    (Done 0,
     {| st_world := no_script; st_heap := st_heap s;
        st_trace := st_trace s
          ++ [Ev_clock_gettime {| tv_sec := 4294967; tv_nsec := 290000000 |}] |}).
Proof.
  intros s. etransitivity.
  - apply (blz_loop_timeout_returns_at_once_when_set 5 1%N
             (Services_resolved_of 2%N) 30000 s).
    + reflexivity.
    + reflexivity.
  - vm_compute. reflexivity.
Defined.

(** ** Connecting *)

Lemma blz_connect_rejects_before_bus_witness :
  blz_connect 5 1%N mac_str BLZ_ADDR_UNKNOWN 9%N (session alloc_fails) =
    (Done NULL,
     {| st_world := no_script; st_heap := st_heap (session alloc_fails);
        st_trace := [Ev_calloc NULL; Ev_log LOG_ERR "blz_dev: alloc failed" []] |})
  /\ blz_connect 5 1%N mac_str BLZ_ADDR_UNKNOWN 9%N long_session =
       (Done NULL,
        {| st_world := no_script; st_heap := st_heap long_session;
           st_trace := [Ev_calloc 2%N;
                        Ev_log LOG_ERR
                          "BLZ connect failed to construct device path" [];
                        Ev_free 2%N] |}).
Proof.
  split.
  - etransitivity.
    { apply (proj1 (blz_connect_rejects_before_bus 5 1%N mac_str
                      BLZ_ADDR_UNKNOWN 9%N (session alloc_fails)) no_script).
      reflexivity. }
    vm_compute. reflexivity.
  - etransitivity.
    { apply (proj2 (blz_connect_rejects_before_bus 5 1%N mac_str
                      BLZ_ADDR_UNKNOWN 9%N long_session) no_script long_adapter).
      + reflexivity.
      + reflexivity.
      + vm_compute. discriminate. }
    vm_compute. reflexivity.
Defined.

Lemma blz_connect_query_failure_leaves_nothing_witness :
  let s1 := session (answers [access_denied]) in
  let s2 := session (answers [property_is true; access_denied]) in
  blz_connect 5 1%N mac_str BLZ_ADDR_UNKNOWN 9%N s1 =
    (Done NULL,
     {| st_world := no_script; st_heap := st_heap s1;
        st_trace := [Ev_calloc 2%N;
                     Ev_call (device_query mac_path "Connected") access_denied;
                     Ev_log LOG_ERR "BLZ failed to get connected: %s"
                       ["Access denied"];
                     Ev_free 2%N] |})
  /\ blz_connect 5 1%N mac_str BLZ_ADDR_UNKNOWN 9%N s2 =
       (Done NULL,
        {| st_world := no_script; st_heap := st_heap s2;
           st_trace := [Ev_calloc 2%N;
                        Ev_call (device_query mac_path "Connected")
                          (property_is true);
                        Ev_log LOG_NOTI "Device %s already was connected"
                          [mac_str];
                        Ev_call (device_query mac_path "ServicesResolved")
                          access_denied;
                        Ev_log LOG_ERR "BLZ failed to get ServicesResolved: %s"
                          ["Access denied"];
                        Ev_free 2%N] |}).
Proof.
  intros s1 s2. split.
  - etransitivity.
    { apply (proj1 (blz_connect_query_failure_leaves_nothing 5 1%N mac_str
                      BLZ_ADDR_UNKNOWN 9%N s1)
               (answers [access_denied]) hci0 access_denied no_script).
      + reflexivity.
      + reflexivity.
      + vm_compute. reflexivity.
      + reflexivity.
      + vm_compute. reflexivity.
      + vm_compute. discriminate. }
    vm_compute. reflexivity.
  - etransitivity.
    { apply (proj2 (blz_connect_query_failure_leaves_nothing 5 1%N mac_str
                      BLZ_ADDR_UNKNOWN 9%N s2)
               (answers [property_is true; access_denied]) hci0
               (property_is true) (answers [access_denied])
               access_denied no_script).
      + reflexivity.
      + reflexivity.
      + vm_compute. reflexivity.
      + reflexivity.
      + vm_compute. discriminate.
      + reflexivity.
      + reflexivity.
      + vm_compute. reflexivity. }
    vm_compute. reflexivity.
Defined.

Lemma blz_connect_does_not_reconnect_witness :
  let s := session already_resolved in
  Forall (fun e => is_connect_call e = false)
    (new_events s (snd (blz_connect 5 1%N mac_str BLZ_ADDR_UNKNOWN 9%N s))).
Proof.
  intros s.
  apply (blz_connect_does_not_reconnect 5 1%N mac_str BLZ_ADDR_UNKNOWN 9%N s
           already_resolved hci0 (property_is true)
           {| sc_calloc := []; sc_clock := [seconds 0];
              sc_respond := [property_is true; slot_7]; sc_process := [] |}).
  - reflexivity.
  - reflexivity.
  - vm_compute. reflexivity.
  - reflexivity.
  - vm_compute. discriminate.
  - reflexivity.
Defined.

Lemma blz_connect_hands_out_resolved_device_witness :
  let s := session already_resolved in
  blz_connect 5 1%N mac_str BLZ_ADDR_UNKNOWN 9%N s =
    (Done 2%N,
     {| st_world := no_script;
        st_heap := <[2%N := O_dev (handle 7)]> (st_heap s);
        st_trace :=
          [Ev_calloc 2%N;
           Ev_call (device_query mac_path "Connected") (property_is true);
           Ev_log LOG_NOTI "Device %s already was connected" [mac_str];
           Ev_call (device_query mac_path "ServicesResolved") (property_is true);
           Ev_call (device_subscription mac_path 2%N) slot_7;
           Ev_clock_gettime (seconds 0)] |}).
Proof.
  intros s. etransitivity.
  - apply (blz_connect_hands_out_resolved_device 5 1%N mac_str BLZ_ADDR_UNKNOWN
             9%N s already_resolved hci0 (property_is true)
             {| sc_calloc := []; sc_clock := [seconds 0];
                sc_respond := [property_is true; slot_7]; sc_process := [] |}
             (property_is true)
             {| sc_calloc := []; sc_clock := [seconds 0];
                sc_respond := [slot_7]; sc_process := [] |}
             slot_7
             {| sc_calloc := []; sc_clock := [seconds 0];
                sc_respond := []; sc_process := [] |}
             (seconds 0) no_script).
    + reflexivity.
    + reflexivity.
    + vm_compute. reflexivity.
    + reflexivity.
    + vm_compute. discriminate.
    + reflexivity.
    + reflexivity.
    + vm_compute. discriminate.
    + reflexivity.
    + reflexivity.
    + vm_compute. discriminate.
    + reflexivity.
  - vm_compute. reflexivity.
Defined.

Lemma blz_connect_failure_leaves_subscription_witness :
  let s := session (answers [property_is false; slot_7; access_denied]) in
  let s' := {| st_world := no_script; st_heap := st_heap s;
               st_trace :=
                 [Ev_calloc 2%N;
                  Ev_call (device_query mac_path "Connected") (property_is false);
                  Ev_call (device_subscription mac_path 2%N) slot_7;
                  Ev_call (connect_request mac_path) access_denied;
                  Ev_log LOG_ERR "BLZ connect failed: %s" ["Access denied"];
                  Ev_free 2%N] |} in
  blz_connect 5 1%N mac_str BLZ_ADDR_UNKNOWN 9%N s = (Done NULL, s')
  /\ forall m, blz_connect_cb m 2%N s' = (Fault (Bad_pointer 2%N), s').
Proof.
  intros s s'.
  destruct (blz_connect_failure_leaves_subscription 5 1%N mac_str
              BLZ_ADDR_UNKNOWN 9%N s
              (answers [property_is false; slot_7; access_denied]) hci0
              (property_is false) (answers [slot_7; access_denied])
              slot_7 (answers [access_denied]) access_denied no_script)
    as [Hrun Hcb].
  - reflexivity.
  - reflexivity.
  - vm_compute. reflexivity.
  - reflexivity.
  - vm_compute. discriminate.
  - reflexivity.
  - reflexivity.
  - vm_compute. discriminate.
  - reflexivity.
  - vm_compute. reflexivity.
  - split.
    + rewrite Hrun. vm_compute. reflexivity.
    + intros m. etransitivity; [|etransitivity; [exact (Hcb m)|]];
        vm_compute; reflexivity.
Defined.

Lemma blz_connect_result_is_ready_witness :
  let s' := snd (blz_connect 5 1%N mac_str BLZ_ADDR_UNKNOWN 9%N
                   (session second_type_accepted)) in
  exists d, st_heap s' !! 2%N = Some (O_dev d)
            /\ services_resolved d = true /\ connected d = true.
Proof.
  intros s'.
  apply (blz_connect_result_is_ready 5 1%N mac_str BLZ_ADDR_UNKNOWN 9%N
           (session second_type_accepted) 2%N s').
  - vm_compute. reflexivity.
  - discriminate.
Defined.

(** ** Scanning *)

Lemma blz_scan_start_subscribes_then_discovers_witness :
  let s1 := session (answers [access_denied]) in
  let s2 := session (answers [slot_7; response_of 0]) in
  let refused :=
    {| ctx_bus := 1%N; ctx_path := "/org/bluez/hci0"; scan_slot := NULL;
       scan_cb := 9%N |} in
  let accepted :=
    {| ctx_bus := 1%N; ctx_path := "/org/bluez/hci0"; scan_slot := 7%N;
       scan_cb := 9%N |} in
  (blz_scan_start 1%N 9%N s1 =
     (Done false,
      {| st_world := no_script;
         st_heap := <[1%N := O_ctx refused]> (st_heap s1);
         st_trace := [Ev_call (scan_subscription 1%N) access_denied;
                      Ev_log LOG_ERR "BLZ Failed to notify" []] |})
   /\ exists c',
        st_heap (snd (blz_scan_start 1%N 9%N s1)) !! 1%N = Some (O_ctx c')
        /\ scan_cb c' = 9%N /\ scan_slot c' = NULL)
  /\ (blz_scan_start 1%N 9%N s2 =
        (Done true,
         {| st_world := no_script;
            st_heap := <[1%N := O_ctx accepted]> (st_heap s2);
            st_trace := [Ev_call (scan_subscription 1%N) slot_7;
                         Ev_call (adapter_call hci0 "StartDiscovery")
                           (response_of 0)] |})
      /\ exists c',
           st_heap (snd (blz_scan_start 1%N 9%N s2)) !! 1%N = Some (O_ctx c')
           /\ scan_cb c' = 9%N /\ scan_slot c' = 7%N).
Proof.
  intros s1 s2 refused accepted. split.
  - destruct (blz_scan_start_subscribes_then_discovers 1%N 9%N s1 hci0
                access_denied no_script) as [Hrefused _];
      [reflexivity | reflexivity |].
    destruct Hrefused as [Hrun Hread]; [vm_compute; reflexivity|].
    split; [|exact Hread].
    etransitivity; [exact Hrun|]. vm_compute. reflexivity.
  - destruct (blz_scan_start_subscribes_then_discovers 1%N 9%N s2 hci0
                slot_7 (answers [response_of 0])) as [_ Haccepted];
      [reflexivity | reflexivity |].
    destruct (Haccepted ltac:(vm_compute; discriminate)
                (response_of 0) no_script) as [Hrun Hread]; [reflexivity|].
    split; [|exact Hread].
    etransitivity; [exact Hrun|]. vm_compute. reflexivity.
Defined.


(** ** Notifications *)

Lemma blz_char_notify_start_true_means_notifying_witness :
  let s := session_with (O_char (characteristic 16)) notify_accepted in
  let s' := snd (blz_char_notify_start 5 2%N 9%N s) in
  exists c', st_heap s' !! 2%N = Some (O_char c') /\ notifying c' = true.
Proof.
  intros s s'.
  apply (blz_char_notify_start_true_means_notifying 5 2%N 9%N s s').
  vm_compute. reflexivity.
Defined.

Lemma blz_char_notify_start_hides_refused_start_witness :
  let c := set_notifying true (characteristic 16) in
  let s := session_with (O_char c) start_refused in
  blz_char_notify_start 5 2%N 9%N s =
    (Done true,
     {| st_world := no_script;
        st_heap := <[2%N := O_char (set_notify_slot 7%N (set_notify_cb 9%N c))]>
                     (st_heap s);
        st_trace := st_trace s
          ++ [Ev_call (notify_subscription c 2%N) slot_7;
              Ev_call (char_call c "StartNotify" "") access_denied;
              Ev_log LOG_ERR "BLZ Failed to start notify: %s"
                [err_message (out_error access_denied)];
              Ev_clock_gettime (seconds 0)] |}).
Proof.
  intros c s.
  apply (blz_char_notify_start_hides_refused_start 5 2%N 9%N s c hci0
           slot_7
           {| sc_calloc := []; sc_clock := [seconds 0];
              sc_respond := [access_denied]; sc_process := [] |}
           access_denied
           {| sc_calloc := []; sc_clock := [seconds 0];
              sc_respond := []; sc_process := [] |}
           (seconds 0) no_script).
  - reflexivity.
  - vm_compute. discriminate.
  - reflexivity.
  - reflexivity.
  - reflexivity.
  - vm_compute. discriminate.
  - reflexivity.
  - vm_compute. reflexivity.
  - reflexivity.
Defined.

Lemma blz_char_notify_stop_always_unsubscribes_witness :
  let s := session_with (O_char subscribed) (answers [response_of 0]) in
  let s' :=
    {| st_world := no_script;
       st_heap := <[2%N := O_char (set_notify_cb NULL
                                     (set_notify_slot NULL subscribed))]>
                    (st_heap s);
       st_trace := st_trace s
         ++ [Ev_call (char_call subscribed "StopNotify" "") (response_of 0)]
         ++ []
         ++ [Ev_slot_unref 7%N] |} in
  blz_char_notify_stop 2%N s = (Done true, s')
  /\ blz_char_notify_stop 2%N s' = (Done false, s')
  /\ forall m,
       blz_notify_cb m 2%N s' =
         (Done (-1), logged s' LOG_ERR "BLZ signal no callback" []).
Proof.
  intros s s'.
  apply (blz_char_notify_stop_always_unsubscribes 2%N s subscribed hci0
           (response_of 0) no_script).
  - discriminate.
  - reflexivity.
  - discriminate.
  - reflexivity.
  - reflexivity.
Defined.

(** ** Reading and writing *)

Lemma blz_char_write_true_means_written_witness :
  let c := characteristic 8 in
  let s := session_with (O_char c) no_script in
  let s' := snd (blz_char_write 2%N [x01; x02; x03] 2 s) in
  exists c' rs t,
    st_heap s !! 2%N = Some (O_char c')
    /\ Z.land (ch_flags c') (Z.lor BLZ_CHAR_WRITE BLZ_CHAR_WRITE_WITHOUT_RESPONSE)
       <> 0
    /\ new_events s s'
       = t ++ [Ev_call (sd_bus_call (write_value c')
                          (take (Z.to_nat 2) [x01; x02; x03])) rs]
    /\ 0 <= ret rs.
Proof.
  intros c s s'.
  apply (blz_char_write_true_means_written 2%N [x01; x02; x03] 2 s s').
  vm_compute. reflexivity.
Defined.

Lemma blz_char_read_stays_in_buffer_witness :
  let s := session_with (O_char (characteristic 2)) read_six_bytes in
  let data := [x00; x00; x00; x00; x0a; x0b] in
  let data' := snd (default (0, []) (match fst (blz_char_read 2%N data 4 s) with
                                     | Done a => Some a
                                     | _ => None
                                     end)) in
  data' = [x01; x02; x03; x04; x0a; x0b]
  /\ length data' = length data
  /\ drop (Z.to_nat 4) data' = drop (Z.to_nat 4) data.
Proof.
  intros s data data'. split; [vm_compute; reflexivity|].
  apply (blz_char_read_stays_in_buffer 2%N data 4 s 6 data'
           (snd (blz_char_read 2%N data 4 s))).
  - vm_compute. reflexivity.
  - vm_compute. split; discriminate.
Defined.

Lemma blz_char_read_failure_leaves_buffer_witness :
  let c := characteristic 2 in
  let s1 := session_with (O_char c) (answers [access_denied]) in
  let s2 := session_with (O_char c) (answers [response_of 0; access_denied]) in
  blz_char_read 2%N [x0a; x0b] 2 s1 =
    (Done (-1, [x0a; x0b]),
     {| st_world := no_script; st_heap := st_heap s1;
        st_trace := st_trace s1
          ++ [Ev_call (read_request c) access_denied;
              Ev_log LOG_ERR "BLZ failed to read: %s"
                [err_message (out_error access_denied)]] |})
  /\ blz_char_read 2%N [x0a; x0b] 2 s2 =
       (Done (-1, [x0a; x0b]),
        {| st_world := no_script; st_heap := st_heap s2;
           st_trace := st_trace s2
             ++ [Ev_call (read_request c) (response_of 0);
                 Ev_call sd_bus_message_read_array access_denied;
                 Ev_log LOG_ERR "BLZ failed to read result: %s" []] |}).
Proof.
  intros c s1 s2. split.
  - destruct (blz_char_read_failure_leaves_buffer 2%N [x0a; x0b] 2 s1 c
                hci0 access_denied no_script) as [Hcall _];
      [reflexivity | vm_compute; discriminate | reflexivity | reflexivity |].
    apply Hcall. vm_compute. reflexivity.
  - destruct (blz_char_read_failure_leaves_buffer 2%N [x0a; x0b] 2 s2 c
                hci0 (response_of 0) (answers [access_denied]))
      as [_ Hdecode];
      [reflexivity | vm_compute; discriminate | reflexivity | reflexivity |].
    apply (Hdecode ltac:(vm_compute; discriminate) access_denied no_script).
    + reflexivity.
    + vm_compute. reflexivity.
Defined.

Lemma blz_char_write_fd_acquire_returns_duplicate_witness :
  let s := session_with (O_char (characteristic 4)) acquire_accepted in
  let s' := snd (blz_char_write_fd_acquire 2%N s) in
  exists c rs1 rs2 rs3,
    st_heap s !! 2%N = Some (O_char c)
    /\ Z.land (ch_flags c) BLZ_CHAR_WRITE_WITHOUT_RESPONSE <> 0
    /\ new_events s s'
       = [Ev_call (char_call c "AcquireWrite" "a{sv}") rs1;
          Ev_call sd_bus_message_read_fd rs2;
          Ev_call (dup (out_fd rs2)) rs3]
    /\ 0 <= ret rs1 /\ 0 <= ret rs2 /\ 6 = ret rs3.
Proof.
  intros s s'.
  apply (blz_char_write_fd_acquire_returns_duplicate 2%N s 6 s').
  - vm_compute. reflexivity.
  - vm_compute. discriminate.
Defined.

(** ** Connecting by address *)

Lemma blz_connect_new_result_is_the_reply_witness :
  let s := session_with (O_dev (handle 7)) connect_device_accepted in
  let s' := snd (blz_connect_new 5 2%N mac_str false s) in
  exists d c d' rs,
    st_heap s !! 2%N = Some (O_dev d)
    /\ st_heap s !! dev_ctx d = Some (O_ctx c)
    /\ Ev_call (sd_bus_call_async (connect_device c mac_str false)
                  connect_new_cb_fn 2%N (CONNECT_NEW_TIMEOUT * 1000000)) rs
       ∈ new_events s s'
    /\ 0 <= ret rs
    /\ st_heap s' !! 2%N = Some (O_dev d')
    /\ connect_new_done d' = true
    /\ connect_new_result d' = 1.
Proof.
  intros s s'.
  apply (blz_connect_new_result_is_the_reply 5 2%N mac_str false s 1 s').
  - vm_compute. reflexivity.
  - lia.
Defined.

(** ** The device path *)

Lemma format_dev_path_tells_addresses_apart_witness :
  let mac := [170; 187; 204; 221; 238; 255] in
  format_dev_path "/org/bluez/hci0" mac = mac_path /\ mac = mac.
Proof.
  intros mac. split; [reflexivity|].
  apply (format_dev_path_tells_addresses_apart "/org/bluez/hci0" mac mac).
  - reflexivity.
  - reflexivity.
  - repeat constructor; lia.
  - repeat constructor; lia.
  - reflexivity.
Defined.

(** ** Session teardown *)

Lemma blz_fini_leaves_handles_behind_witness :
  let s := session_with (O_dev (handle 7)) no_script in
  let s1 := {| st_world := st_world s; st_heap := delete 1%N (st_heap s);
               st_trace := st_trace s ++ [Ev_bus_unref (ctx_bus hci0);
                                          Ev_free 1%N] |} in
  blz_fini 1%N s = (Done tt, s1)
  /\ st_heap s1 !! 2%N = Some (O_dev (handle 7))
  /\ fst (blz_disconnect 2%N s1) = Fault (Bad_pointer 1%N)
  /\ methods_called (new_events s1 (snd (blz_disconnect 2%N s1))) = []
  /\ frees (new_events s1 (snd (blz_disconnect 2%N s1))) = [].
Proof.
  intros s s1.
  apply (blz_fini_leaves_handles_behind 1%N 2%N s hci0 (handle 7)).
  - discriminate.
  - discriminate.
  - reflexivity.
  - reflexivity.
  - reflexivity.
Defined.

(** ** The handle of a failed [blz_connect] *)

Lemma blz_connect_failure_frees_handle_witness :
  let s := session (answers [property_is false; slot_7; access_denied]) in
  let s' := snd (blz_connect 5 1%N mac_str BLZ_ADDR_UNKNOWN 9%N s) in
  fresh_pointer (st_heap s) = 2%N
  /\ st_heap s' !! fresh_pointer (st_heap s) = None.
Proof.
  intros s s'. split; [vm_compute; reflexivity|].
  apply (blz_connect_failure_frees_handle 5 1%N mac_str BLZ_ADDR_UNKNOWN 9%N
           s s').
  vm_compute. reflexivity.
Defined.
